(** * Django-Dynamic-Table: a shallow embedding of [models.py]

    The development follows [django_dynamic_table/models.py]:

    - Python values, exceptions and the builtins the module calls;
    - [CellValue]: [__validate_data_type__], [clean], [save] with the
      [full_clean] it calls, [get_value];
    - the relational store behind the four models, with its many-to-many
      link tables, and a state monad in which a raised exception keeps the
      store reached so far (the module opens no transaction);
    - [DynamicTable]: [table_info], [is_column], [data_type_is_supported],
      [add_column], [bulk_add_columns], [add_row], [bulk_add_rows], the
      deletions and the read operations; [TableRow.to_dict];
    - the properties of the specification, one theorem per claim (C1 to
      C10), and further properties of the code (X1 to X22).

    Strings are ASCII text: [str.lower], [str.strip] and [str.title] are
    modelled on the ASCII range only. *)

From Stdlib Require Import ZArith String Ascii List Bool Lia.
From stdpp Require Import base option list strings gmap fin_maps pretty.

Local Open Scope string_scope.
Local Open Scope Z_scope.
Local Open Scope list_scope.

(** ** Exceptions *)

Inductive exn : Type :=
  | ValueError | TypeError | OverflowError | AttributeError | SyntaxError
  | NameError | SystemExit | KeyboardInterrupt
  | IntegrityError | DoesNotExist | MultipleObjectsReturned
  | DynamicTableError
  | TableHaveNoColumn | TableHaveNoRow | ColumnNotInTable | RowNotInTable
  | DuplicateColumnInTable
  | UnSupportedDataType
  | CantParseValueToDataType | CellDoesNotExist.

Inductive result (A : Type) : Type :=
  | Ok (a : A)
  | Raise (e : exn).
Arguments Ok {A} a.
Arguments Raise {A} e.

(** [except Exception] catches everything but the exceptions that derive
    from [BaseException] directly. *)
Definition is_Exception (e : exn) : bool :=
  match e with SystemExit | KeyboardInterrupt => false | _ => true end.

Definition result_bind {A B} (r : result A) (k : A → result B) : result B :=
  match r with Ok a => k a | Raise e => Raise e end.

(** ** The Python builtins the module relies on

    [float], [int] on a float, [repr] of a float, [datetime.fromisoformat],
    [datetime.isoformat] and [eval] are not part of the repository. They are
    taken as an interface; every definition below is written against it. *)

Inductive int_of_float_result : Type :=
  | IntOk (z : Z)          (* int(f) *)
  | IntNaN                 (* ValueError: cannot convert float NaN to integer *)
  | IntInfinite.           (* OverflowError: cannot convert float infinity *)

Class PyBuiltins : Type := {
  pyfloat : Type;
  pydatetime : Type;
  (* float(s) on a str; None is ValueError *)
  float_of_str : string → option pyfloat;
  (* float(n) on an int; None is OverflowError *)
  float_of_int : Z → option pyfloat;
  (* int(f) on a float *)
  int_of_float : pyfloat → int_of_float_result;
  (* str(f) on a float *)
  float_str : pyfloat → string;
  (* bool(f) is False exactly on zeros *)
  float_is_zero : pyfloat → bool;
  (* datetime.fromisoformat(s); None is ValueError *)
  fromisoformat : string → option pydatetime;
  (* d.isoformat() and str(d) *)
  isoformat : pydatetime → string;
  datetime_str : pydatetime → string;
}.

Section Values.
Context {B : PyBuiltins}.

Inductive PyVal : Type :=
  | PyNone
  | PyBool (b : bool)
  | PyInt (z : Z)
  | PyFloat (f : pyfloat)
  | PyStr (s : string)
  | PyDateTime (d : pydatetime).

(** [isinstance(v, int)]: [bool] is a subclass of [int]. *)
Definition isinstance_int (v : PyVal) : bool :=
  match v with PyBool _ | PyInt _ => true | _ => false end.

Definition isinstance_float (v : PyVal) : bool :=
  match v with PyFloat _ => true | _ => false end.

Definition isinstance_bool (v : PyVal) : bool :=
  match v with PyBool _ => true | _ => false end.

Definition isinstance_str (v : PyVal) : bool :=
  match v with PyStr _ => true | _ => false end.

(** Truth value testing, as in [if value:]. *)
Definition truthy (v : PyVal) : bool :=
  match v with
  | PyNone => false
  | PyBool b => b
  | PyInt z => negb (z =? 0)
  | PyFloat f => negb (float_is_zero f)
  | PyStr s => negb (String.eqb s "")
  | PyDateTime _ => true
  end.

(** [str(v)]. *)
Definition py_str (v : PyVal) : string :=
  match v with
  | PyNone => "None"
  | PyBool true => "True"
  | PyBool false => "False"
  | PyInt z => pretty z
  | PyFloat f => float_str f
  | PyStr s => s
  | PyDateTime d => datetime_str d
  end.

(** [float(v)]. *)
Definition py_float (v : PyVal) : result pyfloat :=
  match v with
  | PyNone => Raise TypeError
  | PyBool b =>
      match float_of_int (Z.b2z b) with Some f => Ok f | None => Raise OverflowError end
  | PyInt z =>
      match float_of_int z with Some f => Ok f | None => Raise OverflowError end
  | PyFloat f => Ok f
  | PyStr s =>
      match float_of_str s with Some f => Ok f | None => Raise ValueError end
  | PyDateTime _ => Raise TypeError
  end.

(** [int(f)] on a float. *)
Definition py_int_of_float (f : pyfloat) : result Z :=
  match int_of_float f with
  | IntOk z => Ok z
  | IntNaN => Raise ValueError
  | IntInfinite => Raise OverflowError
  end.

(** [int(float(v))]. *)
Definition py_int_float (v : PyVal) : result Z :=
  result_bind (py_float v) py_int_of_float.

End Values.

(** [eval] on a source string other than the literals the module writes. *)
Class PyEval `{PyBuiltins} : Type := {
  eval_expr : string → result PyVal;
}.

(** ** ASCII string methods *)

Definition is_upper (c : ascii) : bool :=
  let n := nat_of_ascii c in (65 <=? n)%nat && (n <=? 90)%nat.

Definition is_lower (c : ascii) : bool :=
  let n := nat_of_ascii c in (97 <=? n)%nat && (n <=? 122)%nat.

Definition is_cased (c : ascii) : bool := is_upper c || is_lower c.

(** [str.isspace] on ASCII: tab, LF, VT, FF, CR, FS, GS, RS, US, space. *)
Definition is_space (c : ascii) : bool :=
  let n := nat_of_ascii c in
  ((9 <=? n)%nat && (n <=? 13)%nat) || ((28 <=? n)%nat && (n <=? 32)%nat).

Definition lower_char (c : ascii) : ascii :=
  if is_upper c then ascii_of_nat (nat_of_ascii c + 32) else c.

Definition upper_char (c : ascii) : ascii :=
  if is_lower c then ascii_of_nat (nat_of_ascii c - 32) else c.

(** [s.lower()] *)
Fixpoint lower (s : string) : string :=
  match s with
  | EmptyString => EmptyString
  | String c s' => String (lower_char c) (lower s')
  end.

Fixpoint lstrip (s : string) : string :=
  match s with
  | EmptyString => EmptyString
  | String c s' => if is_space c then lstrip s' else s
  end.

Fixpoint rstrip (s : string) : string :=
  match s with
  | EmptyString => EmptyString
  | String c s' =>
      match rstrip s' with
      | EmptyString => if is_space c then EmptyString else String c EmptyString
      | r => String c r
      end
  end.

(** [s.strip()] *)
Definition strip (s : string) : string := rstrip (lstrip s).

Fixpoint title_from (previous_is_cased : bool) (s : string) : string :=
  match s with
  | EmptyString => EmptyString
  | String c s' =>
      String (if previous_is_cased then lower_char c else upper_char c)
             (title_from (is_cased c) s')
  end.

(** [s.title()] *)
Definition title (s : string) : string := title_from false s.

(** ** [CellValue]: coercion on write, decoding on read *)

Section Cell.
Context {B : PyBuiltins} {E : PyEval}.

(** [CellValue.__validate_data_type__(self, value, data_type)].

    [self_value] is [self.value] on entry; the result is [self.value] on
    exit, or the exception raised. Branches that do not assign leave
    [self.value] as it was. *)
Definition __validate_data_type__
    (self_value value : PyVal) (data_type : string) : result PyVal :=
  if (String.eqb data_type "char" || String.eqb data_type "textfield")%bool then
    Ok (PyStr (py_str value))
  else if String.eqb data_type "int" then
    if negb (isinstance_int value) then
      if truthy value then
        match py_int_float value with
        | Ok z => Ok (PyInt z)
        | Raise ValueError => Raise CantParseValueToDataType
        | Raise e => Raise e
        end
      else Ok (PyStr "")
    else Ok self_value
  else if String.eqb data_type "float" then
    if negb (isinstance_float value) then
      if truthy value then
        match py_float value with
        | Ok f => Ok (PyFloat f)
        | Raise ValueError => Raise CantParseValueToDataType
        | Raise e => Raise e
        end
      else Ok (PyStr "")
    else Ok self_value
  else if String.eqb data_type "datetime" then
    if truthy value then
      if isinstance_str value then
        match self_value with
        | PyStr s =>
            match fromisoformat (lower (strip s)) with
            | Some d => Ok (PyStr (isoformat d))
            | None => Ok (PyStr "")
            end
        | _ => Raise AttributeError      (* self.value.strip *)
        end
      else
        match value with
        | PyDateTime d => Ok (PyStr (isoformat d))
        | _ => Ok (PyStr "")              (* except Exception *)
        end
    else Ok (PyStr "")
  else if String.eqb data_type "bool" then
    if truthy value then
      if negb (isinstance_bool value) then
        let value' := title (strip (py_str value)) in
        if String.eqb value' "True" then Ok (PyBool true)
        else if String.eqb value' "False" then Ok (PyBool false)
        else Raise CantParseValueToDataType
      else Ok self_value
    else Ok (PyStr "")
  else Ok self_value.

(** [CellValue.clean]: [self.__validate_data_type__(self.value, ...)]. *)
Definition clean (self_value : PyVal) (column_data_type : string) : result PyVal :=
  __validate_data_type__ self_value self_value column_data_type.

(** [self.clean_fields()] on the [value] attribute, the first pass of
    [full_clean]. [value] is a [TextField(blank=True)]: an empty value
    ([None] or the empty string) is left as it is, a [str] is kept, and
    anything else is replaced by its text, [str(value)]. *)
Definition clean_fields (self_value : PyVal) : PyVal :=
  match self_value with
  | PyNone => PyNone
  | PyStr s => PyStr s
  | v => PyStr (py_str v)
  end.

(** [self.full_clean()], as [CellValue.save] calls it: the fields are
    cleaned, then [clean] runs on what that left in [self.value]. *)
Definition full_clean (self_value : PyVal) (column_data_type : string) : result PyVal :=
  clean (clean_fields self_value) column_data_type.

(** [eval(v)]: a [str] is evaluated, anything else is a [TypeError]. The
    empty source is a [SyntaxError]; [True] and [False] are the constants. *)
Definition py_eval (v : PyVal) : result PyVal :=
  match v with
  | PyStr s =>
      if String.eqb s "True" then Ok (PyBool true)
      else if String.eqb s "False" then Ok (PyBool false)
      else if String.eqb s "" then Raise SyntaxError
      else eval_expr s
  | _ => Raise TypeError
  end.

(** [CellValue.get_value(self)], with [self.value] and
    [self.table_column.column_data_type] as arguments. Falling off the end
    of the function returns [None]. *)
Definition get_value (self_value : PyVal) (data_type : string) : result PyVal :=
  if (String.eqb data_type "char" || String.eqb data_type "textfield")%bool then
    Ok self_value
  else if String.eqb data_type "int" then
    match py_int_float self_value with
    | Ok z => Ok (PyInt z)
    | Raise ValueError => Ok self_value
    | Raise e => Raise e
    end
  else if String.eqb data_type "float" then
    match py_float self_value with
    | Ok f => Ok (PyFloat f)
    | Raise ValueError => Ok self_value
    | Raise e => Raise e
    end
  else if String.eqb data_type "bool" then
    match py_eval self_value with
    | Ok v => Ok v
    | Raise e => if is_Exception e then Ok self_value else Raise e
    end
  else if String.eqb data_type "datetime" then
    match self_value with
    | PyStr s =>
        match fromisoformat s with
        | Some d => Ok (PyDateTime d)
        | None => Ok self_value
        end
    | _ => Raise TypeError
    end
  else Ok PyNone.

End Cell.

(** ** The relational store

    One list per model manager ([objects]), in primary-key order, and one
    list per many-to-many relation (the link rows). A table is referred to
    by the primary key of its [DynamicTable] row. *)

Section Store.
Context {B : PyBuiltins} {E : PyEval}.

Record TableColumn : Type := mkTableColumn {
  column_id : nat;
  column_table : nat;
  column_name : string;
  column_data_type : string;
}.

Record TableRow : Type := mkTableRow {
  row_id : nat;
  row_table : nat;
}.

(** In the store, [value] is the text the [TextField] holds; on an object in
    memory it is whatever [clean] left in [self.value]. *)
Record CellValue : Type := mkCellValue {
  cell_id : nat;
  value : PyVal;
  cell_table : nat;
  table_column : nat;
  table_row : nat;
}.

Record Store : Type := mkStore {
  TableColumn_objects : list TableColumn;
  TableRow_objects : list TableRow;
  CellValue_objects : list CellValue;
  table_columns : list (nat * nat);   (* DynamicTable.table_columns: (table, column) *)
  table_rows : list (nat * nat);      (* DynamicTable.table_rows: (table, row) *)
  column_cells : list (nat * nat);    (* TableColumn.column_cells: (column, cell) *)
  row_cells : list (nat * nat);       (* TableRow.row_cells: (row, cell) *)
  next_column_id : nat;
  next_row_id : nat;
  next_cell_id : nat;
}.

Definition empty_store : Store :=
  mkStore [] [] [] [] [] [] [] 1%nat 1%nat 1%nat.

(** *** State with exceptions: a raise keeps the store as it is *)

Definition M (A : Type) : Type := Store → Store * result A.

#[export] Instance M_ret : MRet M := λ A a db, (db, Ok a).
#[export] Instance M_bind : MBind M := λ A C k m db,
  match m db with
  | (db', Ok a) => k a db'
  | (db', Raise e) => (db', Raise e)
  end.

Definition raise {A} (e : exn) : M A := λ db, (db, Raise e).
Definition get_store : M Store := λ db, (db, Ok db).
Definition lift_result {A} (r : result A) : M A := λ db, (db, r).

(** [related.add(obj)]: a link row is inserted unless it is there already. *)
Definition link_add (links : list (nat * nat)) (l : nat * nat) : list (nat * nat) :=
  if bool_decide (l ∈ links) then links else links ++ [l].

Definition links_add (links : list (nat * nat)) (ls : list (nat * nat)) :=
  foldl link_add links ls.

(** *** Querysets *)

(** [self.table_columns.all()] *)
Definition table_columns_all (db : Store) (self : nat) : list TableColumn :=
  filter (λ c, (self, column_id c) ∈ table_columns db) (TableColumn_objects db).

(** [self.table_rows.all()] *)
Definition table_rows_all (db : Store) (self : nat) : list TableRow :=
  filter (λ r, (self, row_id r) ∈ table_rows db) (TableRow_objects db).

(** [column.column_cells.all()] *)
Definition column_cells_all (db : Store) (column : TableColumn) : list CellValue :=
  filter (λ c, (column_id column, cell_id c) ∈ column_cells db) (CellValue_objects db).

(** [row.row_cells.all()] *)
Definition row_cells_all (db : Store) (row : TableRow) : list CellValue :=
  filter (λ c, (row_id row, cell_id c) ∈ row_cells db) (CellValue_objects db).

(** [queryset.get(...)] on the matches of its filter. *)
Definition queryset_get {A} (matches : list A) : result A :=
  match matches with
  | [] => Raise DoesNotExist
  | [x] => Ok x
  | _ => Raise MultipleObjectsReturned
  end.

(** *** Managers *)

(** [TableColumn(...).save()] and [TableColumn.objects.create(...)];
    [column_name] is declared [unique=True]. *)
Definition TableColumn_create (table : nat) (name data_type : string) : M TableColumn :=
  λ db,
    if bool_decide (name ∈ column_name <$> TableColumn_objects db) then
      (db, Raise IntegrityError)
    else
      let column := mkTableColumn (next_column_id db) table name data_type in
      (mkStore (TableColumn_objects db ++ [column]) (TableRow_objects db)
               (CellValue_objects db) (table_columns db) (table_rows db)
               (column_cells db) (row_cells db)
               (S (next_column_id db)) (next_row_id db) (next_cell_id db),
       Ok column).

(** [TableRow.objects.create(table=self)] *)
Definition TableRow_create (table : nat) : M TableRow :=
  λ db,
    let row := mkTableRow (next_row_id db) table in
    (mkStore (TableColumn_objects db) (TableRow_objects db ++ [row])
             (CellValue_objects db) (table_columns db) (table_rows db)
             (column_cells db) (row_cells db)
             (next_column_id db) (S (next_row_id db)) (next_cell_id db),
     Ok row).

(** [CellValue.save]: [self.full_clean()], then [super().save()] writes the
    row. The [TextField] holds [str(self.value)] and is not nullable. *)
Definition CellValue_save (cell : CellValue) (data_type : string) : M CellValue :=
  λ db,
    match full_clean (value cell) data_type with
    | Raise e => (db, Raise e)
    | Ok PyNone => (db, Raise IntegrityError)
    | Ok v =>
        let saved := mkCellValue (next_cell_id db) v
                       (cell_table cell) (table_column cell) (table_row cell) in
        let stored := mkCellValue (next_cell_id db) (PyStr (py_str v))
                       (cell_table cell) (table_column cell) (table_row cell) in
        (mkStore (TableColumn_objects db) (TableRow_objects db)
                 (CellValue_objects db ++ [stored]) (table_columns db) (table_rows db)
                 (column_cells db) (row_cells db)
                 (next_column_id db) (next_row_id db) (S (next_cell_id db)),
         Ok saved)
    end.

(** [CellValue.objects.create(value=..., table=..., table_column=...,
    table_row=...)] *)
Definition CellValue_create (cell_value : PyVal) (table : nat)
    (column : TableColumn) (row : TableRow) : M CellValue :=
  CellValue_save (mkCellValue 0%nat cell_value table (column_id column) (row_id row))
                 (column_data_type column).

Definition table_columns_add (self : nat) (columns : list TableColumn) : M unit :=
  λ db,
    (mkStore (TableColumn_objects db) (TableRow_objects db) (CellValue_objects db)
             (links_add (table_columns db) ((λ c, (self, column_id c)) <$> columns))
             (table_rows db) (column_cells db) (row_cells db)
             (next_column_id db) (next_row_id db) (next_cell_id db),
     Ok tt).

Definition table_rows_add (self : nat) (row : TableRow) : M unit :=
  λ db,
    (mkStore (TableColumn_objects db) (TableRow_objects db) (CellValue_objects db)
             (table_columns db) (link_add (table_rows db) (self, row_id row))
             (column_cells db) (row_cells db)
             (next_column_id db) (next_row_id db) (next_cell_id db),
     Ok tt).

Definition column_cells_add (column : TableColumn) (cell : CellValue) : M unit :=
  λ db,
    (mkStore (TableColumn_objects db) (TableRow_objects db) (CellValue_objects db)
             (table_columns db) (table_rows db)
             (link_add (column_cells db) (column_id column, cell_id cell))
             (row_cells db)
             (next_column_id db) (next_row_id db) (next_cell_id db),
     Ok tt).

Definition row_cells_add (row : TableRow) (cells : list CellValue) : M unit :=
  λ db,
    (mkStore (TableColumn_objects db) (TableRow_objects db) (CellValue_objects db)
             (table_columns db) (table_rows db) (column_cells db)
             (links_add (row_cells db) ((λ c, (row_id row, cell_id c)) <$> cells))
             (next_column_id db) (next_row_id db) (next_cell_id db),
     Ok tt).

(** [self.table_columns.remove(column)] and [self.table_rows.remove(row)]:
    the link row goes, if there is one. *)
Definition table_columns_remove (self : nat) (column : TableColumn) : M unit :=
  λ db,
    (mkStore (TableColumn_objects db) (TableRow_objects db) (CellValue_objects db)
             (filter (λ l, l ≠ (self, column_id column)) (table_columns db))
             (table_rows db) (column_cells db) (row_cells db)
             (next_column_id db) (next_row_id db) (next_cell_id db),
     Ok tt).

Definition table_rows_remove (self : nat) (row : TableRow) : M unit :=
  λ db,
    (mkStore (TableColumn_objects db) (TableRow_objects db) (CellValue_objects db)
             (table_columns db)
             (filter (λ l, l ≠ (self, row_id row)) (table_rows db))
             (column_cells db) (row_cells db)
             (next_column_id db) (next_row_id db) (next_cell_id db),
     Ok tt).

(** [column.delete()]. The foreign keys of [CellValue] are declared
    [on_delete=CASCADE]: the cells of the column go with it, and so do the
    link rows that name the column or one of these cells. *)
Definition TableColumn_delete (column : TableColumn) : M unit :=
  λ db,
    let gone :=
      cell_id <$> filter (λ c, table_column c = column_id column) (CellValue_objects db) in
    (mkStore (filter (λ c, column_id c ≠ column_id column) (TableColumn_objects db))
             (TableRow_objects db)
             (filter (λ c, table_column c ≠ column_id column) (CellValue_objects db))
             (filter (λ l, l.2 ≠ column_id column) (table_columns db))
             (table_rows db)
             (filter (λ l, l.1 ≠ column_id column ∧ l.2 ∉ gone) (column_cells db))
             (filter (λ l, l.2 ∉ gone) (row_cells db))
             (next_column_id db) (next_row_id db) (next_cell_id db),
     Ok tt).

(** [row.delete()], with the same cascade. *)
Definition TableRow_delete (row : TableRow) : M unit :=
  λ db,
    let gone :=
      cell_id <$> filter (λ c, table_row c = row_id row) (CellValue_objects db) in
    (mkStore (TableColumn_objects db)
             (filter (λ r, row_id r ≠ row_id row) (TableRow_objects db))
             (filter (λ c, table_row c ≠ row_id row) (CellValue_objects db))
             (table_columns db)
             (filter (λ l, l.2 ≠ row_id row) (table_rows db))
             (filter (λ l, l.2 ∉ gone) (column_cells db))
             (filter (λ l, l.1 ≠ row_id row ∧ l.2 ∉ gone) (row_cells db))
             (next_column_id db) (next_row_id db) (next_cell_id db),
     Ok tt).

End Store.

(** ** [DynamicTable] *)

Section Table.
Context {B : PyBuiltins} {E : PyEval}.

Definition __SUPPORTED_DATA_TYPE_CHOICES__ : list (string * string) :=
  [ ("char", "Char"); ("int", "Int"); ("float", "Float");
    ("bool", "Bool"); ("textfield", "TextField"); ("date", "Date") ].

Definition __total_table_rows (db : Store) (self : nat) : nat :=
  match head (table_columns_all db self) with
  | Some field => length (table_columns_all db self)
  | None => 0%nat
  end.

Definition __total_table_columns (db : Store) (self : nat) : nat :=
  length (table_columns_all db self).

Definition table_info (db : Store) (self : nat) : gmap string nat :=
  {[ "rows" := __total_table_rows db self;
     "columns" := __total_table_columns db self ]}.

Definition is_empty (db : Store) (self : nat) : bool :=
  let table_info := table_info db self in
  let rows := default 0%nat (table_info !! "rows") in
  let columns := default 0%nat (table_info !! "columns") in
  if ((columns =? 0)%nat || (rows =? 0)%nat)%bool then true else false.

Definition is_column (db : Store) (self : nat) (name : string) : result bool :=
  match queryset_get (filter (λ c, column_name c = name) (table_columns_all db self)) with
  | Ok _ => Ok true
  | Raise DoesNotExist => Ok false
  | Raise e => Raise e
  end.

Definition get_supported_data_types : list string :=
  fst <$> __SUPPORTED_DATA_TYPE_CHOICES__.

(** [data_type_is_supported] on a [str] ... *)
Definition data_type_is_supported (data_type : string) : bool :=
  bool_decide (strip (lower data_type) ∈ get_supported_data_types).

(** ... and on a sequence. *)
Definition data_type_is_supported_all (data_types : list string) : list bool :=
  (λ _type, bool_decide (strip (lower _type) ∈ get_supported_data_types)) <$> data_types.

Definition add_column (self : nat) (name data_type : string) : M TableColumn :=
  if negb (data_type_is_supported data_type) then raise UnSupportedDataType
  else
    db ← get_store;
    is_col ← lift_result (is_column db self name);
    if is_col : bool then raise DuplicateColumnInTable
    else
      table_column ← TableColumn_create self name data_type;
      _ ← table_columns_add self [table_column];
      mret table_column.

(** A list comprehension whose body may raise. *)
Fixpoint for_each {A C} (f : A → M C) (xs : list A) : M (list C) :=
  match xs with
  | [] => mret []
  | x :: xs' => y ← f x; ys ← for_each f xs'; mret (y :: ys)
  end.

Definition bulk_add_columns (self : nat) (column_names data_types : list string)
    : M (list TableColumn) :=
  if bool_decide (length column_names ≠ length data_types) then raise DynamicTableError
  else
    let supported_data_type := data_type_is_supported_all data_types in
    if bool_decide (false ∈ supported_data_type) then raise UnSupportedDataType
    else
      let unique_column_names : gset string := list_to_set column_names in
      if bool_decide (length column_names ≠ size unique_column_names)
      then raise DuplicateColumnInTable
      else
        db ← get_store;
        is_col ← for_each (λ column, lift_result (is_column db self column)) column_names;
        if bool_decide (true ∈ is_col) then raise DuplicateColumnInTable
        else
          columns ← for_each (λ '(name, data_type), TableColumn_create self name data_type)
                             (zip column_names data_types);
          _ ← table_columns_add self columns;
          mret columns.

(** The body of the loop of [add_row] over [self.table_columns.all()];
    [row] is the list of cells built so far. *)
Fixpoint add_row_cells (self : nat) (table_row : TableRow)
    (value : gmap string PyVal) (columns : list TableColumn)
    (row : list CellValue) : M (list CellValue) :=
  match columns with
  | [] => mret row
  | table_column :: columns' =>
      let cell_value := default (PyStr "") (value !! column_name table_column) in
      cell ← CellValue_create cell_value self table_column table_row;
      _ ← column_cells_add table_column cell;
      add_row_cells self table_row value columns' (row ++ [cell])
  end.

Definition add_row (self : nat) (value : gmap string PyVal) : M TableRow :=
  db ← get_store;
  if (__total_table_columns db self =? 0)%nat then raise TableHaveNoColumn
  else
    table_row ← TableRow_create self;
    db ← get_store;
    row ← add_row_cells self table_row value (table_columns_all db self) [];
    _ ← row_cells_add table_row row;
    _ ← table_rows_add self table_row;
    mret table_row.

Fixpoint bulk_add_rows_from (self : nat) (values : list (gmap string PyVal))
    (rows : list TableRow) : M (list TableRow) :=
  match values with
  | [] => mret rows
  | row :: values' =>
      db ← get_store;
      if (__total_table_columns db self =? 0)%nat then raise TableHaveNoColumn
      else
        table_row ← add_row self row;
        bulk_add_rows_from self values' (rows ++ [table_row])
  end.

Definition bulk_add_rows (self : nat) (values : list (gmap string PyVal))
    : M (list TableRow) :=
  bulk_add_rows_from self values [].

(** *** Reads *)

Definition get_cell (db : Store) (self : nat) (name : string) (row_index : nat)
    : result CellValue :=
  match is_column db self name with
  | Raise e => Raise e
  | Ok false => Raise ColumnNotInTable
  | Ok true =>
      let named := column_id <$> filter (λ c, column_name c = name) (TableColumn_objects db) in
      match queryset_get
              (filter (λ c, cell_table c = self ∧ table_column c ∈ named
                            ∧ table_row c = row_index)
                      (CellValue_objects db)) with
      | Ok cell => Ok cell
      | Raise DoesNotExist => Raise CellDoesNotExist
      | Raise e => Raise e
      end
  end.

Definition get_column_cells (db : Store) (self : nat) (name : string)
    : result (list CellValue) :=
  match is_column db self name with
  | Raise e => Raise e
  | Ok false => Raise ColumnNotInTable
  | Ok true =>
      match queryset_get
              (filter (λ c, column_table c = self ∧ column_name c = name)
                      (TableColumn_objects db)) with
      | Ok column => Ok (column_cells_all db column)
      | Raise e => Raise e
      end
  end.

Definition get_row_cells (db : Store) (self : nat) (row_index : nat)
    : result (list CellValue) :=
  match queryset_get
          (filter (λ r, row_table r = self ∧ row_id r = row_index)
                  (TableRow_objects db)) with
  | Ok row => Ok (row_cells_all db row)
  | Raise DoesNotExist => Raise RowNotInTable
  | Raise e => Raise e
  end.

(** [cell.get_value()] for a cell of the store. *)
Definition CellValue_get_value (db : Store) (cell : CellValue) : result PyVal :=
  match queryset_get (filter (λ c, column_id c = table_column cell)
                             (TableColumn_objects db)) with
  | Ok column => get_value (value cell) (column_data_type column)
  | Raise e => Raise e
  end.

(** *** Deletions *)

Definition delete_column (self : nat) (name : string) : M TableColumn :=
  db ← get_store;
  match queryset_get (filter (λ c, column_name c = name) (table_columns_all db self)) with
  | Raise MultipleObjectsReturned => raise DuplicateColumnInTable
  | Raise DoesNotExist => raise ColumnNotInTable
  | Raise e => raise e
  | Ok column =>
      _ ← table_columns_remove self column;
      _ ← TableColumn_delete column;
      mret column
  end.

(** [delete_row(row_index=None)]. Without an index the row is
    [self.table_rows.last()], which is [None] on a table without rows:
    nothing is raised by the lookup, and [row.delete()] fails on [None]. *)
Definition delete_row (self : nat) (row_index : option nat) : M TableRow :=
  db ← get_store;
  match row_index with
  | None =>
      match last (table_rows_all db self) with
      | Some row =>
          _ ← table_rows_remove self row;
          _ ← TableRow_delete row;
          mret row
      | None => raise AttributeError
      end
  | Some pk =>
      match queryset_get (filter (λ r, row_id r = pk) (table_rows_all db self)) with
      | Raise DoesNotExist => raise RowNotInTable
      | Raise e => raise e
      | Ok row =>
          _ ← table_rows_remove self row;
          _ ← TableRow_delete row;
          mret row
      end
  end.

(** [TableColumn._get_column_values] *)
Definition _get_column_values (db : Store) (column : TableColumn) : list CellValue :=
  column_cells_all db column.

(** [TableRow.to_dict]: the comprehension reads [item.column], an attribute
    [CellValue] does not have; it is evaluated for the first cell. *)
Definition to_dict (db : Store) (row : TableRow) : result (gmap string PyVal) :=
  match row_cells_all db row with
  | [] => Ok ∅
  | item :: _ => Raise AttributeError
  end.

End Table.

(** ** A reference instance of the builtins

    Floats with integral values, written as plain decimal literals
    ([12], [-3], [27000.0]); dates at midnight, written [YYYY-MM-DD]; and an
    [eval] that rejects every source other than the constants. It is used to
    run the model on concrete tables. *)

Module Reference.

Definition is_digit (c : ascii) : bool :=
  let n := nat_of_ascii c in (48 <=? n)%nat && (n <=? 57)%nat.

Fixpoint all_zeros (s : string) : bool :=
  match s with
  | EmptyString => true
  | String c s' => (nat_of_ascii c =? 48)%nat && all_zeros s'
  end.

(** Digits, then nothing or a point followed by zeros. *)
Fixpoint digits_from (acc : Z) (seen : bool) (s : string) : option Z :=
  match s with
  | EmptyString => if seen then Some acc else None
  | String c s' =>
      if is_digit c then
        digits_from (10 * acc + Z.of_nat (nat_of_ascii c - 48)) true s'
      else if (seen && (nat_of_ascii c =? 46)%nat && all_zeros s')%bool then Some acc
      else None
  end.

Definition parse_float (s : string) : option Z :=
  match strip s with
  | String "-" s' => Z.opp <$> digits_from 0 false s'
  | String "+" s' => digits_from 0 false s'
  | s' => digits_from 0 false s'
  end.

Fixpoint is_date_shape (shape : list bool) (s : string) : bool :=
  match shape, s with
  | [], EmptyString => true
  | d :: shape', String c s' =>
      (if d : bool then is_digit c else (nat_of_ascii c =? 45)%nat) && is_date_shape shape' s'
  | _, _ => false
  end.

Definition parse_date (s : string) : option string :=
  if is_date_shape [true; true; true; true; false; true; true; false; true; true] s
  then Some s else None.

#[export] Instance builtins : PyBuiltins := {|
  pyfloat := Z;
  pydatetime := string;
  float_of_str := parse_float;
  float_of_int := Some;
  int_of_float := IntOk;
  float_str := λ f, pretty f +:+ ".0";
  float_is_zero := λ f, f =? 0;
  fromisoformat := parse_date;
  isoformat := λ d, d +:+ "T00:00:00";
  datetime_str := λ d, d +:+ " 00:00:00";
|}.

#[export] Instance evaluator : PyEval := {|
  eval_expr := λ _, Raise NameError;
|}.

End Reference.

(** ** Example tables, built with the operations themselves *)

Module Examples.
Import Reference.

Definition employees : nat := 1%nat.

(** [bulk_add_columns(["Name", "Age"], ["char", "int"])] on a new table. *)
Definition with_columns : Store :=
  fst (bulk_add_columns employees ["Name"; "Age"] ["char"; "int"] empty_store).

(** ... followed by [add_row({"Name": "Sam"})]. *)
Definition with_one_row : Store :=
  fst (add_row employees {[ "Name" := PyStr "Sam" ]} with_columns).

(** The two columns of [with_columns]. *)
Definition name_column : TableColumn := mkTableColumn 1 employees "Name" "char".
Definition age_column : TableColumn := mkTableColumn 2 employees "Age" "int".

(** Two mappings for [add_row]: one that leaves [Age] out, one whose [Age]
    is no number. *)
Definition sam : gmap string PyVal := {[ "Name" := PyStr "Sam" ]}.
Definition sam_3o : gmap string PyVal :=
  {[ "Name" := PyStr "Sam"; "Age" := PyStr "3o" ]}.

(** [add_column("Born", "date")] on a new table. *)
Definition with_date_column : Store :=
  fst (add_column employees "Born" "date" empty_store).

(** ... followed by [add_row({"Born": "not a date"})], ... *)
Definition with_bad_date : Store :=
  fst (add_row employees {[ "Born" := PyStr "not a date" ]} with_date_column).

(** ... or by [add_row({"Born": "2024-01-01"})]. *)
Definition with_birthday : Store :=
  fst (add_row employees {[ "Born" := PyStr "2024-01-01" ]} with_date_column).

(** [add_column("Married", "bool")] on a new table. *)
Definition with_married : Store :=
  fst (add_column employees "Married" "bool" empty_store).

End Examples.

(** ** Vocabulary of the properties *)

Section Vocabulary.
Context {B : PyBuiltins} {E : PyEval}.

(** The text a cell holds after [save] accepted [v]: [full_clean] runs on
    the value handed to the cell, and the field, which is not nullable,
    stores [str(self.value)]. *)
Definition stored_text (v : PyVal) (data_type : string) : result string :=
  match full_clean v data_type with
  | Ok PyNone => Raise IntegrityError
  | Ok v' => Ok (py_str v')
  | Raise e => Raise e
  end.

(** Save [v] in a cell of a column of type [data_type], then decode the
    stored text with [get_value]. *)
Definition round_trip (v : PyVal) (data_type : string) : result PyVal :=
  match stored_text v data_type with
  | Ok text => get_value (PyStr text) data_type
  | Raise e => Raise e
  end.

(** A data type that none of the branches of [__validate_data_type__] and
    [get_value] names. *)
Definition names_no_branch (data_type : string) : Prop :=
  data_type ≠ "char" ∧ data_type ≠ "textfield" ∧ data_type ≠ "int"
  ∧ data_type ≠ "float" ∧ data_type ≠ "datetime" ∧ data_type ≠ "bool".

(** The literals whose round trip is claimed: a string for the text types,
    an integer whose decimal text [float] reads and [int] truncates back to
    it, a float whose [str] reads back to it, and the two booleans. *)
Inductive valid_literal : string → PyVal → Prop :=
  | literal_char (s : string) : valid_literal "char" (PyStr s)
  | literal_textfield (s : string) : valid_literal "textfield" (PyStr s)
  | literal_int (z : Z) (f : pyfloat) :
      float_of_str (pretty z) = Some f →
      int_of_float f = IntOk z →
      valid_literal "int" (PyInt z)
  | literal_float (f : pyfloat) :
      float_of_str (float_str f) = Some f →
      valid_literal "float" (PyFloat f)
  | literal_bool (b : bool) : valid_literal "bool" (PyBool b).

(** Primary keys are handed out in increasing order: what the store holds
    is older than the next key. *)
Record store_wf (db : Store) : Prop := {
  wf_cell_ids : ∀ c, c ∈ CellValue_objects db → (cell_id c < next_cell_id db)%nat;
  wf_row_cells : ∀ l, l ∈ row_cells db → (l.1 < next_row_id db)%nat;
  wf_table_rows : ∀ l, l ∈ table_rows db → (l.2 < next_row_id db)%nat;
}.

(** The value [add_row] hands to the cell of [column]. *)
Definition supplied (value : gmap string PyVal) (column : TableColumn) : PyVal :=
  default (PyStr "") (value !! column_name column).

(** [save] accepts [v] for a column of type [data_type]: [full_clean]
    returns and leaves a value the text field can hold. *)
Definition accepts (v : PyVal) (data_type : string) : Prop :=
  ∃ v', full_clean v data_type = Ok v' ∧ v' ≠ PyNone.

(** The row of the store written for a cell object. *)
Definition to_stored (cell : CellValue) : CellValue :=
  mkCellValue (cell_id cell) (PyStr (py_str (value cell)))
              (cell_table cell) (table_column cell) (table_row cell).

(** [cell] is the object [add_row] builds for [column] in [row]. *)
Definition cell_for (self : nat) (row : TableRow) (values : gmap string PyVal)
    (column : TableColumn) (cell : CellValue) : Prop :=
  full_clean (supplied values column) (column_data_type column) = Ok (value cell)
  ∧ value cell ≠ PyNone
  ∧ table_column cell = column_id column
  ∧ table_row cell = row_id row
  ∧ cell_table cell = self.

(** [cell] is the row of the store [add_row] leaves for [column] in [row]:
    it holds the text of the coerced value, the empty string when the
    mapping has no entry for the column. *)
Definition row_cell_of (self : nat) (row : TableRow) (values : gmap string PyVal)
    (column : TableColumn) (cell : CellValue) : Prop :=
  table_column cell = column_id column
  ∧ table_row cell = row_id row
  ∧ cell_table cell = self
  ∧ (∃ text, stored_text (supplied values column) (column_data_type column) = Ok text
             ∧ value cell = PyStr text)
  ∧ (values !! column_name column = None → value cell = PyStr "").

(** [get_row_cells] on [row] returns the cells [add_row] writes for the
    mapping [values]: one per column, in the order of the columns. *)
Definition row_holds (db : Store) (self : nat) (columns : list TableColumn)
    (values : gmap string PyVal) (row : TableRow) : Prop :=
  ∃ cells, get_row_cells db self (row_id row) = Ok cells
           ∧ Forall2 (row_cell_of self row values) columns cells.

(** What the loop of [add_row] never touches. *)
Definition same_but_cells (db db' : Store) : Prop :=
  TableColumn_objects db' = TableColumn_objects db
  ∧ TableRow_objects db' = TableRow_objects db
  ∧ table_columns db' = table_columns db
  ∧ table_rows db' = table_rows db
  ∧ row_cells db' = row_cells db
  ∧ next_column_id db' = next_column_id db
  ∧ next_row_id db' = next_row_id db.

(** The part of the store [store_wf] speaks about. *)
Definition same_rows_and_cells (db db' : Store) : Prop :=
  CellValue_objects db' = CellValue_objects db
  ∧ row_cells db' = row_cells db
  ∧ table_rows db' = table_rows db
  ∧ next_row_id db' = next_row_id db
  ∧ next_cell_id db' = next_cell_id db.

(** One call of a mutating operation of [DynamicTable], whatever it
    returns or raises. *)
Inductive call : Store → Store → Prop :=
  | call_add_column self name data_type db :
      call db (add_column self name data_type db).1
  | call_bulk_add_columns self column_names data_types db :
      call db (bulk_add_columns self column_names data_types db).1
  | call_add_row self values db :
      call db (add_row self values db).1
  | call_bulk_add_rows self values db :
      call db (bulk_add_rows self values db).1.

(** The stores that calls build from the empty one. *)
Inductive reachable : Store → Prop :=
  | reachable_empty : reachable empty_store
  | reachable_call db db' : reachable db → call db db' → reachable db'.

(** Referential consistency of the store: keys are fresh and unique, column
    names are unique, and every foreign key and every link row names an
    object that is there. *)
Record store_consistent (db : Store) : Prop := {
  sc_column_ids : ∀ c, c ∈ TableColumn_objects db → (column_id c < next_column_id db)%nat;
  sc_row_ids : ∀ r, r ∈ TableRow_objects db → (row_id r < next_row_id db)%nat;
  sc_cell_ids : ∀ c, c ∈ CellValue_objects db → (cell_id c < next_cell_id db)%nat;
  sc_column_names : NoDup (column_name <$> TableColumn_objects db);
  sc_column_keys : NoDup (column_id <$> TableColumn_objects db);
  sc_row_keys : NoDup (row_id <$> TableRow_objects db);
  sc_cell_keys : NoDup (cell_id <$> CellValue_objects db);
  sc_cell_column : ∀ c, c ∈ CellValue_objects db →
                        table_column c ∈ column_id <$> TableColumn_objects db;
  sc_cell_row : ∀ c, c ∈ CellValue_objects db →
                     table_row c ∈ row_id <$> TableRow_objects db;
  sc_table_columns : ∀ l, l ∈ table_columns db →
                          l.2 ∈ column_id <$> TableColumn_objects db;
  sc_table_rows : ∀ l, l ∈ table_rows db → l.2 ∈ row_id <$> TableRow_objects db;
  sc_column_cells : ∀ l, l ∈ column_cells db →
                         l.1 ∈ column_id <$> TableColumn_objects db
                         ∧ l.2 ∈ cell_id <$> CellValue_objects db;
  sc_row_cells : ∀ l, l ∈ row_cells db →
                      l.1 ∈ row_id <$> TableRow_objects db
                      ∧ l.2 ∈ cell_id <$> CellValue_objects db;
}.

(** A column linked to a table was created for that table: its [table]
    field names the table of the link row. *)
Definition columns_owned (db : Store) : Prop :=
  ∀ c l, c ∈ TableColumn_objects db → l ∈ table_columns db →
         l.2 = column_id c → column_table c = l.1.

(** One call of any mutating operation, deletions included. *)
Inductive operation : Store → Store → Prop :=
  | operation_call db db' : call db db' → operation db db'
  | operation_delete_column self name db :
      operation db (delete_column self name db).1
  | operation_delete_row self row_index db :
      operation db (delete_row self row_index db).1.

Inductive history : Store → Prop :=
  | history_empty : history empty_store
  | history_operation db db' : history db → operation db db' → history db'.

(** The data of a store, apart from the counters of the primary keys. *)
Definition same_data (db db' : Store) : Prop :=
  TableColumn_objects db' = TableColumn_objects db
  ∧ TableRow_objects db' = TableRow_objects db
  ∧ CellValue_objects db' = CellValue_objects db
  ∧ table_columns db' = table_columns db
  ∧ table_rows db' = table_rows db
  ∧ column_cells db' = column_cells db
  ∧ row_cells db' = row_cells db.

(** The columns [bulk_add_columns] creates for the pairs of a name and a
    data type, the first of them under the key [start]. *)
Fixpoint created_columns (self start : nat) (pairs : list (string * string))
    : list TableColumn :=
  match pairs with
  | [] => []
  | (name, data_type) :: pairs' =>
      mkTableColumn start self name data_type :: created_columns self (S start) pairs'
  end.

(** The store [db'] a successful [add_row] leaves, [cells] being the cell
    objects it built and [links] the rows it added to [column_cells]. *)
Record row_added (db : Store) (self : nat) (values : gmap string PyVal)
    (db' : Store) (cells : list CellValue) (links : list (nat * nat)) : Prop := {
  ra_cells : Forall2 (cell_for self (mkTableRow (next_row_id db) self) values)
                     (table_columns_all db self) cells;
  ra_cell_ids : cell_id <$> cells
                = seq (next_cell_id db) (length (table_columns_all db self));
  ra_columns : TableColumn_objects db' = TableColumn_objects db;
  ra_table_columns : table_columns db' = table_columns db;
  ra_rows : TableRow_objects db'
            = TableRow_objects db ++ [mkTableRow (next_row_id db) self];
  ra_stored : CellValue_objects db' = CellValue_objects db ++ (to_stored <$> cells);
  ra_table_rows : table_rows db' = link_add (table_rows db) (self, next_row_id db);
  ra_row_cells : row_cells db'
                 = links_add (row_cells db)
                             ((λ c, (next_row_id db, cell_id c)) <$> cells);
  ra_column_cells : column_cells db' = column_cells db ++ links;
  ra_links : ∀ l, l ∈ links →
                  (next_cell_id db ≤ l.2
                   < next_cell_id db + length (table_columns_all db self))%nat;
  ra_next_column : next_column_id db' = next_column_id db;
  ra_next_row : next_row_id db' = S (next_row_id db);
  ra_next_cell : next_cell_id db'
                 = (next_cell_id db + length (table_columns_all db self))%nat;
}.

(** A string made of white space only. *)
Fixpoint all_space (s : string) : bool :=
  match s with
  | EmptyString => true
  | String c s' => is_space c && all_space s'
  end.

End Vocabulary.

(** ** Properties of the cell coercions *)

Section CellProperties.
Context {B : PyBuiltins} {E : PyEval}.

Lemma eqb_neq (s1 s2 : string) : s1 ≠ s2 → String.eqb s1 s2 = false.
Proof. intros Hne. apply String.eqb_neq. exact Hne. Qed.

Lemma validate_no_branch (data_type : string) (self_value value : PyVal) :
  names_no_branch data_type →
  __validate_data_type__ self_value value data_type = Ok self_value.
Proof.
  intros (Hc & Ht & Hi & Hf & Hd & Hb).
  unfold __validate_data_type__.
  rewrite (eqb_neq _ _ Hc), (eqb_neq _ _ Ht), (eqb_neq _ _ Hi),
          (eqb_neq _ _ Hf), (eqb_neq _ _ Hd), (eqb_neq _ _ Hb).
  reflexivity.
Qed.

Lemma get_value_no_branch (data_type : string) (self_value : PyVal) :
  names_no_branch data_type →
  get_value self_value data_type = Ok PyNone.
Proof.
  intros (Hc & Ht & Hi & Hf & Hd & Hb).
  unfold get_value.
  rewrite (eqb_neq _ _ Hc), (eqb_neq _ _ Ht), (eqb_neq _ _ Hi),
          (eqb_neq _ _ Hf), (eqb_neq _ _ Hd), (eqb_neq _ _ Hb).
  reflexivity.
Qed.

Lemma date_names_no_branch : names_no_branch "date".
Proof. repeat split; discriminate. Qed.

Lemma falsy_cases (v : PyVal) :
  truthy v = false →
  v = PyNone ∨ v = PyBool false ∨ v = PyInt 0 ∨ v = PyStr ""
  ∨ ∃ f, v = PyFloat f ∧ float_is_zero f = true.
Proof.
  destruct v as [|b|z|f|s|d]; simpl; intros Hf.
  - by left.
  - right; left. by destruct b.
  - right; right; left. apply negb_false_iff, Z.eqb_eq in Hf. by subst.
  - right; right; right; right. exists f. split; [done|]. by apply negb_false_iff.
  - right; right; right; left. apply negb_false_iff, String.eqb_eq in Hf. by subst.
  - discriminate.
Qed.

End CellProperties.

Section CellClaims.
Context {B : PyBuiltins} {E : PyEval}.

Lemma validate_date_unchanged (self_value value : PyVal) :
  __validate_data_type__ self_value value "date" = Ok self_value.
Proof. apply validate_no_branch, date_names_no_branch. Qed.

Lemma get_value_date_None (self_value : PyVal) :
  get_value self_value "date" = Ok PyNone.
Proof. apply get_value_no_branch, date_names_no_branch. Qed.

(** For a string [full_clean] is [clean]: the field cleaning changes
    nothing. *)
Lemma full_clean_str (s data_type : string) :
  full_clean (PyStr s) data_type = clean (PyStr s) data_type.
Proof. reflexivity. Qed.

Lemma stored_text_date (v : PyVal) :
  v ≠ PyNone → stored_text v "date" = Ok (py_str (clean_fields v)).
Proof.
  intros Hv. unfold stored_text, full_clean, clean.
  rewrite validate_date_unchanged. by destruct v.
Qed.

(** Where the round trip holds: the text types and a string, [int] and an
    integer that survives the passage through [float], [float] and a float
    whose [str] reads back, [bool] and the two booleans. *)
Lemma round_trip_valid_literal (data_type : string) (v : PyVal) :
  valid_literal data_type v → round_trip v data_type = Ok v.
Proof.
  intros Hv. destruct Hv as [s|s|z f Hf Hi|f Hf|b]; try reflexivity.
  - unfold round_trip, stored_text, full_clean, clean, __validate_data_type__; simpl.
    destruct (String.eqb (pretty z) "") eqn:Hz; simpl.
    + apply String.eqb_eq in Hz.
      unfold get_value, py_int_float, py_int_of_float; simpl.
      rewrite <- Hz, Hf; simpl. by rewrite Hi.
    + unfold py_int_float, py_int_of_float; simpl. rewrite Hf; simpl. rewrite Hi.
      unfold get_value, py_int_float, py_int_of_float; simpl.
      rewrite Hf; simpl. by rewrite Hi.
  - unfold round_trip, stored_text, full_clean, clean, __validate_data_type__; simpl.
    destruct (String.eqb (float_str f) "") eqn:Hz; simpl.
    + apply String.eqb_eq in Hz.
      unfold get_value; simpl. by rewrite <- Hz, Hf.
    + rewrite Hf. unfold get_value; simpl. by rewrite Hf.
  - by destruct b.
Qed.

(** C5, on the supported type [date]. Whatever is saved in a cell of a
    [date] column, a string or a date and time, the cell holds the text of
    the value as it came, and decoding that text with [get_value] returns
    [None]: no literal of the type comes back from the round trip. *)
Theorem C5_date_does_not_round_trip (v : PyVal) :
  v ≠ PyNone →
  data_type_is_supported "date" = true
  ∧ stored_text v "date" = Ok (py_str (clean_fields v))
  ∧ round_trip v "date" = Ok PyNone
  ∧ round_trip v "date" ≠ Ok v.
Proof.
  intros Hv.
  assert (Hround : round_trip v "date" = Ok PyNone).
  { unfold round_trip. by rewrite (stored_text_date v Hv), get_value_date_None. }
  split; [reflexivity|]. split; [by apply stored_text_date|].
  split; [exact Hround|]. rewrite Hround. congruence.
Qed.

Lemma pretty_zero : pretty 0%Z = "0".
Proof. reflexivity. Qed.

(** C9 as amended. In [__validate_data_type__], under [bool], a falsy
    value is replaced by the empty string and a truthy value that is no
    [bool] goes through the comparison of its title-cased text with [True]
    and [False]. A cell is created through [save], whose [full_clean]
    hands [clean] the text of a value that is no string: [False] and
    [True] are stored as their text and read back as themselves, the
    number [0] is refused, and it is [None] and the values whose text is
    empty that are stored as the empty string. *)
Theorem C9_bool_falsy_in_clean_and_on_save (value : PyVal) :
  truthy value = false →
  (∀ self_value, __validate_data_type__ self_value value "bool" = Ok (PyStr ""))
  ∧ (∀ self_value v,
       truthy v = true → isinstance_bool v = false →
       __validate_data_type__ self_value v "bool"
       = if String.eqb (title (strip (py_str v))) "True" then Ok (PyBool true)
         else if String.eqb (title (strip (py_str v))) "False" then Ok (PyBool false)
         else Raise CantParseValueToDataType)
  ∧ (∀ b : bool,
       stored_text (PyBool b) "bool" = Ok (if b then "True" else "False")
       ∧ round_trip (PyBool b) "bool" = Ok (PyBool b))
  ∧ (∀ table column row db,
       column_data_type column = "bool" →
       CellValue_objects (CellValue_create (PyBool false) table column row db).1
       = CellValue_objects db
         ++ [mkCellValue (next_cell_id db) (PyStr "False") table
                         (column_id column) (row_id row)])
  ∧ stored_text (PyInt 0) "bool" = Raise CantParseValueToDataType
  ∧ (∀ table column row db,
       column_data_type column = "bool" →
       CellValue_create (PyInt 0) table column row db
       = (db, Raise CantParseValueToDataType))
  ∧ (∀ v, truthy (clean_fields v) = false ↔ v = PyNone ∨ py_str v = "")
  ∧ (∀ v, v = PyNone ∨ py_str v = "" → stored_text v "bool" = Ok "").
Proof.
  intros Hfalsy.
  assert (Hblank : ∀ v, truthy (clean_fields v) = false ↔ v = PyNone ∨ py_str v = "").
  { intros v. destruct v as [|b|z|f|s|d]; simpl;
      rewrite ?negb_false_iff, ?String.eqb_eq; try (split; [by right|by intros [|]]).
    split; [by left|done]. }
  repeat split.
  - intros sv. unfold __validate_data_type__; simpl. by rewrite Hfalsy.
  - intros sv v Ht Hb. unfold __validate_data_type__; simpl. by rewrite Ht, Hb.
  - by destruct b.
  - by destruct b.
  - intros table column row db Hdt.
    unfold CellValue_create, CellValue_save; simpl. by rewrite Hdt.
  - intros table column row db Hdt.
    unfold CellValue_create, CellValue_save; simpl. by rewrite Hdt.
  - apply Hblank.
  - apply Hblank.
  - intros v Hv. apply Hblank in Hv.
    unfold stored_text, full_clean, clean, __validate_data_type__; simpl.
    by rewrite Hv.
Qed.

End CellClaims.

(** ** The store and its monad: basic facts *)

Section StoreLemmas.
Context {B : PyBuiltins} {E : PyEval}.

Lemma bind_ok {A C} (m : M A) (k : A → M C) (db db' : Store) (a : A) :
  m db = (db', Ok a) → (m ≫= k) db = k a db'.
Proof. intros Hm. unfold mbind, M_bind. by rewrite Hm. Qed.

Lemma bind_raise {A C} (m : M A) (k : A → M C) (db db' : Store) (e : exn) :
  m db = (db', Raise e) → (m ≫= k) db = (db', Raise e).
Proof. intros Hm. unfold mbind, M_bind. by rewrite Hm. Qed.

Lemma elem_of_link_add (links : list (nat * nat)) (x l : nat * nat) :
  l ∈ link_add links x ↔ l ∈ links ∨ l = x.
Proof.
  unfold link_add. case_bool_decide as Hin.
  - split; [by left|]. intros [Hl | ->]; done.
  - rewrite elem_of_app, list_elem_of_singleton. done.
Qed.

Lemma elem_of_links_add (ls links : list (nat * nat)) (l : nat * nat) :
  l ∈ links_add links ls ↔ l ∈ links ∨ l ∈ ls.
Proof.
  unfold links_add. revert links.
  induction ls as [|x ls IH]; intros links; simpl.
  - split; [by left|]. intros [|Hin]; [done|]. by apply elem_of_nil in Hin.
  - rewrite IH, elem_of_link_add, elem_of_cons. tauto.
Qed.

Lemma filter_none {A} (P : A → Prop) `{∀ x, Decision (P x)} (l : list A) :
  Forall (λ x, ¬ P x) l → filter P l = [].
Proof.
  induction 1 as [|x l Hx Hl IH]; [done|].
  by rewrite filter_cons_False.
Qed.

Lemma filter_all {A} (P : A → Prop) `{∀ x, Decision (P x)} (l : list A) :
  Forall P l → filter P l = l.
Proof.
  induction 1 as [|x l Hx Hl IH]; [done|].
  rewrite filter_cons_True by done. by f_equal.
Qed.

Lemma table_columns_all_same (db db' : Store) (self : nat) :
  TableColumn_objects db' = TableColumn_objects db →
  table_columns db' = table_columns db →
  table_columns_all db' self = table_columns_all db self.
Proof. intros Hobjs Hlinks. unfold table_columns_all. by rewrite Hobjs, Hlinks. Qed.

End StoreLemmas.

(** ** Properties of the table operations *)

Section TableClaims.
Context {B : PyBuiltins} {E : PyEval}.

Lemma total_table_rows_counts_columns (db : Store) (self : nat) :
  __total_table_rows db self = length (table_columns_all db self).
Proof.
  unfold __total_table_rows. by destruct (table_columns_all db self).
Qed.

Lemma table_info_entries (db : Store) (self : nat) :
  table_info db self !! "rows" = Some (length (table_columns_all db self))
  ∧ table_info db self !! "columns" = Some (length (table_columns_all db self)).
Proof.
  unfold table_info. split.
  - rewrite lookup_insert_eq. f_equal. apply total_table_rows_counts_columns.
  - rewrite lookup_insert_ne by discriminate. by rewrite lookup_singleton_eq.
Qed.

(** C7 as amended. On a table without columns [bulk_add_rows] leaves the
    store as it is; it raises [TableHaveNoColumn] when the sequence has a
    first element and returns the empty list when it has none. *)
Theorem C7_bulk_add_rows_without_columns
    (db : Store) (self : nat) (values : list (gmap string PyVal)) :
  __total_table_columns db self = 0%nat →
  bulk_add_rows self values db
  = (db, match values with [] => Ok [] | _ :: _ => Raise TableHaveNoColumn end).
Proof.
  intros Hzero. unfold bulk_add_rows.
  destruct values as [|row values]; [reflexivity|].
  simpl. unfold mbind, M_bind, get_store. by rewrite Hzero.
Qed.

(** The list comprehension over [is_column] reads the store only. *)
Lemma for_each_is_column (db : Store) (self : nat) (names : list string) (db0 : Store) :
  ∃ r, for_each (λ column, lift_result (is_column db self column)) names db0 = (db0, r)
       ∧ ∀ bs, r = Ok bs → Forall2 (λ n b, is_column db self n = Ok b) names bs.
Proof.
  induction names as [|n names IH].
  - exists (Ok []). split; [reflexivity|]. intros bs [= <-]. constructor.
  - destruct IH as (r & Hr & Hbs). simpl.
    unfold mbind, M_bind, lift_result at 1.
    destruct (is_column db self n) as [b|e] eqn:Hn.
    + rewrite Hr. destruct r as [bs|e].
      * exists (Ok (b :: bs)). split; [reflexivity|].
        intros bs' [= <-]. constructor; [done|]. by apply Hbs.
      * exists (Raise e). split; [reflexivity|]. discriminate.
    + exists (Raise e). split; [reflexivity|]. discriminate.
Qed.

Lemma size_cons_le (x : string) (X : gset string) :
  (size ({[x]} ∪ X) ≤ S (size X))%nat.
Proof.
  rewrite size_union_alt, size_singleton.
  assert (Hsub : (size (X ∖ {[x]}) ≤ size X)%nat).
  { apply subseteq_size, subseteq_difference_l. reflexivity. }
  lia.
Qed.

Lemma size_list_to_set_le (l : list string) :
  (size (list_to_set l : gset string) ≤ length l)%nat.
Proof.
  induction l as [|x l IH]; simpl; [done|].
  pose proof (size_cons_le x (list_to_set l)). lia.
Qed.

Lemma size_list_to_set_dup (l : list string) :
  ¬ NoDup l → (size (list_to_set l : gset string) < length l)%nat.
Proof.
  induction l as [|x l IH]; intros Hdup.
  - destruct Hdup. constructor.
  - simpl. destruct (decide (x ∈ l)) as [Hin|Hnin].
    + assert (Heq : ({[x]} ∪ list_to_set l : gset string) = list_to_set l).
      { apply subseteq_union_1_L, singleton_subseteq_l, elem_of_list_to_set, Hin. }
      rewrite Heq. pose proof (size_list_to_set_le l). lia.
    + assert (Hl : ¬ NoDup l) by (intros Hnd; apply Hdup; by constructor).
      specialize (IH Hl).
      pose proof (size_cons_le x (list_to_set l)). lia.
Qed.

Lemma size_list_to_set_NoDup (l : list string) :
  length l = size (list_to_set l : gset string) → NoDup l.
Proof.
  intros Hlen. destruct (decide (NoDup l)) as [|Hdup]; [done|].
  apply size_list_to_set_dup in Hdup. lia.
Qed.

Lemma supported_all_Forall (data_types : list string) :
  false ∉ data_type_is_supported_all data_types →
  Forall (λ t, data_type_is_supported t = true) data_types.
Proof.
  unfold data_type_is_supported_all. intros Hall.
  apply Forall_forall. intros t Ht.
  unfold data_type_is_supported.
  destruct (bool_decide (strip (lower t) ∈ get_supported_data_types)) eqn:Hsup; [done|].
  destruct Hall. apply list_elem_of_fmap. exists t. by rewrite Hsup.
Qed.

Lemma Forall_supported_all (data_types : list string) :
  Forall (λ t, data_type_is_supported t = true) data_types →
  false ∉ data_type_is_supported_all data_types.
Proof.
  unfold data_type_is_supported_all. intros Hall Hin.
  apply list_elem_of_fmap in Hin as (t & Hf & Ht).
  rewrite Forall_forall in Hall. specialize (Hall t Ht).
  unfold data_type_is_supported in Hall. congruence.
Qed.

(** C6. A duplicate among the names makes [bulk_add_columns] raise
    [DuplicateColumnInTable] with the store untouched (the lengths and the
    types being acceptable, which is checked first); and whenever a call
    changes the store at all, the lengths agreed, every type was supported,
    the names were pairwise distinct and none named a column of the table. *)
Theorem C6_bulk_add_columns_validates_first
    (db : Store) (self : nat) (column_names data_types : list string) :
  (length column_names = length data_types →
   Forall (λ t, data_type_is_supported t = true) data_types →
   ¬ NoDup column_names →
   bulk_add_columns self column_names data_types db = (db, Raise DuplicateColumnInTable))
  ∧ (∀ db' r,
       bulk_add_columns self column_names data_types db = (db', r) →
       db' ≠ db →
       length column_names = length data_types
       ∧ Forall (λ t, data_type_is_supported t = true) data_types
       ∧ NoDup column_names
       ∧ Forall (λ n, is_column db self n = Ok false) column_names).
Proof.
  split.
  - intros Hlen Hsup Hdup. unfold bulk_add_columns.
    rewrite bool_decide_eq_false_2 by (intros Hne; by apply Hne).
    rewrite bool_decide_eq_false_2 by (by apply Forall_supported_all).
    rewrite bool_decide_eq_true_2; [reflexivity|].
    apply size_list_to_set_dup in Hdup. lia.
  - intros db' r Hrun Hchanged. unfold bulk_add_columns in Hrun.
    case_bool_decide as Hlen; [unfold raise in Hrun; congruence|].
    case_bool_decide as Hsup; [unfold raise in Hrun; congruence|].
    case_bool_decide as Hdup; [unfold raise in Hrun; congruence|].
    destruct (for_each_is_column db self column_names db) as (rb & Hrb & Hbs).
    unfold mbind, M_bind, get_store in Hrun. rewrite Hrb in Hrun.
    destruct rb as [bs|e]; [|congruence].
    case_bool_decide as Hcol; [unfold raise in Hrun; congruence|].
    split; [by destruct (decide (length column_names = length data_types))|].
    split; [by apply supported_all_Forall|].
    split.
    { apply size_list_to_set_NoDup.
      by destruct (decide (length column_names
                           = size (list_to_set column_names : gset string))). }
    specialize (Hbs bs eq_refl).
    clear -Hbs Hcol. induction Hbs as [|n b names bs' Hn Hrest IH]; constructor.
    + destruct b; [|done]. destruct Hcol. by left.
    + apply IH. intros Hin. apply Hcol. by right.
Qed.



End TableClaims.

(** ** Properties of [add_row] *)

Section RowClaims.
Context {B : PyBuiltins} {E : PyEval}.

Lemma clean_blank (data_type : string) : clean (PyStr "") data_type = Ok (PyStr "").
Proof.
  unfold clean, __validate_data_type__.
  repeat (destruct (String.eqb data_type _); simpl; try reflexivity).
Qed.

Lemma full_clean_blank (data_type : string) :
  full_clean (PyStr "") data_type = Ok (PyStr "").
Proof. apply clean_blank. Qed.

Lemma accepts_blank (data_type : string) : accepts (PyStr "") data_type.
Proof. exists (PyStr ""). split; [apply full_clean_blank|discriminate]. Qed.

Lemma supplied_missing (values : gmap string PyVal) (column : TableColumn) :
  values !! column_name column = None → supplied values column = PyStr "".
Proof. intros Hnone. unfold supplied. by rewrite Hnone. Qed.

Lemma CellValue_create_ok (cell_value v' : PyVal) (self : nat)
    (column : TableColumn) (row : TableRow) (db : Store) :
  full_clean cell_value (column_data_type column) = Ok v' → v' ≠ PyNone →
  CellValue_create cell_value self column row db
  = (mkStore (TableColumn_objects db) (TableRow_objects db)
             (CellValue_objects db
              ++ [mkCellValue (next_cell_id db) (PyStr (py_str v')) self
                              (column_id column) (row_id row)])
             (table_columns db) (table_rows db) (column_cells db) (row_cells db)
             (next_column_id db) (next_row_id db) (S (next_cell_id db)),
     Ok (mkCellValue (next_cell_id db) v' self (column_id column) (row_id row))).
Proof.
  intros Hclean Hnone. unfold CellValue_create, CellValue_save; simpl.
  rewrite Hclean. by destruct v'.
Qed.

Lemma CellValue_create_raise (cell_value : PyVal) (self : nat)
    (column : TableColumn) (row : TableRow) (db : Store) (e : exn) :
  full_clean cell_value (column_data_type column) = Raise e →
  CellValue_create cell_value self column row db = (db, Raise e).
Proof.
  intros Hclean. unfold CellValue_create, CellValue_save; simpl. by rewrite Hclean.
Qed.

(** The loop over a list of columns that all accept their values: one cell
    per column, in order, with consecutive keys; nothing else changes but
    the links from columns to cells. *)
Lemma add_row_cells_ok (self : nat) (the_row : TableRow) (values : gmap string PyVal)
    (columns : list TableColumn) :
  ∀ (row : list CellValue) (db : Store),
    Forall (λ c, accepts (supplied values c) (column_data_type c)) columns →
    ∃ db' cells,
      add_row_cells self the_row values columns row db = (db', Ok (row ++ cells))
      ∧ Forall2 (cell_for self the_row values) columns cells
      ∧ cell_id <$> cells = seq (next_cell_id db) (length columns)
      ∧ CellValue_objects db' = CellValue_objects db ++ (to_stored <$> cells)
      ∧ next_cell_id db' = (next_cell_id db + length columns)%nat
      ∧ same_but_cells db db'.
Proof.
  induction columns as [|column columns IH]; intros row db Hacc.
  - exists db, []. simpl. rewrite !app_nil_r, Nat.add_0_r.
    repeat split; constructor.
  - apply Forall_cons in Hacc as [(v' & Hclean & Hnone) Hacc].
    simpl. fold (supplied values column).
    erewrite bind_ok by (by apply CellValue_create_ok).
    erewrite bind_ok by reflexivity.
    match goal with |- context [add_row_cells _ _ _ _ _ ?db1] =>
      destruct (IH (row ++ [mkCellValue (next_cell_id db) v' self
                                        (column_id column) (row_id the_row)]) db1 Hacc)
        as (db' & cells & Hrun & Hcells & Hids & Hobjs & Hnext & Hsame)
    end.
    simpl in *.
    exists db', (mkCellValue (next_cell_id db) v' self (column_id column) (row_id the_row)
                 :: cells).
    rewrite Hrun, <- app_assoc. simpl.
    split; [reflexivity|]. split; [by constructor|].
    split; [by f_equal|].
    split; [by rewrite Hobjs, <- app_assoc|].
    split; [lia|].
    unfold same_but_cells in *. simpl in *. tauto.
Qed.

Lemma add_row_cells_app (self : nat) (the_row : TableRow) (values : gmap string PyVal)
    (columns1 columns2 : list TableColumn) :
  ∀ (row : list CellValue) (db : Store),
    add_row_cells self the_row values (columns1 ++ columns2) row db
    = (add_row_cells self the_row values columns1 row
       ≫= add_row_cells self the_row values columns2) db.
Proof.
  induction columns1 as [|column columns1 IH]; intros row db.
  - reflexivity.
  - simpl. unfold mbind, M_bind.
    destruct (CellValue_create _ self column the_row db) as [db1 [cell|e]]; [|done].
    unfold column_cells_add. rewrite IH. reflexivity.
Qed.

Lemma clean_int_unparseable (s : string) :
  s ≠ "" → float_of_str s = None →
  clean (PyStr s) "int" = Raise CantParseValueToDataType.
Proof.
  intros Hne Hparse. unfold clean, __validate_data_type__; simpl.
  rewrite (eqb_neq _ _ Hne); simpl.
  unfold py_int_float; simpl. by rewrite Hparse.
Qed.

(** The provisional row of a failed [add_row] is not a row of the table. *)
Lemma table_rows_all_provisional (db : Store) (self : nat)
    (objects : list TableRow) (links : list (nat * nat)) :
  store_wf db →
  objects = TableRow_objects db ++ [mkTableRow (next_row_id db) self] →
  links = table_rows db →
  filter (λ r, (self, row_id r) ∈ links) objects = table_rows_all db self.
Proof.
  intros Hwf -> ->. rewrite filter_app. unfold table_rows_all.
  rewrite (filter_none _ [_]), app_nil_r; [done|].
  constructor; [|constructor]. simpl. intros Hin.
  apply (wf_table_rows _ Hwf) in Hin. simpl in Hin. lia.
Qed.

Lemma elem_of_seq_ge (j n i : nat) : i ∈ seq j n → (j ≤ i)%nat.
Proof. intros Hin. apply list_elem_of_In, in_seq in Hin. lia. Qed.

(** C8. On a table with at least one column, [add_row] succeeds for every
    mapping whose supplied values are accepted by their columns, so in
    particular for a mapping none of whose keys names a column. The row it
    returns is a row of the table; its cells are one per column, in the
    order of the columns; the cell of a column the mapping has no entry for
    holds the empty string. *)
Theorem C8_add_row_fills_missing_columns
    (db : Store) (self : nat) (values : gmap string PyVal) :
  store_wf db →
  table_columns_all db self ≠ [] →
  (∀ column v, column ∈ table_columns_all db self →
               values !! column_name column = Some v →
               accepts v (column_data_type column)) →
  ∃ db' the_row,
    add_row self values db = (db', Ok the_row)
    ∧ the_row ∈ table_rows_all db' self
    ∧ table_columns_all db' self = table_columns_all db self
    ∧ Forall2 (row_cell_of self the_row values)
              (table_columns_all db self) (row_cells_all db' the_row).
Proof.
  intros Hwf Hcols Hsupplied.
  set (the_row := mkTableRow (next_row_id db) self).
  set (db1 := mkStore (TableColumn_objects db) (TableRow_objects db ++ [the_row])
                      (CellValue_objects db) (table_columns db) (table_rows db)
                      (column_cells db) (row_cells db)
                      (next_column_id db) (S (next_row_id db)) (next_cell_id db)).
  assert (Hacc : Forall (λ c, accepts (supplied values c) (column_data_type c))
                        (table_columns_all db self)).
  { apply Forall_forall. intros column Hin. unfold supplied.
    destruct (values !! column_name column) as [v|] eqn:Hv; simpl.
    - by apply (Hsupplied column v).
    - apply accepts_blank. }
  destruct (add_row_cells_ok self the_row values (table_columns_all db self) [] db1 Hacc)
    as (db2 & cells & Hrun & Hcells & Hids & Hobjs & _ & Hsame).
  destruct Hsame as (Hs1 & Hs2 & Hs3 & Hs4 & Hs5 & _).
  simpl in Hrun, Hids, Hobjs, Hs1, Hs2, Hs3, Hs4, Hs5.
  eexists _, the_row. split; [|split; [|split]].
  - unfold add_row, mbind at 1, M_bind at 1, get_store at 1.
    unfold __total_table_columns.
    rewrite (proj2 (Nat.eqb_neq _ 0)) by (by destruct (table_columns_all db self)).
    unfold mbind at 1, M_bind at 1, TableRow_create at 1. fold the_row db1.
    unfold mbind at 1, M_bind at 1, get_store at 1.
    replace (table_columns_all db1 self) with (table_columns_all db self) by reflexivity.
    erewrite bind_ok by exact Hrun.
    reflexivity.
  - unfold table_rows_all; simpl. apply list_elem_of_filter. split.
    + apply elem_of_link_add. by right.
    + rewrite Hs2. apply elem_of_app. right. by left.
  - apply table_columns_all_same; simpl; done.
  - unfold row_cells_all; simpl. rewrite Hobjs, Hs5, filter_app.
    rewrite filter_none, filter_all; simpl.
    + apply Forall2_fmap_r. eapply Forall2_impl; [exact Hcells|].
      intros column cell (Hclean & Hsome & Hcol & Hrow & Htab). unfold row_cell_of; simpl.
      repeat split; try done.
      * exists (py_str (value cell)). split; [|done].
        unfold stored_text. rewrite Hclean. by destruct (value cell).
      * intros Hnone. rewrite (supplied_missing _ _ Hnone), full_clean_blank in Hclean.
        injection Hclean as <-. done.
    + apply Forall_forall. intros c Hin.
      apply list_elem_of_fmap in Hin as (c' & -> & Hin'). simpl.
      apply elem_of_links_add. right.
      apply list_elem_of_fmap. by exists c'.
    + apply Forall_forall. intros c Hin Hlink.
      apply elem_of_links_add in Hlink as [Hold|Hnew].
      * apply (wf_row_cells _ Hwf) in Hold. simpl in Hold. lia.
      * apply list_elem_of_fmap in Hnew as (c' & Heq & Hin').
        injection Heq as Heq.
        assert (Hge : (next_cell_id db ≤ cell_id c')%nat).
        { apply (elem_of_seq_ge _ (length (table_columns_all db self))).
          rewrite <- Hids. apply list_elem_of_fmap. by exists c'. }
        apply (wf_cell_ids _ Hwf) in Hin. lia.
Qed.

End RowClaims.

(** ** The key discipline is an invariant of the operations *)

Section Invariant.
Context {B : PyBuiltins} {E : PyEval}.

Ltac unchanged := unfold raise; intros [= <- <-]; by repeat split.

Lemma store_wf_same (db db' : Store) :
  same_rows_and_cells db db' → store_wf db → store_wf db'.
Proof.
  intros (Hc & Hrc & Htr & Hnr & Hnc) [Hw1 Hw2 Hw3].
  split; rewrite ?Hc, ?Hrc, ?Htr, ?Hnr, ?Hnc; assumption.
Qed.

Lemma store_wf_empty : store_wf empty_store.
Proof. split; simpl; intros x Hin; by apply elem_of_nil in Hin. Qed.

Lemma TableColumn_create_same (self : nat) (name data_type : string)
    (db db' : Store) (r : result TableColumn) :
  TableColumn_create self name data_type db = (db', r) → same_rows_and_cells db db'.
Proof.
  unfold TableColumn_create. case_bool_decide; intros [= <- <-]; by repeat split.
Qed.

Lemma same_rows_and_cells_trans (db1 db2 db3 : Store) :
  same_rows_and_cells db1 db2 → same_rows_and_cells db2 db3 →
  same_rows_and_cells db1 db3.
Proof.
  unfold same_rows_and_cells. intros (-> & -> & -> & -> & ->) (-> & -> & -> & -> & ->).
  by repeat split.
Qed.

Lemma add_column_same (self : nat) (name data_type : string)
    (db db' : Store) (r : result TableColumn) :
  add_column self name data_type db = (db', r) → same_rows_and_cells db db'.
Proof.
  unfold add_column. destruct (negb _); [unchanged|].
  unfold mbind, M_bind, get_store, lift_result.
  destruct (is_column db self name) as [[]|e]; try unchanged.
  destruct (TableColumn_create self name data_type db) as [db1 [column|e]] eqn:Hcreate;
    apply TableColumn_create_same in Hcreate; simpl; intros [= <- <-]; [|done].
  destruct Hcreate as (? & ? & ? & ? & ?). by repeat split.
Qed.

Lemma for_each_create_same (self : nat) (pairs : list (string * string)) :
  ∀ (db db' : Store) (r : result (list TableColumn)),
    for_each (λ '(name, data_type), TableColumn_create self name data_type) pairs db
    = (db', r) →
    same_rows_and_cells db db'.
Proof.
  induction pairs as [|[name data_type] pairs IH]; intros db db' r; simpl.
  - intros [= <- <-]. by repeat split.
  - unfold mbind, M_bind.
    destruct (TableColumn_create self name data_type db) as [db1 [column|e]] eqn:Hcreate;
      apply TableColumn_create_same in Hcreate; [|by intros [= <- <-]].
    destruct (for_each _ pairs db1) as [db2 [columns|e]] eqn:Hrest;
      apply IH in Hrest; simpl; intros [= <- <-];
      by apply (same_rows_and_cells_trans _ db1).
Qed.

Lemma bulk_add_columns_same (self : nat) (column_names data_types : list string)
    (db db' : Store) (r : result (list TableColumn)) :
  bulk_add_columns self column_names data_types db = (db', r) →
  same_rows_and_cells db db'.
Proof.
  unfold bulk_add_columns.
  repeat (case_bool_decide; [unchanged|]).
  destruct (for_each_is_column db self column_names db) as (rb & Hrb & _).
  unfold mbind, M_bind, get_store. rewrite Hrb.
  destruct rb as [bs|e]; [|unchanged].
  case_bool_decide; [unchanged|].
  destruct (for_each _ (zip column_names data_types) db) as [db1 [columns|e]] eqn:Hcreate;
    apply for_each_create_same in Hcreate; simpl; intros [= <- <-]; [|done].
  destruct Hcreate as (? & ? & ? & ? & ?). by repeat split.
Qed.

Lemma CellValue_create_wf (cell_value : PyVal) (self : nat) (column : TableColumn)
    (row : TableRow) (db db' : Store) (r : result CellValue) :
  CellValue_create cell_value self column row db = (db', r) →
  store_wf db →
  store_wf db' ∧ next_row_id db' = next_row_id db
  ∧ row_cells db' = row_cells db ∧ table_rows db' = table_rows db
  ∧ (next_cell_id db ≤ next_cell_id db')%nat
  ∧ ∀ cell, r = Ok cell → (cell_id cell < next_cell_id db')%nat.
Proof.
  unfold CellValue_create, CellValue_save; simpl. intros Hrun [Hw1 Hw2 Hw3].
  destruct (full_clean cell_value (column_data_type column)) as [v|e];
    [|injection Hrun as <- <-; repeat split; try done; lia].
  assert (Hsaved : v ≠ PyNone →
     store_wf db' ∧ next_row_id db' = next_row_id db
     ∧ row_cells db' = row_cells db ∧ table_rows db' = table_rows db
     ∧ (next_cell_id db ≤ next_cell_id db')%nat
     ∧ ∀ cell, r = Ok cell → (cell_id cell < next_cell_id db')%nat).
  { intros Hv. destruct v; try done; injection Hrun as <- <-; simpl;
      (split; [split; simpl; try assumption;
               intros c [Hin| ->%list_elem_of_singleton]%elem_of_app; simpl;
               [apply Hw1 in Hin|]; lia
              |repeat split; try lia; intros cell [= <-]; simpl; lia]). }
  destruct v; try (apply Hsaved; discriminate).
  injection Hrun as <- <-. repeat split; try done; lia.
Qed.

Lemma add_row_cells_wf (self : nat) (the_row : TableRow) (values : gmap string PyVal)
    (columns : list TableColumn) :
  ∀ (row : list CellValue) (db db' : Store) (r : result (list CellValue)),
    add_row_cells self the_row values columns row db = (db', r) →
    store_wf db →
    Forall (λ c, cell_id c < next_cell_id db)%nat row →
    store_wf db' ∧ next_row_id db' = next_row_id db
    ∧ row_cells db' = row_cells db ∧ table_rows db' = table_rows db
    ∧ ∀ cells, r = Ok cells → Forall (λ c, cell_id c < next_cell_id db')%nat cells.
Proof.
  induction columns as [|column columns IH]; intros row db db' r; simpl.
  - intros [= <- <-] Hwf Hrow. split; [done|]. do 3 (split; [done|]).
    by intros cells [= <-].
  - unfold mbind at 1, M_bind at 1. intros Hrun Hwf Hrow.
    destruct (CellValue_create _ self column the_row db) as [db1 [cell|e]] eqn:Hcreate;
      apply CellValue_create_wf in Hcreate as (Hwf1 & Hn1 & Hr1 & Ht1 & Hle & Hcell);
      try done.
    + unfold mbind at 1, M_bind at 1, column_cells_add at 1 in Hrun.
      apply IH in Hrun as (Hwf2 & Hn2 & Hr2 & Ht2 & Hcells).
      * simpl in Hn2, Hr2, Ht2. split; [exact Hwf2|].
        do 3 (split; [congruence|]). exact Hcells.
      * destruct Hwf1 as [Hw1 Hw2 Hw3]. by split.
      * simpl. apply Forall_app. split.
        -- eapply Forall_impl; [exact Hrow|]. simpl. intros c Hc. lia.
        -- constructor; [|constructor]. by apply Hcell.
    + injection Hrun as <- <-. split; [exact Hwf1|].
      do 3 (split; [done|]). discriminate.
Qed.

Lemma add_row_wf (self : nat) (values : gmap string PyVal)
    (db db' : Store) (r : result TableRow) :
  add_row self values db = (db', r) → store_wf db → store_wf db'.
Proof.
  unfold add_row, mbind at 1, M_bind at 1, get_store at 1.
  destruct (__total_table_columns db self =? 0)%nat; [unfold raise; by intros [= <- <-]|].
  unfold mbind at 1, M_bind at 1, TableRow_create at 1.
  unfold mbind at 1, M_bind at 1, get_store at 1.
  unfold mbind at 1, M_bind at 1.
  intros Hrun [Hw1 Hw2 Hw3].
  match type of Hrun with context [add_row_cells _ ?tr _ ?cs ?row ?db1] =>
    assert (Hwf1 : store_wf db1);
    [|destruct (add_row_cells self tr values cs row db1) as [db2 [cells|e]] eqn:Hloop;
      apply add_row_cells_wf in Hloop as (Hwf2 & Hn2 & Hr2 & Ht2 & Hcells);
      [|exact Hwf1|constructor| |exact Hwf1|constructor]]
  end.
  - split; simpl; [exact Hw1| |].
    + intros l Hin. apply Hw2 in Hin. lia.
    + intros l Hin. apply Hw3 in Hin. lia.
  - simpl in Hrun, Hn2, Hr2, Ht2. injection Hrun as <- <-.
    destruct Hwf2 as [Hv1 Hv2 Hv3]. split; simpl.
    + exact Hv1.
    + intros l [Hold|Hnew]%elem_of_links_add; [by apply Hv2|].
      apply list_elem_of_fmap in Hnew as (c & -> & _). simpl. lia.
    + intros l [Hold| ->]%elem_of_link_add; [by apply Hv3|]. simpl. lia.
  - by injection Hrun as <- <-.
Qed.

Lemma bulk_add_rows_from_wf (self : nat) (values : list (gmap string PyVal)) :
  ∀ (rows : list TableRow) (db db' : Store) (r : result (list TableRow)),
    bulk_add_rows_from self values rows db = (db', r) → store_wf db → store_wf db'.
Proof.
  induction values as [|row values IH]; intros rows db db' r; simpl.
  - by intros [= <- <-].
  - unfold mbind at 1, M_bind at 1, get_store at 1.
    destruct (__total_table_columns db self =? 0)%nat; [unfold raise; by intros [= <- <-]|].
    unfold mbind at 1, M_bind at 1.
    destruct (add_row self row db) as [db1 [table_row|e]] eqn:Hrow;
      pose proof (add_row_wf _ _ _ _ _ Hrow) as Hstep; intros Hrun Hwf.
    + eapply IH; [exact Hrun|]. by apply Hstep.
    + injection Hrun as <- <-. by apply Hstep.
Qed.

(** Every store built by calls of the operations obeys the key
    discipline, also after calls that raised. *)
Lemma reachable_store_wf (db : Store) : reachable db → store_wf db.
Proof.
  induction 1 as [|db db' Hreach IH Hcall]; [apply store_wf_empty|].
  destruct Hcall as [self name data_type db|self names types db
                    |self values db|self values db].
  - eapply store_wf_same; [|exact IH].
    eapply add_column_same. apply surjective_pairing.
  - eapply store_wf_same; [|exact IH].
    eapply bulk_add_columns_same. apply surjective_pairing.
  - eapply add_row_wf; [apply surjective_pairing|exact IH].
  - eapply bulk_add_rows_from_wf; [apply surjective_pairing|exact IH].
Qed.

End Invariant.

(** ** Further properties: the type registry and the cell coercions *)

Section RegistryProperties.
Context {B : PyBuiltins} {E : PyEval}.

Lemma is_space_lower_char (c : ascii) : is_space (lower_char c) = is_space c.
Proof. by destruct c as [[] [] [] [] [] [] [] []]. Qed.

Lemma lower_char_idemp (c : ascii) : lower_char (lower_char c) = lower_char c.
Proof. by destruct c as [[] [] [] [] [] [] [] []]. Qed.

Lemma lower_app (s1 s2 : string) : lower (s1 +:+ s2) = lower s1 +:+ lower s2.
Proof. induction s1 as [|c s1 IH]; simpl; [done|]. by rewrite IH. Qed.

Lemma all_space_lower (s : string) : all_space (lower s) = all_space s.
Proof.
  induction s as [|c s IH]; simpl; [done|]. by rewrite is_space_lower_char, IH.
Qed.

Lemma lstrip_space_app (pad s : string) :
  all_space pad = true → lstrip (pad +:+ s) = lstrip s.
Proof.
  induction pad as [|c pad IH]; simpl; [done|].
  intros [Hc Hpad]%andb_true_iff. rewrite Hc. by apply IH.
Qed.

Lemma rstrip_all_space (pad : string) : all_space pad = true → rstrip pad = "".
Proof.
  induction pad as [|c pad IH]; simpl; [done|].
  intros [Hc Hpad]%andb_true_iff. by rewrite (IH Hpad), Hc.
Qed.

Lemma rstrip_app_space (s pad : string) :
  all_space pad = true → rstrip (s +:+ pad) = rstrip s.
Proof.
  intros Hpad. induction s as [|c s IH]; simpl.
  - by apply rstrip_all_space.
  - by rewrite IH.
Qed.

Lemma lstrip_all_space (s : string) : all_space s = true → lstrip s = "".
Proof.
  induction s as [|c s IH]; simpl; [done|].
  intros [Hc Hs]%andb_true_iff. rewrite Hc. by apply IH.
Qed.

(** Trailing white space does not survive [strip], wherever the leading
    white space ends. *)
Lemma strip_app_space (s pad : string) :
  all_space pad = true → strip (s +:+ pad) = strip s.
Proof.
  intros Hpad. unfold strip. induction s as [|c s IH]; simpl.
  - change ("" +:+ pad) with pad. by rewrite (lstrip_all_space _ Hpad).
  - destruct (is_space c); [exact IH|].
    change (String c (s +:+ pad)) with (String c s +:+ pad).
    by apply rstrip_app_space.
Qed.

Lemma strip_pad (pad1 s pad2 : string) :
  all_space pad1 = true → all_space pad2 = true →
  strip (pad1 +:+ s +:+ pad2) = strip s.
Proof.
  intros H1 H2. unfold strip at 1. rewrite (lstrip_space_app _ _ H1).
  by apply strip_app_space.
Qed.

(** X1. The support check sees neither the case of the letters nor white
    space around the name: two spellings with the same lower-case form,
    one of them padded with white space, are both supported or both not. *)
Theorem X1_data_type_is_supported_ignores_case_and_padding
    (s s' pad1 pad2 : string) :
  lower s = lower s' →
  all_space pad1 = true →
  all_space pad2 = true →
  data_type_is_supported (pad1 +:+ s' +:+ pad2) = data_type_is_supported s.
Proof.
  intros Hcase H1 H2. unfold data_type_is_supported.
  rewrite !lower_app, <- Hcase.
  rewrite strip_pad by (by rewrite all_space_lower).
  reflexivity.
Qed.

(** X2. [is_empty] is true exactly when the table has no column: the rows
    play no part, a table with columns and no row is not empty. *)
Theorem X2_is_empty_iff_no_columns (db : Store) (self : nat) :
  is_empty db self = true ↔ table_columns_all db self = [].
Proof.
  unfold is_empty.
  destruct (table_info_entries db self) as [-> ->]. simpl.
  destruct (table_columns_all db self); simpl; split; done.
Qed.

Lemma title_strip_nonempty (s : string) (t : string) :
  title (strip s) = t → t ≠ "" → s ≠ "".
Proof. intros <- Hne ->. by apply Hne. Qed.

(** X3. The empty string, which [add_row] supplies for a missing key, is
    accepted by every column type; under [char], [textfield], [int], [float]
    and [bool] it is stored as the empty string and read back as the empty
    string, never as a zero or as [False] ([float] rejecting the empty
    string, as it does). *)
Theorem X3_blank_round_trip (data_type : string) :
  float_of_str "" = None →
  data_type ∈ ["char"; "textfield"; "int"; "float"; "bool"] →
  stored_text (PyStr "") data_type = Ok ""
  ∧ round_trip (PyStr "") data_type = Ok (PyStr "").
Proof.
  intros Hfloat Hin.
  assert (Hget : get_value (PyStr "") data_type = Ok (PyStr "")).
  { repeat (apply elem_of_cons in Hin as [->|Hin]); try reflexivity.
    - unfold get_value, py_int_float; simpl. by rewrite Hfloat.
    - unfold get_value; simpl. by rewrite Hfloat.
    - by apply elem_of_nil in Hin. }
  unfold round_trip, stored_text. rewrite full_clean_blank. by split.
Qed.

(** X4. For a string input the coercion raises nothing but
    [CantParseValueToDataType], under [int], [float] or [bool], and
    [OverflowError], under [int] only (the float read from the string has
    no integer part to take). *)
Theorem X4_string_coercion_exceptions (s data_type : string) (e : exn) :
  clean (PyStr s) data_type = Raise e →
  (e = CantParseValueToDataType ∧ data_type ∈ ["int"; "float"; "bool"])
  ∨ (e = OverflowError ∧ data_type = "int").
Proof.
  unfold clean, __validate_data_type__.
  destruct (String.eqb_spec data_type "char") as [->|_]; [discriminate|].
  destruct (String.eqb_spec data_type "textfield") as [->|_]; [discriminate|].
  destruct (String.eqb_spec data_type "int") as [->|_]; simpl.
  { destruct (negb (s =? "")%string); [|discriminate].
    unfold py_int_float, py_int_of_float; simpl.
    destruct (float_of_str s) as [f|]; simpl.
    - destruct (int_of_float f); intros [= <-].
      + left. split; [done|]. by left.
      + by right.
    - intros [= <-]. left. split; [done|]. by left. }
  destruct (String.eqb_spec data_type "float") as [->|_]; simpl.
  { destruct (negb (s =? "")%string); [|discriminate].
    destruct (float_of_str s) as [f|]; simpl; intros [= <-].
    left. split; [done|]. right. by left. }
  destruct (String.eqb_spec data_type "datetime") as [->|_]; simpl.
  { destruct (negb (s =? "")%string); [|discriminate].
    by destruct (fromisoformat _). }
  destruct (String.eqb_spec data_type "bool") as [->|_]; simpl; [|discriminate].
  destruct (negb (s =? "")%string); [|discriminate].
  destruct (title (strip s) =? "True")%string; [discriminate|].
  destruct (title (strip s) =? "False")%string; [discriminate|].
  intros [= <-]. left. split; [done|]. right. right. by left.
Qed.

(** X5. Under [bool], a string that reads [True] or [False] once trimmed
    and title-cased is stored as that constant and read back as the
    boolean; so the string [false] comes back as [False]. *)
Theorem X5_bool_text_round_trip (s : string) (b : bool) :
  title (strip s) = (if b then "True" else "False") →
  stored_text (PyStr s) "bool" = Ok (if b then "True" else "False")
  ∧ round_trip (PyStr s) "bool" = Ok (PyBool b).
Proof.
  intros Htitle.
  assert (Hne : s ≠ "").
  { apply (title_strip_nonempty s _ Htitle). by destruct b. }
  assert (Hstored : stored_text (PyStr s) "bool"
                    = Ok (if b then "True" else "False")).
  { unfold stored_text, full_clean, clean, __validate_data_type__; simpl.
    rewrite (eqb_neq _ _ Hne); simpl. rewrite Htitle. by destruct b. }
  split; [exact Hstored|].
  unfold round_trip. rewrite Hstored. by destruct b.
Qed.

End RegistryProperties.

(** ** Further properties: columns *)

Section ColumnProperties.
Context {B : PyBuiltins} {E : PyEval}.

Lemma is_column_fresh (db : Store) (self : nat) (name : string) :
  name ∉ (column_name <$> TableColumn_objects db) →
  is_column db self name = Ok false.
Proof.
  intros Hfresh. unfold is_column, table_columns_all.
  rewrite (filter_none (λ c, column_name c = name)); [done|].
  apply Forall_forall. intros c [_ Hin]%list_elem_of_filter Hname.
  apply Hfresh. apply list_elem_of_fmap. by exists c.
Qed.

(** What a successful [add_column] went through, and the store it left. *)
Lemma add_column_ok_inv (self : nat) (name data_type : string)
    (db db' : Store) (column : TableColumn) :
  add_column self name data_type db = (db', Ok column) →
  data_type_is_supported data_type = true
  ∧ is_column db self name = Ok false
  ∧ (name ∉ (column_name <$> TableColumn_objects db))
  ∧ column = mkTableColumn (next_column_id db) self name data_type
  ∧ db' = mkStore (TableColumn_objects db ++ [column]) (TableRow_objects db)
                  (CellValue_objects db)
                  (link_add (table_columns db) (self, column_id column))
                  (table_rows db) (column_cells db) (row_cells db)
                  (S (next_column_id db)) (next_row_id db) (next_cell_id db).
Proof.
  unfold add_column.
  destruct (data_type_is_supported data_type); simpl; [|unfold raise; congruence].
  unfold mbind, M_bind, get_store, lift_result.
  destruct (is_column db self name) as [[]|e]; try (unfold raise; congruence).
  unfold TableColumn_create. case_bool_decide as Hin; [congruence|].
  simpl. intros [= <- <-]. by repeat split.
Qed.

(** X6. [bulk_add_columns] on one name and one data type does what
    [add_column] does on them: the same store, the same exception, the same
    column, in a list. *)
Theorem X6_bulk_add_columns_singleton (self : nat) (name data_type : string) (db : Store) :
  bulk_add_columns self [name] [data_type] db
  = match add_column self name data_type db with
    | (db', Ok column) => (db', Ok [column])
    | (db', Raise e) => (db', Raise e)
    end.
Proof.
  unfold bulk_add_columns, add_column, data_type_is_supported_all, data_type_is_supported.
  rewrite bool_decide_eq_false_2 by (intros Hne; by apply Hne).
  destruct (bool_decide (strip (lower data_type) ∈ get_supported_data_types)) eqn:Hsup;
    cbn [negb].
  - rewrite bool_decide_eq_false_2.
    2:{ intros (t & Hf & [->|Hin%elem_of_nil]%elem_of_cons)%list_elem_of_fmap;
          [congruence|done]. }
    rewrite bool_decide_eq_false_2.
    2:{ intros Hne. apply Hne.
        rewrite size_list_to_set; [done|apply NoDup_singleton]. }
    cbn [for_each zip zip_with].
    unfold mbind, M_bind, get_store, lift_result, mret, M_ret.
    destruct (is_column db self name) as [[]|e].
    + rewrite bool_decide_eq_true_2 by (by left). reflexivity.
    + rewrite bool_decide_eq_false_2.
      2:{ intros [Heq|Hin%elem_of_nil]%elem_of_cons; done. }
      destruct (TableColumn_create self name data_type db) as [db1 [column|e]];
        reflexivity.
    + reflexivity.
  - rewrite bool_decide_eq_true_2; [reflexivity|].
    apply list_elem_of_fmap. exists data_type. split; [by rewrite Hsup|by left].
Qed.

(** X7. [add_column] raises nothing but [UnSupportedDataType],
    [DuplicateColumnInTable], the [IntegrityError] of the unique name and
    the [MultipleObjectsReturned] of [is_column]; whenever it raises, the
    store is as it was. *)
Theorem X7_add_column_failure_leaves_store
    (self : nat) (name data_type : string) (db db' : Store) (e : exn) :
  add_column self name data_type db = (db', Raise e) →
  db' = db
  ∧ e ∈ [UnSupportedDataType; DuplicateColumnInTable; IntegrityError;
         MultipleObjectsReturned].
Proof.
  unfold add_column.
  destruct (data_type_is_supported data_type); simpl.
  2:{ unfold raise. intros [= <- <-]. split; [done|]. by left. }
  unfold mbind, M_bind, get_store, lift_result.
  unfold is_column.
  destruct (queryset_get _) as [c|e0] eqn:Hget.
  - unfold raise. intros [= <- <-]. split; [done|]. right. by left.
  - assert (He0 : e0 = DoesNotExist ∨ e0 = MultipleObjectsReturned).
    { unfold queryset_get in Hget.
      destruct (filter _ _) as [|x [|y l]]; simplify_eq; auto. }
    destruct He0 as [-> | ->].
    + unfold TableColumn_create. case_bool_decide; simpl.
      * intros [= <- <-]. split; [done|]. right. right. by left.
      * discriminate.
    + intros [= <- <-]. split; [done|]. right. right. right. by left.
Qed.

(** X8. After a successful [add_column] the name is a column of the table,
    and adding it again, under whatever supported type, raises
    [DuplicateColumnInTable] and changes nothing. *)
Theorem X8_add_column_then_duplicate
    (self : nat) (name data_type : string) (db db' : Store) (column : TableColumn) :
  add_column self name data_type db = (db', Ok column) →
  is_column db' self name = Ok true
  ∧ ∀ data_type',
      data_type_is_supported data_type' = true →
      add_column self name data_type' db' = (db', Raise DuplicateColumnInTable).
Proof.
  intros (Hsup & Hcol & Hfresh & -> & ->)%add_column_ok_inv.
  assert (His : is_column
                  (mkStore (TableColumn_objects db
                            ++ [mkTableColumn (next_column_id db) self name data_type])
                     (TableRow_objects db) (CellValue_objects db)
                     (link_add (table_columns db) (self, next_column_id db))
                     (table_rows db) (column_cells db) (row_cells db)
                     (S (next_column_id db)) (next_row_id db) (next_cell_id db))
                  self name = Ok true).
  { unfold is_column, table_columns_all; simpl.
    rewrite filter_app, filter_app.
    rewrite (filter_none (λ c, column_name c = name)).
    2:{ apply Forall_forall. intros c [_ Hin]%list_elem_of_filter Hname.
        apply Hfresh. apply list_elem_of_fmap. by exists c. }
    rewrite (filter_all _ [_]).
    2:{ constructor; [|constructor]. simpl. apply elem_of_link_add. by right. }
    by rewrite (filter_all _ [_]) by (by repeat constructor). }
  split; [exact His|].
  intros data_type' Hsup'. unfold add_column. rewrite Hsup'. simpl.
  unfold mbind, M_bind, get_store, lift_result. simpl in His |- *. by rewrite His.
Qed.

End ColumnProperties.

(** ** Further properties: referential consistency *)

Section Consistency.
Context {B : PyBuiltins} {E : PyEval}.

Lemma NoDup_fmap_snoc {A C} (f : A → C) (l : list A) (x : A) :
  NoDup (f <$> l) → f x ∉ f <$> l → NoDup (f <$> (l ++ [x])).
Proof.
  intros Hnd Hx. rewrite fmap_app. apply NoDup_app. split; [done|]. split.
  - intros y Hy [->|Hin%elem_of_nil]%elem_of_cons; done.
  - apply NoDup_singleton.
Qed.

Lemma NoDup_fmap_filter {A C} (f : A → C) (P : A → Prop) `{∀ x, Decision (P x)}
    (l : list A) :
  NoDup (f <$> l) → NoDup (f <$> filter P l).
Proof.
  intros Hnd. eapply sublist_NoDup; [exact Hnd|].
  apply fmap_sublist, sublist_filter.
Qed.

Lemma elem_of_fmap_filter {A C} (f : A → C) (P : A → Prop) `{∀ x, Decision (P x)}
    (l : list A) (x : C) :
  x ∈ f <$> l → (∀ y, y ∈ l → f y = x → P y) → x ∈ f <$> filter P l.
Proof.
  intros (y & -> & Hy)%list_elem_of_fmap HP. apply list_elem_of_fmap.
  exists y. split; [done|]. apply list_elem_of_filter. split; [by apply HP|done].
Qed.

Lemma elem_of_fmap_snoc {A C} (f : A → C) (l : list A) (x : A) (y : C) :
  y ∈ f <$> l → y ∈ f <$> (l ++ [x]).
Proof. intros Hy. rewrite fmap_app. apply elem_of_app. by left. Qed.

Lemma elem_of_fmap_last {A C} (f : A → C) (l : list A) (x : A) :
  f x ∈ f <$> (l ++ [x]).
Proof. rewrite fmap_app. apply elem_of_app. right. by left. Qed.

Lemma fresh_key {A} (f : A → nat) (l : list A) (n : nat) :
  (∀ x, x ∈ l → (f x < n)%nat) → n ∉ f <$> l.
Proof. intros Hlt (x & -> & Hx)%list_elem_of_fmap. apply Hlt in Hx. lia. Qed.

Lemma TableColumn_create_consistent (self : nat) (name data_type : string)
    (db db' : Store) (r : result TableColumn) :
  TableColumn_create self name data_type db = (db', r) →
  store_consistent db →
  store_consistent db'
  ∧ TableRow_objects db' = TableRow_objects db
  ∧ (∀ c, c ∈ TableColumn_objects db → c ∈ TableColumn_objects db')
  ∧ (∀ column, r = Ok column → column ∈ TableColumn_objects db').
Proof.
  unfold TableColumn_create. case_bool_decide as Hname; intros [= <- <-] Hsc.
  { split; [exact Hsc|]. by repeat split. }
  destruct Hsc. split; [split; simpl|simpl].
  - intros c [Hin| ->%list_elem_of_singleton]%elem_of_app; simpl;
      [apply sc_column_ids0 in Hin|]; lia.
  - done.
  - done.
  - by apply NoDup_fmap_snoc.
  - apply NoDup_fmap_snoc; [done|]. simpl. by apply fresh_key.
  - done.
  - done.
  - intros c Hin. by apply elem_of_fmap_snoc, sc_cell_column0.
  - done.
  - intros l Hin. by apply elem_of_fmap_snoc, sc_table_columns0.
  - done.
  - intros l Hin. destruct (sc_column_cells0 l Hin). split; [|done].
    by apply elem_of_fmap_snoc.
  - done.
  - split; [done|]. split.
    + intros c Hin. apply elem_of_app. by left.
    + intros column [= <-]. apply elem_of_app. right. by left.
Qed.

Lemma table_columns_add_consistent (self : nat) (columns : list TableColumn) (db : Store) :
  store_consistent db →
  Forall (λ c, c ∈ TableColumn_objects db) columns →
  store_consistent (table_columns_add self columns db).1.
Proof.
  intros Hsc Hcols. destruct Hsc. split; simpl; try done.
  intros l [Hold|Hnew]%elem_of_links_add; [by apply sc_table_columns0|].
  apply list_elem_of_fmap in Hnew as (c & -> & Hc). simpl.
  rewrite Forall_forall in Hcols. by apply list_elem_of_fmap_2, Hcols.
Qed.

Lemma table_rows_add_consistent (self : nat) (row : TableRow) (db : Store) :
  store_consistent db →
  row ∈ TableRow_objects db →
  store_consistent (table_rows_add self row db).1.
Proof.
  intros Hsc Hrow. destruct Hsc. split; simpl; try done.
  intros l [Hold| ->]%elem_of_link_add; [by apply sc_table_rows0|].
  simpl. by apply list_elem_of_fmap_2.
Qed.

Lemma column_cells_add_consistent (column : TableColumn) (cell : CellValue) (db : Store) :
  store_consistent db →
  column ∈ TableColumn_objects db →
  cell_id cell ∈ cell_id <$> CellValue_objects db →
  store_consistent (column_cells_add column cell db).1.
Proof.
  intros Hsc Hcol Hcell. destruct Hsc. split; simpl; try done.
  intros l [Hold| ->]%elem_of_link_add; [by apply sc_column_cells0|].
  simpl. split; [by apply list_elem_of_fmap_2|done].
Qed.

Lemma row_cells_add_consistent (row : TableRow) (cells : list CellValue) (db : Store) :
  store_consistent db →
  row ∈ TableRow_objects db →
  Forall (λ c, cell_id c ∈ cell_id <$> CellValue_objects db) cells →
  store_consistent (row_cells_add row cells db).1.
Proof.
  intros Hsc Hrow Hcells. destruct Hsc. split; simpl; try done.
  intros l [Hold|Hnew]%elem_of_links_add; [by apply sc_row_cells0|].
  apply list_elem_of_fmap in Hnew as (c & -> & Hc). simpl.
  rewrite Forall_forall in Hcells. split; [by apply list_elem_of_fmap_2|by apply Hcells].
Qed.

Lemma TableRow_create_consistent (self : nat) (db : Store) :
  store_consistent db →
  store_consistent (TableRow_create self db).1.
Proof.
  intros Hsc. destruct Hsc. split; simpl; try done.
  - intros r [Hin| ->%list_elem_of_singleton]%elem_of_app; simpl;
      [apply sc_row_ids0 in Hin|]; lia.
  - apply NoDup_fmap_snoc; [done|]. simpl. by apply fresh_key.
  - intros c Hin. by apply elem_of_fmap_snoc, sc_cell_row0.
  - intros l Hin. by apply elem_of_fmap_snoc, sc_table_rows0.
  - intros l Hin. destruct (sc_row_cells0 l Hin). split; [|done].
    by apply elem_of_fmap_snoc.
Qed.

Lemma CellValue_create_consistent (cell_value : PyVal) (self : nat)
    (column : TableColumn) (row : TableRow) (db db' : Store) (r : result CellValue) :
  CellValue_create cell_value self column row db = (db', r) →
  store_consistent db →
  column ∈ TableColumn_objects db →
  row ∈ TableRow_objects db →
  store_consistent db'
  ∧ TableColumn_objects db' = TableColumn_objects db
  ∧ TableRow_objects db' = TableRow_objects db
  ∧ (∀ k, k ∈ cell_id <$> CellValue_objects db → k ∈ cell_id <$> CellValue_objects db')
  ∧ (∀ cell, r = Ok cell → cell_id cell ∈ cell_id <$> CellValue_objects db').
Proof.
  unfold CellValue_create, CellValue_save; simpl. intros Hrun Hsc Hcol Hrow.
  destruct (full_clean cell_value (column_data_type column)) as [v|e].
  2:{ injection Hrun as <- <-. split; [exact Hsc|]. by repeat split. }
  assert (Hsaved : ∀ v', v' ≠ PyNone →
    (mkStore (TableColumn_objects db) (TableRow_objects db)
       (CellValue_objects db
        ++ [mkCellValue (next_cell_id db) (PyStr (py_str v')) self
                        (column_id column) (row_id row)])
       (table_columns db) (table_rows db) (column_cells db) (row_cells db)
       (next_column_id db) (next_row_id db) (S (next_cell_id db)),
     @Ok CellValue (mkCellValue (next_cell_id db) v' self (column_id column) (row_id row)))
    = (db', r) →
    store_consistent db'
    ∧ TableColumn_objects db' = TableColumn_objects db
    ∧ TableRow_objects db' = TableRow_objects db
    ∧ (∀ k, k ∈ cell_id <$> CellValue_objects db → k ∈ cell_id <$> CellValue_objects db')
    ∧ (∀ cell, r = Ok cell → cell_id cell ∈ cell_id <$> CellValue_objects db')).
  { intros v' _ [= <- <-]. destruct Hsc. split; [split; simpl; try done|simpl].
    - intros c [Hin| ->%list_elem_of_singleton]%elem_of_app; simpl;
        [apply sc_cell_ids0 in Hin|]; lia.
    - apply NoDup_fmap_snoc; [done|]. simpl. by apply fresh_key.
    - intros c [Hin| ->%list_elem_of_singleton]%elem_of_app; simpl;
        [by apply sc_cell_column0|by apply list_elem_of_fmap_2].
    - intros c [Hin| ->%list_elem_of_singleton]%elem_of_app; simpl;
        [by apply sc_cell_row0|by apply list_elem_of_fmap_2].
    - intros l Hin. destruct (sc_column_cells0 l Hin). split; [done|].
      by apply elem_of_fmap_snoc.
    - intros l Hin. destruct (sc_row_cells0 l Hin). split; [done|].
      by apply elem_of_fmap_snoc.
    - do 2 (split; [done|]). split.
      + intros k Hk. by apply elem_of_fmap_snoc.
      + intros cell [= <-]. simpl.
        apply (elem_of_fmap_last cell_id _
                 (mkCellValue (next_cell_id db) (PyStr (py_str v')) self
                              (column_id column) (row_id row))). }
  destruct v as [|b|z|f|s|d].
  - injection Hrun as <- <-. split; [exact Hsc|]. by repeat split.
  - by apply (Hsaved (PyBool b)).
  - by apply (Hsaved (PyInt z)).
  - by apply (Hsaved (PyFloat f)).
  - by apply (Hsaved (PyStr s)).
  - by apply (Hsaved (PyDateTime d)).
Qed.

Lemma table_columns_remove_consistent (self : nat) (column : TableColumn) (db : Store) :
  store_consistent db → store_consistent (table_columns_remove self column db).1.
Proof.
  intros Hsc. destruct Hsc. split; simpl; try done.
  intros l [_ Hin]%list_elem_of_filter. by apply sc_table_columns0.
Qed.

Lemma table_rows_remove_consistent (self : nat) (row : TableRow) (db : Store) :
  store_consistent db → store_consistent (table_rows_remove self row db).1.
Proof.
  intros Hsc. destruct Hsc. split; simpl; try done.
  intros l [_ Hin]%list_elem_of_filter. by apply sc_table_rows0.
Qed.

(** A cell key that is not among the keys of the deleted cells is the key
    of a cell that stays. *)
Lemma surviving_cell_key (P : CellValue → Prop) `{∀ c, Decision (P c)}
    (cells : list CellValue) (k : nat) :
  k ∈ cell_id <$> cells →
  k ∉ cell_id <$> filter P cells →
  k ∈ cell_id <$> filter (λ c, ¬ P c) cells.
Proof.
  intros (c & -> & Hc)%list_elem_of_fmap Hgone.
  apply list_elem_of_fmap_2, list_elem_of_filter. split; [|done].
  intros HP. apply Hgone. by apply list_elem_of_fmap_2, list_elem_of_filter.
Qed.

Lemma TableColumn_delete_consistent (column : TableColumn) (db : Store) :
  store_consistent db → store_consistent (TableColumn_delete column db).1.
Proof.
  intros Hsc. destruct Hsc. split; simpl; try done.
  - intros c [_ Hin]%list_elem_of_filter. by apply sc_column_ids0.
  - intros c [_ Hin]%list_elem_of_filter. by apply sc_cell_ids0.
  - by apply NoDup_fmap_filter.
  - by apply NoDup_fmap_filter.
  - by apply NoDup_fmap_filter.
  - intros c [Hne Hin]%list_elem_of_filter.
    apply elem_of_fmap_filter; [by apply sc_cell_column0|].
    intros y _ Hy. by rewrite Hy.
  - intros c [_ Hin]%list_elem_of_filter. by apply sc_cell_row0.
  - intros l [Hne Hin]%list_elem_of_filter.
    apply elem_of_fmap_filter; [by apply sc_table_columns0|].
    intros y _ Hy. by rewrite Hy.
  - intros l [[Hne Hgone] Hin]%list_elem_of_filter.
    destruct (sc_column_cells0 l Hin) as [Hcol Hcell]. split.
    + apply elem_of_fmap_filter; [done|]. intros y _ Hy. by rewrite Hy.
    + by apply (surviving_cell_key (λ c, table_column c = column_id column)).
  - intros l [Hgone Hin]%list_elem_of_filter.
    destruct (sc_row_cells0 l Hin) as [Hrow Hcell]. split; [done|].
    by apply (surviving_cell_key (λ c, table_column c = column_id column)).
Qed.

Lemma TableRow_delete_consistent (row : TableRow) (db : Store) :
  store_consistent db → store_consistent (TableRow_delete row db).1.
Proof.
  intros Hsc. destruct Hsc. split; simpl; try done.
  - intros r [_ Hin]%list_elem_of_filter. by apply sc_row_ids0.
  - intros c [_ Hin]%list_elem_of_filter. by apply sc_cell_ids0.
  - by apply NoDup_fmap_filter.
  - by apply NoDup_fmap_filter.
  - intros c [_ Hin]%list_elem_of_filter. by apply sc_cell_column0.
  - intros c [Hne Hin]%list_elem_of_filter.
    apply elem_of_fmap_filter; [by apply sc_cell_row0|].
    intros y _ Hy. by rewrite Hy.
  - intros l [Hne Hin]%list_elem_of_filter.
    apply elem_of_fmap_filter; [by apply sc_table_rows0|].
    intros y _ Hy. by rewrite Hy.
  - intros l [Hgone Hin]%list_elem_of_filter.
    destruct (sc_column_cells0 l Hin) as [Hcol Hcell]. split; [done|].
    by apply (surviving_cell_key (λ c, table_row c = row_id row)).
  - intros l [[Hne Hgone] Hin]%list_elem_of_filter.
    destruct (sc_row_cells0 l Hin) as [Hrow Hcell]. split.
    + apply elem_of_fmap_filter; [done|]. intros y _ Hy. by rewrite Hy.
    + by apply (surviving_cell_key (λ c, table_row c = row_id row)).
Qed.

Lemma store_consistent_empty : store_consistent empty_store.
Proof.
  split; simpl; try (intros x Hin; by apply elem_of_nil in Hin); constructor.
Qed.

Lemma store_consistent_wf (db : Store) : store_consistent db → store_wf db.
Proof.
  intros Hsc. destruct Hsc. split.
  - done.
  - intros l Hin. destruct (sc_row_cells0 l Hin) as [Hrow _].
    apply list_elem_of_fmap in Hrow as (r & -> & Hr). by apply sc_row_ids0.
  - intros l Hin. apply sc_table_rows0 in Hin.
    apply list_elem_of_fmap in Hin as (r & -> & Hr). by apply sc_row_ids0.
Qed.

Lemma add_column_consistent (self : nat) (name data_type : string)
    (db db' : Store) (r : result TableColumn) :
  add_column self name data_type db = (db', r) →
  store_consistent db → store_consistent db'.
Proof.
  unfold add_column. destruct (negb _); [unfold raise; by intros [= <- <-]|].
  unfold mbind, M_bind, get_store, lift_result.
  destruct (is_column db self name) as [[]|e]; try (unfold raise; by intros [= <- <-]).
  destruct (TableColumn_create self name data_type db) as [db1 [column|e]] eqn:Hcreate;
    intros Hrun Hsc;
    destruct (TableColumn_create_consistent _ _ _ _ _ _ Hcreate Hsc)
      as (Hsc1 & _ & _ & Hnew).
  - simpl in Hrun. injection Hrun as <- <-.
    apply (table_columns_add_consistent self [column] db1 Hsc1).
    constructor; [by apply Hnew|constructor].
  - by injection Hrun as <- <-.
Qed.

Lemma for_each_create_consistent (self : nat) (pairs : list (string * string)) :
  ∀ (db db' : Store) (r : result (list TableColumn)),
    for_each (λ '(name, data_type), TableColumn_create self name data_type) pairs db
    = (db', r) →
    store_consistent db →
    store_consistent db'
    ∧ (∀ c, c ∈ TableColumn_objects db → c ∈ TableColumn_objects db')
    ∧ (∀ columns, r = Ok columns → Forall (λ c, c ∈ TableColumn_objects db') columns).
Proof.
  induction pairs as [|[name data_type] pairs IH]; intros db db' r; simpl.
  - intros [= <- <-] Hsc. split; [done|]. split; [done|].
    intros columns [= <-]. constructor.
  - unfold mbind at 1, M_bind at 1. intros Hrun Hsc.
    destruct (TableColumn_create self name data_type db) as [db1 [column|e]] eqn:Hcreate;
      destruct (TableColumn_create_consistent _ _ _ _ _ _ Hcreate Hsc)
        as (Hsc1 & _ & Hold & Hnew).
    + unfold mbind at 1, M_bind at 1 in Hrun.
      destruct (for_each _ pairs db1) as [db2 [columns|e]] eqn:Hrest;
        destruct (IH _ _ _ Hrest Hsc1) as (Hsc2 & Hold2 & Hnew2);
        simpl in Hrun; injection Hrun as <- <-.
      * split; [done|]. split; [by auto|].
        intros columns' [= <-]. constructor; [by apply Hold2, Hnew|by apply Hnew2].
      * split; [done|]. split; [by auto|]. discriminate.
    + injection Hrun as <- <-. split; [done|]. split; [done|]. discriminate.
Qed.

Lemma bulk_add_columns_consistent (self : nat) (column_names data_types : list string)
    (db db' : Store) (r : result (list TableColumn)) :
  bulk_add_columns self column_names data_types db = (db', r) →
  store_consistent db → store_consistent db'.
Proof.
  unfold bulk_add_columns.
  repeat (case_bool_decide; [unfold raise; by intros [= <- <-]|]).
  destruct (for_each_is_column db self column_names db) as (rb & Hrb & _).
  unfold mbind, M_bind, get_store. rewrite Hrb.
  destruct rb as [bs|e]; [|by intros [= <- <-]].
  case_bool_decide; [unfold raise; by intros [= <- <-]|].
  destruct (for_each _ (zip column_names data_types) db) as [db1 [columns|e]] eqn:Hcreate;
    intros Hrun Hsc;
    destruct (for_each_create_consistent _ _ _ _ _ Hcreate Hsc) as (Hsc1 & _ & Hnew).
  - simpl in Hrun. injection Hrun as <- <-.
    apply (table_columns_add_consistent self columns db1 Hsc1). by apply Hnew.
  - by injection Hrun as <- <-.
Qed.

Lemma add_row_cells_consistent (self : nat) (the_row : TableRow)
    (values : gmap string PyVal) (columns : list TableColumn) :
  ∀ (row : list CellValue) (db db' : Store) (r : result (list CellValue)),
    add_row_cells self the_row values columns row db = (db', r) →
    store_consistent db →
    the_row ∈ TableRow_objects db →
    Forall (λ c, c ∈ TableColumn_objects db) columns →
    Forall (λ c, cell_id c ∈ cell_id <$> CellValue_objects db) row →
    store_consistent db'
    ∧ TableRow_objects db' = TableRow_objects db
    ∧ ∀ cells, r = Ok cells →
               Forall (λ c, cell_id c ∈ cell_id <$> CellValue_objects db') cells.
Proof.
  induction columns as [|column columns IH]; intros row db db' r; simpl.
  - intros [= <- <-] Hsc Hrow Hcols Hcells. split; [done|]. split; [done|].
    by intros cells [= <-].
  - unfold mbind at 1, M_bind at 1. intros Hrun Hsc Hrow Hcols Hcells.
    apply Forall_cons in Hcols as [Hcol Hcols].
    destruct (CellValue_create _ self column the_row db) as [db1 [cell|e]] eqn:Hcreate;
      destruct (CellValue_create_consistent _ _ _ _ _ _ _ Hcreate Hsc Hcol Hrow)
        as (Hsc1 & Hc1 & Hr1 & Hkeys & Hcell).
    + unfold mbind at 1, M_bind at 1 in Hrun.
      assert (Hsc2 : store_consistent (column_cells_add column cell db1).1).
      { apply column_cells_add_consistent; [done| |by apply Hcell].
        by rewrite Hc1. }
      apply IH in Hrun as (Hsc3 & Hr3 & Hcells3); simpl.
      * split; [done|]. split; [by rewrite Hr3|done].
      * exact Hsc2.
      * by rewrite Hr1.
      * rewrite Hc1. exact Hcols.
      * apply Forall_app. split.
        -- eapply Forall_impl; [exact Hcells|]. simpl. intros c Hc. by apply Hkeys.
        -- constructor; [by apply Hcell|constructor].
    + injection Hrun as <- <-. split; [done|]. split; [done|]. discriminate.
Qed.

Lemma add_row_consistent (self : nat) (values : gmap string PyVal)
    (db db' : Store) (r : result TableRow) :
  add_row self values db = (db', r) → store_consistent db → store_consistent db'.
Proof.
  unfold add_row, mbind at 1, M_bind at 1, get_store at 1.
  destruct (__total_table_columns db self =? 0)%nat; [unfold raise; by intros [= <- <-]|].
  unfold mbind at 1, M_bind at 1.
  pose proof (TableRow_create_consistent self db) as Hcreate.
  unfold TableRow_create at 1.
  unfold mbind at 1, M_bind at 1, get_store at 1.
  unfold mbind at 1, M_bind at 1.
  intros Hrun Hsc. specialize (Hcreate Hsc). unfold TableRow_create in Hcreate.
  simpl in Hcreate.
  match type of Hrun with context [add_row_cells _ ?tr _ ?cs ?row ?db1] =>
    destruct (add_row_cells self tr values cs row db1) as [db2 [cells|e]] eqn:Hloop;
    apply add_row_cells_consistent in Hloop as (Hsc2 & Hr2 & Hcells);
    [|exact Hcreate|simpl; apply elem_of_app; right; by left
     |apply Forall_forall; intros c [_ Hc]%list_elem_of_filter; exact Hc
     |constructor
     |
     |exact Hcreate|simpl; apply elem_of_app; right; by left
     |apply Forall_forall; intros c [_ Hc]%list_elem_of_filter; exact Hc
     |constructor]
  end.
  - simpl in Hrun, Hr2. injection Hrun as <- <-.
    change (store_consistent
              (table_rows_add self (mkTableRow (next_row_id db) self)
                 (row_cells_add (mkTableRow (next_row_id db) self) cells db2).1).1).
    apply table_rows_add_consistent.
    + apply row_cells_add_consistent; [done| |by apply Hcells].
      rewrite Hr2. apply elem_of_app. right. by left.
    + simpl. rewrite Hr2. apply elem_of_app. right. by left.
  - by injection Hrun as <- <-.
Qed.

Lemma bulk_add_rows_from_consistent (self : nat) (values : list (gmap string PyVal)) :
  ∀ (rows : list TableRow) (db db' : Store) (r : result (list TableRow)),
    bulk_add_rows_from self values rows db = (db', r) →
    store_consistent db → store_consistent db'.
Proof.
  induction values as [|row values IH]; intros rows db db' r; simpl.
  - by intros [= <- <-].
  - unfold mbind at 1, M_bind at 1, get_store at 1.
    destruct (__total_table_columns db self =? 0)%nat; [unfold raise; by intros [= <- <-]|].
    unfold mbind at 1, M_bind at 1.
    destruct (add_row self row db) as [db1 [table_row|e]] eqn:Hrow;
      pose proof (add_row_consistent _ _ _ _ _ Hrow) as Hstep; intros Hrun Hsc.
    + eapply IH; [exact Hrun|]. by apply Hstep.
    + injection Hrun as <- <-. by apply Hstep.
Qed.

Lemma delete_column_consistent (self : nat) (name : string)
    (db db' : Store) (r : result TableColumn) :
  delete_column self name db = (db', r) → store_consistent db → store_consistent db'.
Proof.
  unfold delete_column, mbind at 1, M_bind at 1, get_store at 1.
  destruct (queryset_get _) as [column|e].
  - unfold mbind, M_bind. simpl. intros [= <- <-] Hsc.
    apply (TableColumn_delete_consistent column (table_columns_remove self column db).1).
    by apply (table_columns_remove_consistent self column).
  - destruct e; unfold raise; by intros [= <- <-].
Qed.

Lemma delete_row_consistent (self : nat) (row_index : option nat)
    (db db' : Store) (r : result TableRow) :
  delete_row self row_index db = (db', r) → store_consistent db → store_consistent db'.
Proof.
  unfold delete_row, mbind at 1, M_bind at 1, get_store at 1.
  assert (Hdel : ∀ row,
    (_ ← table_rows_remove self row; _ ← TableRow_delete row; mret row) db = (db', r) →
    store_consistent db → store_consistent db').
  { intros row. unfold mbind, M_bind. simpl. intros [= <- <-] Hsc.
    apply (TableRow_delete_consistent row (table_rows_remove self row db).1).
    by apply (table_rows_remove_consistent self row). }
  destruct row_index as [pk|].
  - destruct (queryset_get _) as [row|e]; [by apply Hdel|].
    destruct e; unfold raise; by intros [= <- <-].
  - destruct (last _) as [row|]; [by apply Hdel|].
    unfold raise; by intros [= <- <-].
Qed.

Lemma operation_consistent (db db' : Store) :
  operation db db' → store_consistent db → store_consistent db'.
Proof.
  intros Hop Hsc.
  destruct Hop as [db db' Hcall|self name db|self row_index db].
  - destruct Hcall as [self name data_type db|self names types db
                      |self values db|self values db].
    + eapply add_column_consistent; [apply surjective_pairing|exact Hsc].
    + eapply bulk_add_columns_consistent; [apply surjective_pairing|exact Hsc].
    + eapply add_row_consistent; [apply surjective_pairing|exact Hsc].
    + eapply bulk_add_rows_from_consistent; [apply surjective_pairing|exact Hsc].
  - eapply delete_column_consistent; [apply surjective_pairing|exact Hsc].
  - eapply delete_row_consistent; [apply surjective_pairing|exact Hsc].
Qed.

Lemma history_store_consistent (db : Store) : history db → store_consistent db.
Proof.
  induction 1 as [|db db' Hhist IH Hop].
  - apply store_consistent_empty.
  - exact (operation_consistent db db' Hop IH).
Qed.

(** X9. Whatever sequence of [add_column], [bulk_add_columns], [add_row],
    [bulk_add_rows], [delete_column] and [delete_row] calls built a store,
    calls that raised included, it is referentially consistent: primary
    keys and column names are unique, every cell belongs to a column and to
    a row that exist, and every link row of the four many-to-many relations
    names objects that exist. *)
Theorem X9_history_is_consistent (db : Store) : history db → store_consistent db.
Proof.
  intros Hhistory.
  induction Hhistory as [|db db' Hhist IH Hop].
  - split; simpl; try (intros x Hin; by apply elem_of_nil in Hin); constructor.
  - destruct Hop as [db db' Hcall|self name db|self row_index db].
    + destruct Hcall as [self name data_type db|self names types db
                        |self values db|self values db].
      * exact (add_column_consistent _ _ _ _ _ _ (surjective_pairing _) IH).
      * exact (bulk_add_columns_consistent _ _ _ _ _ _ (surjective_pairing _) IH).
      * exact (add_row_consistent _ _ _ _ _ (surjective_pairing _) IH).
      * exact (bulk_add_rows_from_consistent _ _ _ _ _ _ (surjective_pairing _) IH).
    + exact (delete_column_consistent _ _ _ _ _ (surjective_pairing _) IH).
    + exact (delete_row_consistent _ _ _ _ _ (surjective_pairing _) IH).
Qed.

End Consistency.

(** ** Further properties: what consistency gives the reads *)

Section ConsistentReads.
Context {B : PyBuiltins} {E : PyEval}.

(** Under a key that is unique in a list, a lookup by key finds nothing or
    exactly one element. *)
Lemma filter_key_unique {A C} `{EqDecision C} (f : A → C) (l : list A) (y : C) :
  NoDup (f <$> l) →
  filter (λ x, f x = y) l = []
  ∨ ∃ x, x ∈ l ∧ f x = y ∧ filter (λ x, f x = y) l = [x].
Proof.
  induction l as [|a l IH]; intros Hnd; [by left|].
  rewrite fmap_cons in Hnd. apply NoDup_cons in Hnd as [Ha Hnd].
  destruct (decide (f a = y)) as [Hy|Hy].
  - right. exists a. split; [by left|]. split; [done|].
    rewrite filter_cons_True by done. f_equal.
    apply filter_none, Forall_forall. intros x Hx Hfx.
    apply Ha. rewrite Hy, <- Hfx. by apply list_elem_of_fmap_2.
  - rewrite filter_cons_False by done.
    destruct (IH Hnd) as [Hnone|(x & Hx & Hfx & Hone)]; [by left|].
    right. exists x. split; [by right|]. by split.
Qed.

Lemma filter_key_elem {A C} `{EqDecision C} (f : A → C) (l : list A) (x : A) :
  NoDup (f <$> l) → x ∈ l → filter (λ z, f z = f x) l = [x].
Proof.
  intros Hnd Hx.
  destruct (filter_key_unique f l (f x) Hnd) as [Hnone|(z & Hz & Hfz & Hone)].
  - assert (Hin : x ∈ filter (λ z, f z = f x) l) by (by apply list_elem_of_filter).
    rewrite Hnone in Hin. by apply elem_of_nil in Hin.
  - assert (Hin : x ∈ filter (λ z, f z = f x) l) by (by apply list_elem_of_filter).
    rewrite Hone in Hin. apply list_elem_of_singleton in Hin as ->. exact Hone.
Qed.

Lemma table_columns_all_names_unique (db : Store) (self : nat) :
  store_consistent db → NoDup (column_name <$> table_columns_all db self).
Proof. intros Hsc. apply NoDup_fmap_filter, Hsc. Qed.

Lemma is_column_consistent (db : Store) (self : nat) (name : string) :
  store_consistent db →
  is_column db self name
  = Ok (bool_decide (name ∈ column_name <$> table_columns_all db self)).
Proof.
  intros Hsc. unfold is_column.
  destruct (filter_key_unique column_name (table_columns_all db self) name
              (table_columns_all_names_unique db self Hsc))
    as [Hnone|(c & Hc & Hname & Hone)].
  - rewrite Hnone. simpl. rewrite bool_decide_eq_false_2; [done|].
    intros (c & -> & Hc)%list_elem_of_fmap.
    assert (Hin : c ∈ filter (λ x, column_name x = column_name c)
                             (table_columns_all db self))
      by (by apply list_elem_of_filter).
    rewrite Hnone in Hin. by apply elem_of_nil in Hin.
  - rewrite Hone. simpl. rewrite bool_decide_eq_true_2; [done|].
    rewrite <- Hname. by apply list_elem_of_fmap_2.
Qed.

(** X10. On a consistent store [is_column] never raises: it answers whether
    one of the columns of the table bears the name. [delete_column] then
    raises nothing but [ColumnNotInTable], for a name that is no column of
    the table, and leaves the store untouched when it does; its
    [DuplicateColumnInTable] is never raised. *)
Theorem X10_is_column_decides (db : Store) (self : nat) (name : string) :
  store_consistent db →
  is_column db self name
  = Ok (bool_decide (name ∈ column_name <$> table_columns_all db self))
  ∧ ∀ db' e, delete_column self name db = (db', Raise e) →
             e = ColumnNotInTable ∧ db' = db
             ∧ name ∉ column_name <$> table_columns_all db self.
Proof.
  intros Hsc. split; [by apply is_column_consistent|].
  intros db' e. unfold delete_column, mbind at 1, M_bind at 1, get_store at 1.
  destruct (filter_key_unique column_name (table_columns_all db self) name
              (table_columns_all_names_unique db self Hsc))
    as [Hnone|(c & Hc & Hname & Hone)].
  - rewrite Hnone. simpl. unfold raise. intros [= <- <-].
    split; [done|]. split; [done|].
    intros (c & -> & Hc)%list_elem_of_fmap.
    assert (Hin : c ∈ filter (λ x, column_name x = column_name c)
                             (table_columns_all db self))
      by (by apply list_elem_of_filter).
    rewrite Hnone in Hin. by apply elem_of_nil in Hin.
  - rewrite Hone. simpl. unfold mbind, M_bind. simpl. discriminate.
Qed.

(** X11. On a consistent store the column of a stored cell is found:
    [get_value] on the cell is [get_value] on its text under the declared
    type of that column, and fails for no other reason. *)
Theorem X11_stored_cell_has_its_column (db : Store) (cell : CellValue) :
  store_consistent db →
  cell ∈ CellValue_objects db →
  ∃ column,
    column ∈ TableColumn_objects db
    ∧ column_id column = table_column cell
    ∧ CellValue_get_value db cell = get_value (value cell) (column_data_type column).
Proof.
  intros Hsc Hcell.
  pose proof (sc_cell_column db Hsc cell Hcell) as Hcol.
  apply list_elem_of_fmap in Hcol as (column & Hid & Hcolumn).
  exists column. split; [done|]. split; [done|].
  unfold CellValue_get_value. rewrite Hid.
  by rewrite (filter_key_elem column_id _ column (sc_column_keys db Hsc) Hcolumn).
Qed.

End ConsistentReads.

(** ** Further properties: rows and the reads *)

Section RowProperties.
Context {B : PyBuiltins} {E : PyEval}.

Lemma CellValue_create_inv (cell_value : PyVal) (self : nat) (column : TableColumn)
    (row : TableRow) (db db' : Store) (r : result CellValue) :
  CellValue_create cell_value self column row db = (db', r) →
  column_cells db' = column_cells db
  ∧ (next_cell_id db ≤ next_cell_id db')%nat
  ∧ ∀ cell, r = Ok cell →
            cell_id cell = next_cell_id db ∧ next_cell_id db' = S (next_cell_id db).
Proof.
  unfold CellValue_create, CellValue_save; simpl.
  destruct (full_clean cell_value (column_data_type column)) as [[]|e];
    intros [= <- <-]; simpl; (split; [done|]); (split; [lia|]);
    by intros cell [= <-].
Qed.

Lemma add_row_cells_column_cells (self : nat) (the_row : TableRow)
    (values : gmap string PyVal) (columns : list TableColumn) :
  ∀ (row : list CellValue) (db db' : Store) (r : result (list CellValue)),
    add_row_cells self the_row values columns row db = (db', r) →
    (next_cell_id db ≤ next_cell_id db')%nat
    ∧ ∃ links, column_cells db' = column_cells db ++ links
               ∧ ∀ l, l ∈ links → (next_cell_id db ≤ l.2 < next_cell_id db')%nat.
Proof.
  induction columns as [|column columns IH]; intros row db db' r; simpl.
  - intros [= <- <-]. split; [done|]. exists []. split; [by rewrite app_nil_r|].
    intros l Hl. by apply elem_of_nil in Hl.
  - unfold mbind at 1, M_bind at 1. intros Hrun.
    destruct (CellValue_create _ self column the_row db) as [db1 [cell|e]] eqn:Hcreate;
      apply CellValue_create_inv in Hcreate as (Hcc & Hle & Hid).
    + unfold mbind at 1, M_bind at 1, column_cells_add at 1 in Hrun.
      apply IH in Hrun as (Hle2 & links & Hlinks & Hge). simpl in Hle2, Hlinks, Hge.
      split; [lia|].
      destruct (Hid cell eq_refl) as [Hcell Hnext].
      unfold link_add in Hlinks. case_bool_decide.
      * exists links. rewrite Hlinks, Hcc. split; [done|].
        intros l Hl. apply Hge in Hl. lia.
      * exists ((column_id column, cell_id cell) :: links).
        rewrite Hlinks, Hcc, <- app_assoc. split; [done|].
        intros l [->|Hl]%elem_of_cons; [simpl; lia|]. apply Hge in Hl. lia.
    + injection Hrun as <- <-. split; [done|]. exists [].
      split; [by rewrite app_nil_r, Hcc|]. intros l Hl. by apply elem_of_nil in Hl.
Qed.

Lemma supplied_accepted (db : Store) (self : nat) (values : gmap string PyVal) :
  (∀ column v, column ∈ table_columns_all db self →
               values !! column_name column = Some v →
               accepts v (column_data_type column)) →
  Forall (λ c, accepts (supplied values c) (column_data_type c))
         (table_columns_all db self).
Proof.
  intros Hsupplied. apply Forall_forall. intros column Hin. unfold supplied.
  destruct (values !! column_name column) as [v|] eqn:Hv; simpl.
  - by apply (Hsupplied column v).
  - apply accepts_blank.
Qed.

(** A successful [add_row], step by step. *)
Lemma add_row_ok_store (db : Store) (self : nat) (values : gmap string PyVal) :
  table_columns_all db self ≠ [] →
  Forall (λ c, accepts (supplied values c) (column_data_type c))
         (table_columns_all db self) →
  ∃ db' cells links,
    add_row self values db = (db', Ok (mkTableRow (next_row_id db) self))
    ∧ row_added db self values db' cells links.
Proof.
  intros Hcols Hacc.
  set (the_row := mkTableRow (next_row_id db) self).
  set (db1 := mkStore (TableColumn_objects db) (TableRow_objects db ++ [the_row])
                      (CellValue_objects db) (table_columns db) (table_rows db)
                      (column_cells db) (row_cells db)
                      (next_column_id db) (S (next_row_id db)) (next_cell_id db)).
  destruct (add_row_cells_ok self the_row values (table_columns_all db self) [] db1 Hacc)
    as (db2 & cells & Hrun & Hcells & Hids & Hobjs & Hnext & Hsame).
  destruct (add_row_cells_column_cells _ _ _ _ _ _ _ _ Hrun) as (_ & links & Hlinks & Hge).
  destruct Hsame as (Hs1 & Hs2 & Hs3 & Hs4 & Hs5 & Hs6 & Hs7).
  simpl in Hrun, Hids, Hobjs, Hnext, Hs1, Hs2, Hs3, Hs4, Hs5, Hs6, Hs7, Hlinks, Hge.
  eexists _, cells, links. split.
  - unfold add_row, mbind at 1, M_bind at 1, get_store at 1.
    unfold __total_table_columns.
    rewrite (proj2 (Nat.eqb_neq _ 0)) by (by destruct (table_columns_all db self)).
    unfold mbind at 1, M_bind at 1, TableRow_create at 1. fold the_row db1.
    unfold mbind at 1, M_bind at 1, get_store at 1.
    replace (table_columns_all db1 self) with (table_columns_all db self) by reflexivity.
    erewrite bind_ok by exact Hrun.
    reflexivity.
  - split; simpl; try done.
    + by rewrite Hs4.
    + by rewrite Hs5.
    + intros l Hl. apply Hge in Hl. lia.
Qed.

Lemma row_added_row_cells (db : Store) (self : nat) (values : gmap string PyVal)
    (db' : Store) (cells : list CellValue) (links : list (nat * nat)) :
  store_wf db →
  row_added db self values db' cells links →
  row_cells_all db' (mkTableRow (next_row_id db) self) = to_stored <$> cells.
Proof.
  intros Hwf Hra. unfold row_cells_all; simpl.
  rewrite (ra_stored _ _ _ _ _ _ Hra), (ra_row_cells _ _ _ _ _ _ Hra), filter_app.
  rewrite filter_none, filter_all; simpl; [done| |].
  - apply Forall_forall. intros c Hin.
    apply list_elem_of_fmap in Hin as (c' & -> & Hin'). simpl.
    apply elem_of_links_add. right.
    apply list_elem_of_fmap. by exists c'.
  - apply Forall_forall. intros c Hin Hlink.
    apply elem_of_links_add in Hlink as [Hold|Hnew].
    + apply (wf_row_cells _ Hwf) in Hold. simpl in Hold. lia.
    + apply list_elem_of_fmap in Hnew as (c' & Heq & Hin').
      injection Heq as Heq.
      assert (Hge : (next_cell_id db ≤ cell_id c')%nat).
      { apply (elem_of_seq_ge _ (length (table_columns_all db self))).
        rewrite <- (ra_cell_ids _ _ _ _ _ _ Hra). apply list_elem_of_fmap. by exists c'. }
      apply (wf_cell_ids _ Hwf) in Hin. lia.
Qed.

Lemma cell_for_row_cell_of (self : nat) (the_row : TableRow)
    (values : gmap string PyVal) (column : TableColumn) (cell : CellValue) :
  cell_for self the_row values column cell →
  row_cell_of self the_row values column (to_stored cell).
Proof.
  intros (Hclean & Hsome & Hcol & Hrow & Htab). unfold row_cell_of; simpl.
  repeat split; try done.
  - exists (py_str (value cell)). split; [|done].
    unfold stored_text. rewrite Hclean. by destruct (value cell).
  - intros Hnone. rewrite (supplied_missing _ _ Hnone), full_clean_blank in Hclean.
    injection Hclean as <-. done.
Qed.

Lemma get_row_cells_new_row (db db' : Store) (self : nat) :
  store_consistent db →
  TableRow_objects db' = TableRow_objects db ++ [mkTableRow (next_row_id db) self] →
  get_row_cells db' self (next_row_id db)
  = Ok (row_cells_all db' (mkTableRow (next_row_id db) self)).
Proof.
  intros Hsc Hrows. unfold get_row_cells. rewrite Hrows, filter_app.
  rewrite filter_none.
  - by rewrite (filter_all _ [_]) by (by repeat constructor).
  - apply Forall_forall. intros r Hr [_ Hid].
    apply (sc_row_ids _ Hsc) in Hr. lia.
Qed.

(** X12. On a consistent store, [add_row] followed by [get_row_cells] on
    the key of the row it returned gives the cells of that row: one per
    column of the table, in the order of the columns, each holding the text
    of the coerced value, the empty string where the mapping has no
    entry. *)
Theorem X12_add_row_then_get_row_cells
    (db : Store) (self : nat) (values : gmap string PyVal) :
  store_consistent db →
  table_columns_all db self ≠ [] →
  (∀ column v, column ∈ table_columns_all db self →
               values !! column_name column = Some v →
               accepts v (column_data_type column)) →
  ∃ db' the_row cells,
    add_row self values db = (db', Ok the_row)
    ∧ get_row_cells db' self (row_id the_row) = Ok cells
    ∧ Forall2 (row_cell_of self the_row values) (table_columns_all db self) cells.
Proof.
  intros Hsc Hcols Hsupplied.
  destruct (add_row_ok_store db self values Hcols (supplied_accepted _ _ _ Hsupplied))
    as (db' & cells & links & Hrun & Hra).
  exists db', (mkTableRow (next_row_id db) self), (to_stored <$> cells).
  split; [exact Hrun|]. split.
  - simpl. rewrite (get_row_cells_new_row db db' self Hsc (ra_rows _ _ _ _ _ _ Hra)).
    f_equal.
    exact (row_added_row_cells db self values db' cells links
             (store_consistent_wf db Hsc) Hra).
  - apply Forall2_fmap_r. eapply Forall2_impl; [exact (ra_cells _ _ _ _ _ _ Hra)|].
    intros column cell. apply cell_for_row_cell_of.
Qed.

Lemma CellValue_create_ok_inv (cell_value : PyVal) (self : nat) (column : TableColumn)
    (row : TableRow) (db db' : Store) (cell : CellValue) :
  CellValue_create cell_value self column row db = (db', Ok cell) →
  accepts cell_value (column_data_type column).
Proof.
  unfold CellValue_create, CellValue_save, accepts; simpl.
  destruct (full_clean cell_value (column_data_type column)) as [v|e]; [|discriminate].
  intros Hrun. exists v. split; [done|]. intros ->. discriminate Hrun.
Qed.

(** A loop that ran to its end accepted the value of every column. *)
Lemma add_row_cells_ok_inv (self : nat) (the_row : TableRow)
    (values : gmap string PyVal) (columns : list TableColumn) :
  ∀ (row : list CellValue) (db db' : Store) (cells : list CellValue),
    add_row_cells self the_row values columns row db = (db', Ok cells) →
    Forall (λ c, accepts (supplied values c) (column_data_type c)) columns.
Proof.
  induction columns as [|column columns IH]; intros row db db' cells; simpl.
  - intros _. constructor.
  - unfold mbind at 1, M_bind at 1. intros Hrun.
    destruct (CellValue_create _ self column the_row db) as [db1 [cell|e]] eqn:Hcreate;
      [|discriminate].
    apply CellValue_create_ok_inv in Hcreate.
    unfold mbind at 1, M_bind at 1, column_cells_add at 1 in Hrun.
    apply IH in Hrun. by constructor.
Qed.

(** [add_row] succeeds on a table with columns that accept the supplied
    values, and on no other. *)
Lemma add_row_ok_inv (self : nat) (values : gmap string PyVal)
    (db db' : Store) (the_row : TableRow) :
  add_row self values db = (db', Ok the_row) →
  table_columns_all db self ≠ []
  ∧ Forall (λ c, accepts (supplied values c) (column_data_type c))
           (table_columns_all db self).
Proof.
  unfold add_row, mbind at 1, M_bind at 1, get_store at 1.
  unfold __total_table_columns.
  destruct (length (table_columns_all db self) =? 0)%nat eqn:Hlen; [discriminate|].
  unfold mbind at 1, M_bind at 1, TableRow_create at 1.
  unfold mbind at 1, M_bind at 1, get_store at 1.
  unfold mbind at 1, M_bind at 1.
  match goal with |- context [add_row_cells _ ?tr _ ?cs ?row ?db1] =>
    destruct (add_row_cells self tr values cs row db1) as [db2 [cells|e']] eqn:Hloop;
      [|discriminate]
  end.
  intros _. split.
  - intros Hnil. rewrite Hnil in Hlen. discriminate Hlen.
  - by apply add_row_cells_ok_inv in Hloop.
Qed.

(** X13. [to_dict] works on a row without cells only: on the row a
    successful [add_row] returned it raises [AttributeError], the cells
    having no attribute [column]. *)
Theorem X13_to_dict_fails_on_added_row
    (db db' : Store) (self : nat) (values : gmap string PyVal) (the_row : TableRow) :
  store_wf db →
  add_row self values db = (db', Ok the_row) →
  to_dict db' the_row = Raise AttributeError.
Proof.
  intros Hwf Hadd.
  destruct (add_row_ok_inv _ _ _ _ _ Hadd) as [Hcols Hacc].
  destruct (add_row_ok_store db self values Hcols Hacc)
    as (db2 & cells & links & Hrun & Hra).
  rewrite Hadd in Hrun. injection Hrun as -> ->.
  unfold to_dict.
  rewrite (row_added_row_cells db self values db2 cells links Hwf Hra).
  pose proof (ra_cells _ _ _ _ _ _ Hra) as Hcells.
  destruct Hcells as [|column cell columns cells' _ _]; [done|reflexivity].
Qed.

(** Among the cells built for columns with distinct keys, exactly one
    belongs to a given column. *)
Lemma filter_cell_of_column (self : nat) (the_row : TableRow)
    (values : gmap string PyVal) (column : TableColumn)
    (columns : list TableColumn) (cells : list CellValue) :
  Forall2 (cell_for self the_row values) columns cells →
  NoDup (column_id <$> columns) →
  column ∈ columns →
  ∃ cell,
    cell_for self the_row values column cell
    ∧ filter (λ c, cell_table c = self ∧ table_column c ∈ [column_id column]
                   ∧ table_row c = row_id the_row)
             (to_stored <$> cells)
      = [to_stored cell].
Proof.
  induction 1 as [|column0 cell0 columns cells Hhead Htail IH]; intros Hnd Hin.
  { by apply elem_of_nil in Hin. }
  rewrite fmap_cons in Hnd. apply NoDup_cons in Hnd as [Hfresh Hnd].
  assert (Hothers : ∀ column', column' ∈ columns → column_id column' ≠ column_id column0).
  { intros column' Hin' Heq. apply Hfresh. rewrite <- Heq.
    by apply list_elem_of_fmap_2. }
  destruct (decide (column_id column = column_id column0)) as [Hsame|Hdiff].
  - assert (column = column0) as ->.
    { apply elem_of_cons in Hin as [->|Hin]; [done|].
      by destruct (Hothers column Hin). }
    exists cell0. split; [exact Hhead|].
    destruct Hhead as (Hclean & Hsome & Hcol & Hrow & Htab).
    rewrite fmap_cons, filter_cons_True.
    2:{ simpl. split; [done|]. split; [rewrite Hcol; by left|done]. }
    f_equal. apply filter_none, Forall_forall.
    intros c (c' & -> & Hc')%list_elem_of_fmap (_ & Hc & _). simpl in Hc.
    apply list_elem_of_singleton in Hc.
    apply (proj1 (list_elem_of_lookup _ _)) in Hc' as [i Hi].
    destruct (Forall2_lookup_r _ _ _ _ _ Htail Hi) as (column' & Hcolumn' & Hfor).
    destruct Hfor as (_ & _ & Hcol' & _).
    apply (Hothers column'); [by eapply list_elem_of_lookup_2|]. congruence.
  - apply elem_of_cons in Hin as [->|Hin]; [done|].
    destruct (IH Hnd Hin) as (cell & Hcell & Hfilter).
    exists cell. split; [exact Hcell|].
    destruct Hhead as (Hclean & Hsome & Hcol & Hrow & Htab).
    rewrite fmap_cons, filter_cons_False; [exact Hfilter|].
    simpl. intros (_ & Hc & _). apply list_elem_of_singleton in Hc. congruence.
Qed.

(** X14. On a consistent store, after a successful [add_row], [get_cell]
    on the name of any column of the table and the key of the new row
    returns the cell [add_row] wrote for that column. *)
Theorem X14_add_row_then_get_cell
    (db : Store) (self : nat) (values : gmap string PyVal) (column : TableColumn) :
  store_consistent db →
  column ∈ table_columns_all db self →
  (∀ column v, column ∈ table_columns_all db self →
               values !! column_name column = Some v →
               accepts v (column_data_type column)) →
  ∃ db' the_row cell,
    add_row self values db = (db', Ok the_row)
    ∧ get_cell db' self (column_name column) (row_id the_row) = Ok cell
    ∧ row_cell_of self the_row values column cell.
Proof.
  intros Hsc Hcolumn Hsupplied.
  assert (Hcols : table_columns_all db self ≠ []).
  { intros Hnil. rewrite Hnil in Hcolumn. by apply elem_of_nil in Hcolumn. }
  destruct (add_row_ok_store db self values Hcols (supplied_accepted _ _ _ Hsupplied))
    as (db' & cells & links & Hrun & Hra).
  destruct (filter_cell_of_column self (mkTableRow (next_row_id db) self) values column
              (table_columns_all db self) cells (ra_cells _ _ _ _ _ _ Hra))
    as (cell & Hcell & Hfilter); [by apply NoDup_fmap_filter, Hsc|done|].
  exists db', (mkTableRow (next_row_id db) self), (to_stored cell).
  split; [exact Hrun|]. split; [|by apply cell_for_row_cell_of].
  assert (Hobj : column ∈ TableColumn_objects db).
  { by apply list_elem_of_filter in Hcolumn as [_ Hobj]. }
  unfold get_cell, is_column.
  rewrite (table_columns_all_same db db' self)
    by (apply (ra_columns _ _ _ _ _ _ Hra) || apply (ra_table_columns _ _ _ _ _ _ Hra)).
  rewrite (filter_key_elem column_name _ column
             (table_columns_all_names_unique db self Hsc) Hcolumn).
  simpl queryset_get. cbv iota.
  rewrite (ra_columns _ _ _ _ _ _ Hra).
  rewrite (filter_key_elem column_name _ column (sc_column_names db Hsc) Hobj).
  rewrite (ra_stored _ _ _ _ _ _ Hra), filter_app.
  rewrite filter_none.
  - simpl in Hfilter |- *. by rewrite Hfilter.
  - apply Forall_forall. intros c Hc (_ & _ & Hrow). simpl in Hrow.
    pose proof (sc_cell_row db Hsc c Hc) as Hr.
    apply list_elem_of_fmap in Hr as (r & Heq & Hr).
    apply (sc_row_ids db Hsc) in Hr. lia.
Qed.

Lemma filter_ext_in {A} (P Q : A → Prop) `{∀ x, Decision (P x)} `{∀ x, Decision (Q x)}
    (l : list A) :
  (∀ x, x ∈ l → P x ↔ Q x) → filter P l = filter Q l.
Proof.
  induction l as [|a l IH]; intros Hiff; [done|].
  assert (Hl : filter P l = filter Q l).
  { apply IH. intros x Hx. apply Hiff. by right. }
  destruct (decide (P a)) as [Ha|Ha].
  - rewrite !filter_cons_True; [by rewrite Hl| |done].
    apply Hiff; [by left|done].
  - rewrite !filter_cons_False; [done| |done].
    intros HQ. apply Ha, Hiff; [by left|done].
Qed.

(** The links the loop of [add_row] adds to [column_cells]: one per column,
    to the cell created for it. *)
Lemma add_row_cells_links (self : nat) (the_row : TableRow)
    (values : gmap string PyVal) (columns : list TableColumn) :
  ∀ (row : list CellValue) (db db' : Store) (cells : list CellValue),
    add_row_cells self the_row values columns row db = (db', Ok cells) →
    column_cells db'
    = links_add (column_cells db)
                (zip (column_id <$> columns) (seq (next_cell_id db) (length columns))).
Proof.
  induction columns as [|column columns IH]; intros row db db' cells; simpl.
  - by intros [= <- _].
  - unfold mbind at 1, M_bind at 1. intros Hrun.
    destruct (CellValue_create _ self column the_row db) as [db1 [cell|e]] eqn:Hcreate;
      [|discriminate].
    apply CellValue_create_inv in Hcreate as (Hcc & _ & Hid).
    destruct (Hid cell eq_refl) as [Hcell Hnext].
    unfold mbind at 1, M_bind at 1, column_cells_add at 1 in Hrun.
    apply IH in Hrun. simpl in Hrun. rewrite Hrun, Hcc, Hcell, Hnext. reflexivity.
Qed.

(** Among the cells created for columns with distinct keys, the cell
    linked to a column is the one created for it. *)
Lemma filter_linked_cell (links : list (nat * nat)) (columns : list TableColumn)
    (cells : list CellValue) (n i : nat) (column : TableColumn) (cell : CellValue) :
  NoDup (column_id <$> columns) →
  cell_id <$> cells = seq n (length columns) →
  (∀ l, l ∈ links → (l.2 < n)%nat) →
  columns !! i = Some column →
  cells !! i = Some cell →
  filter (λ c, (column_id column, cell_id c)
               ∈ links_add links (zip (column_id <$> columns) (seq n (length columns))))
         (to_stored <$> cells)
  = [to_stored cell].
Proof.
  intros Hnd Hids Hold Hcolumn Hcell.
  assert (Hkeys : cell_id <$> (to_stored <$> cells) = seq n (length columns)).
  { by rewrite <- list_fmap_compose. }
  assert (Hi : cell_id cell = (n + i)%nat).
  { assert (Hl : (cell_id <$> cells) !! i = Some (cell_id cell))
      by (by rewrite list_lookup_fmap, Hcell).
    rewrite Hids in Hl. by apply lookup_seq in Hl as [-> _]. }
  assert (Hlt : (i < length columns)%nat) by (by eapply lookup_lt_Some).
  rewrite <- (filter_key_elem cell_id (to_stored <$> cells) (to_stored cell)).
  - apply filter_ext_in. intros x Hx. simpl.
    assert (Hxid : cell_id x ∈ seq n (length columns)).
    { rewrite <- Hkeys. by apply list_elem_of_fmap_2. }
    rewrite elem_of_links_add. split.
    + intros [Hl|Hl].
      * apply Hold in Hl. apply elem_of_seq_ge in Hxid. simpl in Hl. lia.
      * apply (proj1 (list_elem_of_lookup _ _)) in Hl as [j Hj].
        apply lookup_zip_with_Some in Hj as (a & k & Heq & Ha & Hk).
        injection Heq as Ha' Hk'. subst a k.
        assert (j = i) as ->.
        { eapply NoDup_lookup; [exact Hnd|exact Ha|].
          by rewrite list_lookup_fmap, Hcolumn. }
        apply lookup_seq in Hk as [-> _]. lia.
    + intros Hid. right. apply (list_elem_of_lookup_2 _ i).
      apply lookup_zip_with_Some. exists (column_id column), (cell_id x).
      split; [done|]. split; [by rewrite list_lookup_fmap, Hcolumn|].
      rewrite Hid, Hi. by apply lookup_seq.
  - rewrite Hkeys. apply NoDup_seq.
  - apply list_elem_of_fmap_2. by eapply list_elem_of_lookup_2.
Qed.

Lemma CellValue_create_frame (cell_value : PyVal) (self : nat) (column : TableColumn)
    (row : TableRow) (db db' : Store) (r : result CellValue) :
  CellValue_create cell_value self column row db = (db', r) → same_but_cells db db'.
Proof.
  unfold CellValue_create, CellValue_save; simpl.
  destruct (full_clean cell_value (column_data_type column)) as [[]|e];
    intros [= <- <-]; by repeat split.
Qed.

(** The loop of [add_row] touches the cells and their links to the columns
    only, however it ends. *)
Lemma add_row_cells_frame (self : nat) (the_row : TableRow)
    (values : gmap string PyVal) (columns : list TableColumn) :
  ∀ (row : list CellValue) (db db' : Store) (r : result (list CellValue)),
    add_row_cells self the_row values columns row db = (db', r) →
    same_but_cells db db'.
Proof.
  induction columns as [|column columns IH]; intros row db db' r; simpl.
  - intros [= <- <-]. by repeat split.
  - unfold mbind at 1, M_bind at 1. intros Hrun.
    destruct (CellValue_create _ self column the_row db) as [db1 [cell|e]] eqn:Hcreate;
      apply CellValue_create_frame in Hcreate.
    + unfold mbind at 1, M_bind at 1, column_cells_add at 1 in Hrun.
      apply IH in Hrun. unfold same_but_cells in *. simpl in Hrun.
      destruct Hcreate as (E1 & E2 & E3 & E4 & E5 & E6 & E7).
      destruct Hrun as (F1 & F2 & F3 & F4 & F5 & F6 & F7).
      repeat split; congruence.
    + by injection Hrun as <- <-.
Qed.

(** What a failed [add_row] leaves on a table with columns: the provisional
    row, in no relation. *)
Lemma add_row_raise_frame (self : nat) (values : gmap string PyVal)
    (db db' : Store) (e : exn) :
  add_row self values db = (db', Raise e) →
  table_columns_all db self ≠ [] →
  TableColumn_objects db' = TableColumn_objects db
  ∧ table_columns db' = table_columns db
  ∧ TableRow_objects db' = TableRow_objects db ++ [mkTableRow (next_row_id db) self]
  ∧ table_rows db' = table_rows db
  ∧ row_cells db' = row_cells db.
Proof.
  intros Hrun Hcols. revert Hrun.
  unfold add_row, mbind at 1, M_bind at 1, get_store at 1.
  unfold __total_table_columns.
  rewrite (proj2 (Nat.eqb_neq _ 0)) by (by destruct (table_columns_all db self)).
  unfold mbind at 1, M_bind at 1, TableRow_create at 1.
  unfold mbind at 1, M_bind at 1, get_store at 1.
  unfold mbind at 1, M_bind at 1.
  match goal with |- context [add_row_cells _ ?tr _ ?cs ?row ?db1] =>
    destruct (add_row_cells self tr values cs row db1) as [db2 [cells|e']] eqn:Hloop;
    apply add_row_cells_frame in Hloop
  end.
  - simpl. discriminate.
  - intros [= <- <-]. destruct Hloop as (H1 & H2 & H3 & H4 & H5 & _).
    simpl in H1, H2, H3, H4, H5. by repeat split.
Qed.

(** X15. A failed [add_row] on a table with columns leaves its provisional
    row behind. The rows of the table are what they were, and [delete_row]
    on the key raises [RowNotInTable]; yet [get_row_cells], which raised
    [RowNotInTable] on that key before the call, now returns the empty
    list. *)
Theorem X15_failed_add_row_leaves_a_readable_row
    (db db' : Store) (self : nat) (values : gmap string PyVal) (e : exn) :
  store_consistent db →
  table_columns_all db self ≠ [] →
  add_row self values db = (db', Raise e) →
  get_row_cells db self (next_row_id db) = Raise RowNotInTable
  ∧ get_row_cells db' self (next_row_id db) = Ok []
  ∧ table_rows_all db' self = table_rows_all db self
  ∧ delete_row self (Some (next_row_id db)) db' = (db', Raise RowNotInTable).
Proof.
  intros Hsc Hcols Hrun.
  destruct (add_row_raise_frame _ _ _ _ _ Hrun Hcols) as (Hc & Htc & Hr & Htr & Hrc).
  pose proof (store_consistent_wf db Hsc) as Hwf.
  assert (Hrows : table_rows_all db' self = table_rows_all db self).
  { unfold table_rows_all at 1. by apply table_rows_all_provisional. }
  split; [|split; [|split]].
  - unfold get_row_cells. rewrite filter_none; [done|].
    apply Forall_forall. intros r Hin [_ Hid].
    apply (sc_row_ids db Hsc) in Hin. lia.
  - rewrite (get_row_cells_new_row db db' self Hsc Hr). f_equal.
    unfold row_cells_all. rewrite Hrc. apply filter_none, Forall_forall.
    intros c _ Hlink. apply (wf_row_cells db Hwf) in Hlink. simpl in Hlink. lia.
  - exact Hrows.
  - unfold delete_row, mbind at 1, M_bind at 1, get_store at 1.
    rewrite Hrows, filter_none; [done|].
    apply Forall_forall. intros r [_ Hin]%list_elem_of_filter Hid.
    apply (sc_row_ids db Hsc) in Hin. lia.
Qed.

Lemma row_added_table_rows (db : Store) (self : nat) (values : gmap string PyVal)
    (db' : Store) (cells : list CellValue) (links : list (nat * nat)) :
  store_consistent db →
  row_added db self values db' cells links →
  table_rows_all db' self = table_rows_all db self ++ [mkTableRow (next_row_id db) self].
Proof.
  intros Hsc Hra. unfold table_rows_all.
  rewrite (ra_rows _ _ _ _ _ _ Hra), (ra_table_rows _ _ _ _ _ _ Hra), filter_app.
  f_equal.
  - apply filter_ext_in. intros r Hr. rewrite elem_of_link_add.
    split; [|by left]. intros [Hold|Heq]; [done|].
    injection Heq as Heq. apply (sc_row_ids db Hsc) in Hr. lia.
  - apply (filter_all _ [_]). constructor; [|constructor].
    simpl. apply elem_of_link_add. by right.
Qed.

(** A successful [add_row] leaves the cells of the rows that were there
    as [get_row_cells] returned them. *)
Lemma row_added_get_row_cells (db : Store) (self : nat) (values : gmap string PyVal)
    (db' : Store) (cells : list CellValue) (links : list (nat * nat)) (k : nat) :
  store_consistent db →
  row_added db self values db' cells links →
  (k < next_row_id db)%nat →
  get_row_cells db' self k = get_row_cells db self k.
Proof.
  intros Hsc Hra Hk. unfold get_row_cells.
  rewrite (ra_rows _ _ _ _ _ _ Hra), filter_app.
  rewrite (filter_none _ [_]), app_nil_r.
  2:{ constructor; [|constructor]. simpl. intros [_ Hid]. lia. }
  destruct (filter _ (TableRow_objects db)) as [|row [|]] eqn:Hf; try done.
  simpl. f_equal.
  assert (Hrow : row_id row = k).
  { assert (Hin : row ∈ filter (λ r, row_table r = self ∧ row_id r = k)
                              (TableRow_objects db)) by (rewrite Hf; by left).
    by apply list_elem_of_filter in Hin as [[_ Hid] _]. }
  unfold row_cells_all.
  rewrite (ra_stored _ _ _ _ _ _ Hra), (ra_row_cells _ _ _ _ _ _ Hra), filter_app.
  rewrite (filter_none _ (to_stored <$> cells)), app_nil_r.
  - apply filter_ext_in. intros c Hc. rewrite elem_of_links_add.
    split; [|by left]. intros [Hold|Hnew]; [done|].
    apply list_elem_of_fmap in Hnew as (c' & Heq & _). injection Heq as Heq _. lia.
  - apply Forall_forall. intros c Hc Hlink.
    apply elem_of_links_add in Hlink as [Hold|Hnew].
    + apply (sc_row_cells db Hsc) in Hold as [_ Hold]. simpl in Hold.
      apply list_elem_of_fmap in Hold as (c0 & Heq & Hc0).
      apply (sc_cell_ids db Hsc) in Hc0.
      apply list_elem_of_fmap in Hc as (c' & -> & Hc'). simpl in Heq.
      assert (Hge : (next_cell_id db ≤ cell_id c')%nat).
      { apply (elem_of_seq_ge _ (length (table_columns_all db self))).
        rewrite <- (ra_cell_ids _ _ _ _ _ _ Hra). by apply list_elem_of_fmap_2. }
      lia.
    + apply list_elem_of_fmap in Hnew as (c' & Heq & _). injection Heq as Heq _. lia.
Qed.

(** The values of every mapping of the sequence are accepted by the
    columns of the table. *)
Lemma bulk_add_rows_from_ok (self : nat) (values : list (gmap string PyVal)) :
  ∀ (rows : list TableRow) (db : Store),
    store_consistent db →
    table_columns_all db self ≠ [] →
    Forall (λ row, Forall (λ c, accepts (supplied row c) (column_data_type c))
                          (table_columns_all db self)) values →
    ∃ db' added,
      bulk_add_rows_from self values rows db = (db', Ok (rows ++ added))
      ∧ length added = length values
      ∧ table_rows_all db' self = table_rows_all db self ++ added
      ∧ table_columns_all db' self = table_columns_all db self
      ∧ store_consistent db'
      ∧ Forall2 (row_holds db' self (table_columns_all db self)) values added
      ∧ (next_row_id db ≤ next_row_id db')%nat
      ∧ (∀ k, (k < next_row_id db)%nat →
              get_row_cells db' self k = get_row_cells db self k).
Proof.
  induction values as [|row values IH]; intros rows db Hsc Hcols Hacc.
  - exists db, []. simpl. rewrite !app_nil_r.
    split; [done|]. split; [done|]. split; [done|]. split; [done|].
    split; [exact Hsc|]. split; [constructor|]. split; [lia|done].
  - apply Forall_cons in Hacc as [Hrow Hacc].
    destruct (add_row_ok_store db self row Hcols Hrow)
      as (db1 & cells & links & Hrun & Hra).
    assert (Hcols1 : table_columns_all db1 self = table_columns_all db self).
    { apply table_columns_all_same; apply Hra. }
    assert (Hsc1 : store_consistent db1) by (by eapply add_row_consistent).
    pose proof (ra_next_row _ _ _ _ _ _ Hra) as Hnext1.
    destruct (IH (rows ++ [mkTableRow (next_row_id db) self]) db1 Hsc1)
      as (db' & added & Hrest & Hlen & Hrows & Hcols' & Hsc' & Hheld & Hle & Hkeep).
    { by rewrite Hcols1. }
    { by rewrite Hcols1. }
    exists db', (mkTableRow (next_row_id db) self :: added).
    split; [|split; [|split; [|split; [|split; [|split; [|split]]]]]].
    + simpl. unfold mbind at 1, M_bind at 1, get_store at 1.
      unfold __total_table_columns.
      rewrite (proj2 (Nat.eqb_neq _ 0)) by (by destruct (table_columns_all db self)).
      erewrite bind_ok by exact Hrun.
      rewrite Hrest. by rewrite <- app_assoc.
    + simpl. by rewrite Hlen.
    + rewrite Hrows, (row_added_table_rows db self row db1 cells links Hsc Hra).
      by rewrite <- app_assoc.
    + by rewrite Hcols', Hcols1.
    + exact Hsc'.
    + constructor; [|by rewrite <- Hcols1].
      exists (to_stored <$> cells). split.
      * simpl. rewrite Hkeep by lia.
        rewrite (get_row_cells_new_row db db1 self Hsc (ra_rows _ _ _ _ _ _ Hra)).
        f_equal.
        exact (row_added_row_cells db self row db1 cells links
                 (store_consistent_wf db Hsc) Hra).
      * apply Forall2_fmap_r. eapply Forall2_impl; [exact (ra_cells _ _ _ _ _ _ Hra)|].
        intros column cell. apply cell_for_row_cell_of.
    + lia.
    + intros k Hk. rewrite Hkeep by lia.
      by apply (row_added_get_row_cells db self row db1 cells links).
Qed.

(** X16. On a consistent store and a table with columns, [bulk_add_rows]
    on mappings whose supplied values are all accepted returns one row per
    mapping, and these rows come after the rows the table had, in the order
    of the mappings: the cells [get_row_cells] returns for the row of a
    mapping are those of that mapping, one per column in the order of the
    columns, each holding the text of the coerced value, the empty string
    where the mapping has no entry. *)
Theorem X16_bulk_add_rows_appends_in_order
    (db : Store) (self : nat) (values : list (gmap string PyVal)) :
  store_consistent db →
  table_columns_all db self ≠ [] →
  (∀ row column v, row ∈ values → column ∈ table_columns_all db self →
                   row !! column_name column = Some v →
                   accepts v (column_data_type column)) →
  ∃ db' rows,
    bulk_add_rows self values db = (db', Ok rows)
    ∧ length rows = length values
    ∧ table_rows_all db' self = table_rows_all db self ++ rows
    ∧ table_columns_all db' self = table_columns_all db self
    ∧ Forall2 (row_holds db' self (table_columns_all db self)) values rows.
Proof.
  intros Hsc Hcols Hsupplied.
  destruct (bulk_add_rows_from_ok self values [] db Hsc Hcols)
    as (db' & added & Hrun & Hlen & Hrows & Hcols' & _ & Hheld & _).
  { apply Forall_forall. intros row Hrow. apply supplied_accepted.
    intros column v. by apply Hsupplied. }
  exists db', added. by repeat split.
Qed.

Lemma bulk_add_rows_from_app (self : nat) (values1 values2 : list (gmap string PyVal)) :
  ∀ (rows : list TableRow) (db : Store),
    bulk_add_rows_from self (values1 ++ values2) rows db
    = match bulk_add_rows_from self values1 rows db with
      | (db1, Ok rows1) => bulk_add_rows_from self values2 rows1 db1
      | (db1, Raise e) => (db1, Raise e)
      end.
Proof.
  induction values1 as [|row values1 IH]; intros rows db; [done|].
  simpl. unfold mbind, M_bind, get_store.
  destruct (__total_table_columns db self =? 0)%nat; [done|].
  destruct (add_row self row db) as [db1 [table_row|e]]; [apply IH|done].
Qed.

(** X17. No rollback across a batch: when [bulk_add_rows] has added the
    rows of the first mappings and [add_row] raises on the next one, the
    batch raises that exception in the store the failed [add_row] left, and
    the rows added so far are still rows of the table. *)
Theorem X17_bulk_add_rows_keeps_earlier_rows
    (db db1 db2 : Store) (self : nat)
    (values1 values2 : list (gmap string PyVal)) (row : gmap string PyVal)
    (rows1 : list TableRow) (e : exn) :
  bulk_add_rows self values1 db = (db1, Ok rows1) →
  add_row self row db1 = (db2, Raise e) →
  bulk_add_rows self (values1 ++ row :: values2) db = (db2, Raise e)
  ∧ (store_consistent db1 → table_rows_all db2 self = table_rows_all db1 self).
Proof.
  intros Hfirst Hrow. split.
  - unfold bulk_add_rows in *. rewrite bulk_add_rows_from_app, Hfirst. simpl.
    unfold mbind at 1, M_bind at 1, get_store at 1.
    destruct (__total_table_columns db1 self =? 0)%nat eqn:Hzero.
    + revert Hrow. unfold add_row, mbind at 1, M_bind at 1, get_store at 1.
      rewrite Hzero. by intros [= <- <-].
    + unfold mbind at 1, M_bind at 1. by rewrite Hrow.
  - intros Hsc.
    destruct (decide (table_columns_all db1 self = [])) as [Hnil|Hcols].
    + revert Hrow. unfold add_row, mbind at 1, M_bind at 1, get_store at 1.
      unfold __total_table_columns. rewrite Hnil. simpl. by intros [= <- <-].
    + destruct (add_row_raise_frame _ _ _ _ _ Hrow Hcols) as (_ & _ & Hr & Htr & _).
      unfold table_rows_all at 1.
      by apply table_rows_all_provisional; [apply store_consistent_wf| |].
Qed.

End RowProperties.

(** ** The columns of a table belong to it *)

Section Ownership.
Context {B : PyBuiltins} {E : PyEval}.

Lemma NoDup_key_eq {A C} `{EqDecision C} (f : A → C) (l : list A) (x y : A) :
  NoDup (f <$> l) → x ∈ l → y ∈ l → f x = f y → x = y.
Proof.
  intros Hnd Hx Hy Heq.
  assert (Hin : x ∈ filter (λ z, f z = f y) l) by (by apply list_elem_of_filter).
  rewrite (filter_key_elem f l y Hnd Hy) in Hin.
  by apply list_elem_of_singleton in Hin.
Qed.

Lemma columns_owned_same (db db' : Store) :
  TableColumn_objects db' = TableColumn_objects db →
  table_columns db' = table_columns db →
  columns_owned db → columns_owned db'.
Proof. intros Hc Hl Hown c l. rewrite Hc, Hl. apply Hown. Qed.

Lemma columns_owned_fewer (db db' : Store) :
  (∀ c, c ∈ TableColumn_objects db' → c ∈ TableColumn_objects db) →
  (∀ l, l ∈ table_columns db' → l ∈ table_columns db) →
  columns_owned db → columns_owned db'.
Proof. intros Hc Hl Hown c l Hin Hlink. apply Hown; auto. Qed.

Lemma columns_owned_empty : columns_owned empty_store.
Proof. intros c l Hc. by apply elem_of_nil in Hc. Qed.

Lemma TableColumn_create_owned (self : nat) (name data_type : string)
    (db db' : Store) (r : result TableColumn) :
  TableColumn_create self name data_type db = (db', r) →
  store_consistent db → columns_owned db →
  columns_owned db' ∧ (∀ column, r = Ok column → column_table column = self).
Proof.
  unfold TableColumn_create. case_bool_decide; intros [= <- <-] Hsc Hown.
  { split; [done|discriminate]. }
  split.
  - intros c l; simpl. intros [Hc| ->%list_elem_of_singleton]%elem_of_app Hl Hid.
    + by apply Hown.
    + simpl in Hid. apply (sc_table_columns db Hsc) in Hl.
      apply list_elem_of_fmap in Hl as (c0 & Heq & Hc0).
      apply (sc_column_ids db Hsc) in Hc0. lia.
  - by intros column [= <-].
Qed.

Lemma table_columns_add_owned (self : nat) (columns : list TableColumn) (db : Store) :
  store_consistent db → columns_owned db →
  Forall (λ c, c ∈ TableColumn_objects db ∧ column_table c = self) columns →
  columns_owned (table_columns_add self columns db).1.
Proof.
  intros Hsc Hown Hcols c l; simpl. intros Hc Hl Hid.
  apply elem_of_links_add in Hl as [Hl|Hl]; [by apply Hown|].
  apply list_elem_of_fmap in Hl as (c' & -> & Hc'). simpl in Hid |- *.
  apply (proj1 (Forall_forall _ _) Hcols) in Hc' as [Hobj Hself].
  by rewrite <- (NoDup_key_eq column_id _ c' c (sc_column_keys db Hsc) Hobj Hc Hid).
Qed.

Lemma add_column_owned (self : nat) (name data_type : string)
    (db db' : Store) (r : result TableColumn) :
  add_column self name data_type db = (db', r) →
  store_consistent db → columns_owned db → columns_owned db'.
Proof.
  unfold add_column. destruct (negb _); [unfold raise; by intros [= <- <-]|].
  unfold mbind, M_bind, get_store, lift_result.
  destruct (is_column db self name) as [[]|e]; try (unfold raise; by intros [= <- <-]).
  destruct (TableColumn_create self name data_type db) as [db1 [column|e]] eqn:Hcreate;
    intros Hrun Hsc Hown;
    destruct (TableColumn_create_consistent _ _ _ _ _ _ Hcreate Hsc)
      as (Hsc1 & _ & _ & Hnew);
    destruct (TableColumn_create_owned _ _ _ _ _ _ Hcreate Hsc Hown) as (Hown1 & Hself).
  - simpl in Hrun. injection Hrun as <- <-.
    apply (table_columns_add_owned self [column] db1 Hsc1 Hown1).
    constructor; [|constructor]. split; [by apply Hnew|by apply Hself].
  - by injection Hrun as <- <-.
Qed.

Lemma for_each_create_owned (self : nat) (pairs : list (string * string)) :
  ∀ (db db' : Store) (r : result (list TableColumn)),
    for_each (λ '(name, data_type), TableColumn_create self name data_type) pairs db
    = (db', r) →
    store_consistent db → columns_owned db →
    columns_owned db'
    ∧ (∀ columns, r = Ok columns → Forall (λ c, column_table c = self) columns).
Proof.
  induction pairs as [|[name data_type] pairs IH]; intros db db' r; simpl.
  - intros [= <- <-] Hsc Hown. split; [done|]. intros columns [= <-]. constructor.
  - unfold mbind at 1, M_bind at 1. intros Hrun Hsc Hown.
    destruct (TableColumn_create self name data_type db) as [db1 [column|e]] eqn:Hcreate;
      destruct (TableColumn_create_consistent _ _ _ _ _ _ Hcreate Hsc) as (Hsc1 & _);
      destruct (TableColumn_create_owned _ _ _ _ _ _ Hcreate Hsc Hown) as (Hown1 & Hself).
    + unfold mbind at 1, M_bind at 1 in Hrun.
      destruct (for_each _ pairs db1) as [db2 [columns|e]] eqn:Hrest;
        destruct (IH _ _ _ Hrest Hsc1 Hown1) as (Hown2 & Hselves);
        simpl in Hrun; injection Hrun as <- <-.
      * split; [done|]. intros columns' [= <-].
        constructor; [by apply Hself|by apply Hselves].
      * split; [done|discriminate].
    + injection Hrun as <- <-. split; [done|discriminate].
Qed.

Lemma bulk_add_columns_owned (self : nat) (column_names data_types : list string)
    (db db' : Store) (r : result (list TableColumn)) :
  bulk_add_columns self column_names data_types db = (db', r) →
  store_consistent db → columns_owned db → columns_owned db'.
Proof.
  unfold bulk_add_columns.
  repeat (case_bool_decide; [unfold raise; by intros [= <- <-]|]).
  destruct (for_each_is_column db self column_names db) as (rb & Hrb & _).
  unfold mbind, M_bind, get_store. rewrite Hrb.
  destruct rb as [bs|e]; [|by intros [= <- <-]].
  case_bool_decide; [unfold raise; by intros [= <- <-]|].
  destruct (for_each _ (zip column_names data_types) db) as [db1 [columns|e]] eqn:Hcreate;
    intros Hrun Hsc Hown;
    destruct (for_each_create_consistent _ _ _ _ _ Hcreate Hsc) as (Hsc1 & _ & Hnew);
    destruct (for_each_create_owned _ _ _ _ _ Hcreate Hsc Hown) as (Hown1 & Hselves).
  - simpl in Hrun. injection Hrun as <- <-.
    apply (table_columns_add_owned self columns db1 Hsc1 Hown1).
    apply Forall_forall. intros c Hc. split.
    + by apply (proj1 (Forall_forall _ _) (Hnew columns eq_refl)).
    + by apply (proj1 (Forall_forall _ _) (Hselves columns eq_refl)).
  - by injection Hrun as <- <-.
Qed.

(** [add_row] touches neither the columns nor their links to the tables,
    however it ends. *)
Lemma add_row_columns_frame (self : nat) (values : gmap string PyVal)
    (db db' : Store) (r : result TableRow) :
  add_row self values db = (db', r) →
  TableColumn_objects db' = TableColumn_objects db
  ∧ table_columns db' = table_columns db.
Proof.
  unfold add_row, mbind at 1, M_bind at 1, get_store at 1.
  destruct (__total_table_columns db self =? 0)%nat;
    [unfold raise; by intros [= <- <-]|].
  unfold mbind at 1, M_bind at 1, TableRow_create at 1.
  unfold mbind at 1, M_bind at 1, get_store at 1.
  unfold mbind at 1, M_bind at 1.
  match goal with |- context [add_row_cells _ ?tr _ ?cs ?row ?db1] =>
    destruct (add_row_cells self tr values cs row db1) as [db2 [cells|e']] eqn:Hloop;
    apply add_row_cells_frame in Hloop as (H1 & _ & H3 & _)
  end; simpl in H1, H3.
  - unfold mbind, M_bind. simpl. by intros [= <- <-].
  - by intros [= <- <-].
Qed.

Lemma bulk_add_rows_from_columns_frame (self : nat) (values : list (gmap string PyVal)) :
  ∀ (rows : list TableRow) (db db' : Store) (r : result (list TableRow)),
    bulk_add_rows_from self values rows db = (db', r) →
    TableColumn_objects db' = TableColumn_objects db
    ∧ table_columns db' = table_columns db.
Proof.
  induction values as [|row values IH]; intros rows db db' r; simpl.
  - by intros [= <- <-].
  - unfold mbind at 1, M_bind at 1, get_store at 1.
    destruct (__total_table_columns db self =? 0)%nat;
      [unfold raise; by intros [= <- <-]|].
    unfold mbind at 1, M_bind at 1.
    destruct (add_row self row db) as [db1 [table_row|e]] eqn:Hrow;
      apply add_row_columns_frame in Hrow as [H1 H2].
    + intros Hrun. apply IH in Hrun as [H3 H4]. split; congruence.
    + by intros [= <- <-].
Qed.

Lemma delete_column_owned (self : nat) (name : string)
    (db db' : Store) (r : result TableColumn) :
  delete_column self name db = (db', r) → columns_owned db → columns_owned db'.
Proof.
  unfold delete_column, mbind at 1, M_bind at 1, get_store at 1.
  destruct (queryset_get _) as [column|e].
  - unfold mbind, M_bind. simpl. intros [= <- <-].
    apply columns_owned_fewer; simpl.
    + by intros c [_ Hc]%list_elem_of_filter.
    + by intros l [_ [_ Hl]%list_elem_of_filter]%list_elem_of_filter.
  - destruct e; unfold raise; by intros [= <- <-].
Qed.

Lemma delete_row_owned (self : nat) (row_index : option nat)
    (db db' : Store) (r : result TableRow) :
  delete_row self row_index db = (db', r) → columns_owned db → columns_owned db'.
Proof.
  unfold delete_row, mbind at 1, M_bind at 1, get_store at 1.
  assert (Hdel : ∀ row,
    (_ ← table_rows_remove self row; _ ← TableRow_delete row; mret row) db = (db', r) →
    columns_owned db → columns_owned db').
  { intros row. unfold mbind, M_bind. simpl. intros [= <- <-].
    by apply columns_owned_same. }
  destruct row_index as [pk|].
  - destruct (queryset_get _) as [row|e]; [by apply Hdel|].
    destruct e; unfold raise; by intros [= <- <-].
  - destruct (last _) as [row|]; [by apply Hdel|].
    unfold raise; by intros [= <- <-].
Qed.

Lemma operation_owned (db db' : Store) :
  operation db db' → store_consistent db → columns_owned db → columns_owned db'.
Proof.
  intros Hop Hsc Hown.
  destruct Hop as [db db' Hcall|self name db|self row_index db].
  - destruct Hcall as [self name data_type db|self names types db
                      |self values db|self values db].
    + eapply add_column_owned; [apply surjective_pairing|exact Hsc|exact Hown].
    + eapply bulk_add_columns_owned; [apply surjective_pairing|exact Hsc|exact Hown].
    + destruct (add_row_columns_frame self values db _ _ (surjective_pairing _)).
      by apply (columns_owned_same db).
    + destruct (bulk_add_rows_from_columns_frame self values [] db _ _
                  (surjective_pairing _)).
      by apply (columns_owned_same db).
  - eapply delete_column_owned; [apply surjective_pairing|exact Hown].
  - eapply delete_row_owned; [apply surjective_pairing|exact Hown].
Qed.

(** In every store the operations build, the columns of a table were
    created for it. *)
Lemma history_columns_owned (db : Store) : history db → columns_owned db.
Proof.
  induction 1 as [|db db' Hhist IH Hop].
  - apply columns_owned_empty.
  - exact (operation_owned db db' Hop (history_store_consistent db Hhist) IH).
Qed.

(** C2 as amended. When the value for an [int] column is a non-empty
    string that [float] rejects, and the columns before it accept their
    values, [add_row] raises [CantParseValueToDataType]; the rows and the
    columns of the table are what they were, so the row count is unchanged.
    The cells written for the columns before the [int] column stay in the
    store, and the reads return them: [get_cell] on the name of such a
    column and the key of the abandoned row, which raised
    [CellDoesNotExist] before the call, returns the cell; the cells of the
    column, which [get_column_cells] returns, are those it had followed by
    that cell. With no column before the [int] column the cells are
    unchanged. *)
Theorem C2_add_row_unparseable_int
    (db : Store) (self : nat) (values : gmap string PyVal)
    (before after : list TableColumn) (column : TableColumn) (s : string) :
  store_consistent db →
  columns_owned db →
  table_columns_all db self = before ++ column :: after →
  column_data_type column = "int" →
  values !! column_name column = Some (PyStr s) →
  s ≠ "" →
  float_of_str s = None →
  Forall (λ c, accepts (supplied values c) (column_data_type c)) before →
  ∃ db' cells,
    add_row self values db = (db', Raise CantParseValueToDataType)
    ∧ table_rows_all db' self = table_rows_all db self
    ∧ table_columns_all db' self = table_columns_all db self
    ∧ CellValue_objects db' = CellValue_objects db ++ (to_stored <$> cells)
    ∧ (before = [] → CellValue_objects db' = CellValue_objects db)
    ∧ Forall2 (λ c cell,
         cell_for self (mkTableRow (next_row_id db) self) values c cell
         ∧ get_cell db self (column_name c) (next_row_id db) = Raise CellDoesNotExist
         ∧ get_cell db' self (column_name c) (next_row_id db) = Ok (to_stored cell)
         ∧ column_cells_all db' c = column_cells_all db c ++ [to_stored cell]
         ∧ get_column_cells db self (column_name c) = Ok (column_cells_all db c)
         ∧ get_column_cells db' self (column_name c)
           = Ok (column_cells_all db c ++ [to_stored cell]))
       before cells.
Proof.
  intros Hsc Hown Hcols Hint Hval Hne Hparse Hacc.
  pose proof (store_consistent_wf db Hsc) as Hwf.
  set (the_row := mkTableRow (next_row_id db) self).
  set (db1 := mkStore (TableColumn_objects db) (TableRow_objects db ++ [the_row])
                      (CellValue_objects db) (table_columns db) (table_rows db)
                      (column_cells db) (row_cells db)
                      (next_column_id db) (S (next_row_id db)) (next_cell_id db)).
  destruct (add_row_cells_ok self the_row values before [] db1 Hacc)
    as (db2 & cells & Hrun & Hcells & Hids & Hobjs & _ & Hsame).
  pose proof (add_row_cells_links _ _ _ _ _ _ _ _ Hrun) as Hlinks.
  destruct Hsame as (Hs1 & Hs2 & Hs3 & Hs4 & _).
  simpl in Hids, Hobjs, Hlinks, Hs1, Hs2, Hs3, Hs4.
  assert (Hfail : CellValue_create (supplied values column) self column the_row db2
                  = (db2, Raise CantParseValueToDataType)).
  { apply CellValue_create_raise. unfold supplied. rewrite Hval, Hint; simpl.
    by apply clean_int_unparseable. }
  assert (Hcolumns : table_columns_all db2 self = table_columns_all db self).
  { by apply table_columns_all_same. }
  assert (Hnd : NoDup (column_id <$> before)).
  { assert (Hall : NoDup (column_id <$> table_columns_all db self))
      by (by apply NoDup_fmap_filter, Hsc).
    rewrite Hcols, fmap_app in Hall. by apply NoDup_app in Hall as [Hall _]. }
  assert (Hfresh : ∀ c, c ∈ CellValue_objects db → table_row c ≠ next_row_id db).
  { intros c Hc Hrow. pose proof (sc_cell_row db Hsc c Hc) as Hr.
    apply list_elem_of_fmap in Hr as (r & Heq & Hr).
    apply (sc_row_ids db Hsc) in Hr. lia. }
  exists db2, cells.
  split; [|split; [|split; [|split; [|split]]]].
  - unfold add_row, mbind at 1, M_bind at 1, get_store at 1.
    unfold __total_table_columns. rewrite Hcols, length_app; simpl.
    rewrite (proj2 (Nat.eqb_neq _ 0)) by lia.
    unfold mbind at 1, M_bind at 1, TableRow_create at 1. fold the_row db1.
    unfold mbind at 1, M_bind at 1, get_store at 1.
    replace (table_columns_all db1 self) with (before ++ column :: after)
      by (symmetry; exact Hcols).
    apply bind_raise. rewrite add_row_cells_app.
    erewrite bind_ok by exact Hrun.
    simpl. fold (supplied values column).
    by apply bind_raise.
  - unfold table_rows_all at 1. rewrite Hs2, Hs4.
    by apply table_rows_all_provisional.
  - exact Hcolumns.
  - exact Hobjs.
  - intros ->. apply Forall2_nil_inv_l in Hcells as ->.
    by rewrite Hobjs, app_nil_r.
  - apply Forall2_same_length_lookup_2; [by eapply Forall2_length|].
    intros i c cell Hc Hcell.
    assert (Hfor : cell_for self the_row values c cell).
    { by eapply Forall2_lookup_lr. }
    assert (Hin : c ∈ table_columns_all db self).
    { rewrite Hcols. apply elem_of_app. left. by eapply list_elem_of_lookup_2. }
    assert (Hobj : c ∈ TableColumn_objects db).
    { by apply list_elem_of_filter in Hin as [_ Hobj]. }
    assert (Hname : filter (λ x, column_name x = column_name c) (table_columns_all db self)
                    = [c]).
    { exact (filter_key_elem column_name _ c
               (table_columns_all_names_unique db self Hsc) Hin). }
    assert (Hcell_of : column_cells_all db2 c = column_cells_all db c ++ [to_stored cell]).
    { unfold column_cells_all. rewrite Hobjs, Hlinks, filter_app. f_equal.
      - apply filter_ext_in. intros x Hx. rewrite elem_of_links_add.
        split; [|by left]. intros [Hold|Hnew]; [done|].
        apply elem_of_zip_r, elem_of_seq_ge in Hnew. simpl in Hnew.
        apply (sc_cell_ids db Hsc) in Hx. lia.
      - apply (filter_linked_cell _ before cells _ i); try done.
        intros l Hl. apply (sc_column_cells db Hsc) in Hl as [_ Hl].
        apply list_elem_of_fmap in Hl as (x & -> & Hx).
        by apply (sc_cell_ids db Hsc). }
    split; [exact Hfor|]. split; [|split; [|split; [exact Hcell_of|]]].
    + unfold get_cell, is_column. rewrite Hname. simpl queryset_get. cbv iota.
      rewrite filter_none; [done|].
      apply Forall_forall. intros x Hx (_ & _ & Hrow). by apply (Hfresh x).
    + destruct (filter_cell_of_column self the_row values c before cells Hcells Hnd)
        as (cell' & _ & Hfilter); [by eapply list_elem_of_lookup_2|].
      assert (Hsame_cell : to_stored cell = to_stored cell').
      { destruct Hfor as (_ & _ & Hcol & Hrow & Htab).
        assert (Hmem : to_stored cell
                       ∈ filter (λ x, cell_table x = self
                                      ∧ table_column x ∈ [column_id c]
                                      ∧ table_row x = row_id the_row)
                                (to_stored <$> cells)).
        { apply list_elem_of_filter. split.
          - simpl. split; [done|]. split; [rewrite Hcol; by left|done].
          - apply list_elem_of_fmap_2. by eapply list_elem_of_lookup_2. }
        rewrite Hfilter in Hmem. by apply list_elem_of_singleton in Hmem. }
      unfold get_cell, is_column. rewrite Hcolumns, Hname. simpl queryset_get. cbv iota.
      rewrite Hs1.
      rewrite (filter_key_elem column_name _ c (sc_column_names db Hsc) Hobj).
      rewrite Hobjs, filter_app, filter_none.
      * simpl in Hfilter |- *. by rewrite Hfilter, Hsame_cell.
      * apply Forall_forall. intros x Hx (_ & _ & Hrow). by apply (Hfresh x).
    + assert (Hself : column_table c = self).
      { apply list_elem_of_filter in Hin as [Hlink _].
        exact (Hown c (self, column_id c) Hobj Hlink eq_refl). }
      split.
      * unfold get_column_cells, is_column.
        rewrite Hname. simpl queryset_get. cbv iota.
        rewrite <- list_filter_filter.
        rewrite (filter_key_elem column_name _ c (sc_column_names db Hsc) Hobj).
        by rewrite (filter_all _ [_]) by (by repeat constructor).
      * unfold get_column_cells, is_column.
        rewrite Hcolumns, Hname. simpl queryset_get. cbv iota.
        rewrite Hs1, <- list_filter_filter.
        rewrite (filter_key_elem column_name _ c (sc_column_names db Hsc) Hobj).
        rewrite (filter_all _ [_]) by (by repeat constructor).
        simpl. by rewrite Hcell_of.
Qed.

End Ownership.

(** ** Further properties: adding columns in bulk *)

Section BulkColumnProperties.
Context {B : PyBuiltins} {E : PyEval}.

Lemma created_columns_names (self start : nat) (pairs : list (string * string)) :
  column_name <$> created_columns self start pairs = pairs.*1
  ∧ column_data_type <$> created_columns self start pairs = pairs.*2
  ∧ column_id <$> created_columns self start pairs = seq start (length pairs).
Proof.
  revert start. induction pairs as [|[name data_type] pairs IH]; intros start; [done|].
  destruct (IH (S start)) as (Hn & Ht & Hi).
  cbn [created_columns length seq]. rewrite !fmap_cons, Hn, Ht, Hi. done.
Qed.

Lemma for_each_create_ok (self : nat) (pairs : list (string * string)) :
  ∀ db : Store,
    NoDup pairs.*1 →
    (∀ n, n ∈ pairs.*1 → n ∉ column_name <$> TableColumn_objects db) →
    for_each (λ '(name, data_type), TableColumn_create self name data_type) pairs db
    = (mkStore (TableColumn_objects db
                ++ created_columns self (next_column_id db) pairs)
               (TableRow_objects db) (CellValue_objects db)
               (table_columns db) (table_rows db) (column_cells db) (row_cells db)
               (next_column_id db + length pairs)%nat (next_row_id db) (next_cell_id db),
       Ok (created_columns self (next_column_id db) pairs)).
Proof.
  induction pairs as [|[name data_type] pairs IH]; intros db Hnd Hfresh.
  - simpl. rewrite app_nil_r, Nat.add_0_r. by destruct db.
  - rewrite fmap_cons in Hnd. apply NoDup_cons in Hnd as [Hname Hnd]. simpl in Hname.
    simpl. unfold mbind at 1, M_bind at 1, TableColumn_create at 1.
    rewrite bool_decide_eq_false_2 by (apply Hfresh; by left).
    unfold mbind at 1, M_bind at 1. rewrite IH; simpl.
    + unfold mret, M_ret. f_equal. f_equal; [by rewrite <- app_assoc|lia].
    + exact Hnd.
    + intros n Hn. rewrite fmap_app. intros [Hold|Hnew]%elem_of_app.
      * apply (Hfresh n); [by right|done].
      * apply list_elem_of_singleton in Hnew. simpl in Hnew. by subst.
Qed.

Lemma for_each_is_column_false (db : Store) (self : nat) (names : list string)
    (db0 : Store) :
  (∀ n, n ∈ names → is_column db self n = Ok false) →
  for_each (λ column, lift_result (is_column db self column)) names db0
  = (db0, Ok ((λ _, false) <$> names)).
Proof.
  induction names as [|n names IH]; intros Hfalse; [done|].
  simpl. unfold mbind at 1, M_bind at 1, lift_result at 1.
  rewrite (Hfalse n) by (by left).
  unfold mbind at 1, M_bind at 1. rewrite IH; [done|].
  intros n' Hn'. apply Hfalse. by right.
Qed.

(** X18. On a consistent store, [bulk_add_columns] on names that are
    pairwise distinct and borne by no stored column, with as many supported
    data types, succeeds: the columns it returns carry the names and the
    data types in the order given, and they come after the columns the
    table had. *)
Theorem X18_bulk_add_columns_appends_in_order
    (db : Store) (self : nat) (column_names data_types : list string) :
  store_consistent db →
  length column_names = length data_types →
  Forall (λ t, data_type_is_supported t = true) data_types →
  NoDup column_names →
  (∀ n, n ∈ column_names → n ∉ column_name <$> TableColumn_objects db) →
  ∃ db' columns,
    bulk_add_columns self column_names data_types db = (db', Ok columns)
    ∧ column_name <$> columns = column_names
    ∧ column_data_type <$> columns = data_types
    ∧ table_columns_all db' self = table_columns_all db self ++ columns.
Proof.
  intros Hsc Hlen Hsup Hnd Hfresh.
  set (pairs := zip column_names data_types).
  assert (Hfst : pairs.*1 = column_names) by (apply fst_zip; lia).
  assert (Hsnd : pairs.*2 = data_types) by (apply snd_zip; lia).
  destruct (created_columns_names self (next_column_id db) pairs) as (Hn & Ht & Hi).
  eexists _, (created_columns self (next_column_id db) pairs).
  split; [|split; [by rewrite Hn|split; [by rewrite Ht|]]].
  - unfold bulk_add_columns.
    rewrite bool_decide_eq_false_2 by (intros Hne; by apply Hne).
    rewrite bool_decide_eq_false_2 by (by apply Forall_supported_all).
    rewrite bool_decide_eq_false_2.
    2:{ intros Hne. apply Hne. by rewrite size_list_to_set. }
    unfold mbind at 1, M_bind at 1, get_store at 1.
    unfold mbind at 1, M_bind at 1.
    rewrite for_each_is_column_false by (intros n Hn'; by apply is_column_fresh, Hfresh).
    rewrite bool_decide_eq_false_2.
    2:{ by intros (n & Hf & _)%list_elem_of_fmap. }
    unfold mbind at 1, M_bind at 1. fold pairs.
    rewrite for_each_create_ok by (by rewrite Hfst).
    reflexivity.
  - unfold table_columns_all; simpl. rewrite filter_app. f_equal.
    + apply filter_ext_in. intros c Hc. rewrite elem_of_links_add.
      split; [|by left]. intros [Hold|Hnew]; [done|].
      apply list_elem_of_fmap in Hnew as (c' & Heq & Hc'). injection Heq as Heq.
      apply (sc_column_ids db Hsc) in Hc.
      assert (Hge : (next_column_id db ≤ column_id c')%nat).
      { apply (elem_of_seq_ge _ (length pairs)). rewrite <- Hi.
        by apply list_elem_of_fmap_2. }
      lia.
    + apply filter_all, Forall_forall. intros c Hc.
      apply elem_of_links_add. right.
      apply list_elem_of_fmap. by exists c.
Qed.

End BulkColumnProperties.

(** ** Further properties: deletions *)

Section DeleteProperties.
Context {B : PyBuiltins} {E : PyEval}.

Lemma delete_column_ok (db : Store) (self : nat) (name : string) (column : TableColumn) :
  filter (λ c, column_name c = name) (table_columns_all db self) = [column] →
  delete_column self name db
  = ((TableColumn_delete column (table_columns_remove self column db).1).1, Ok column).
Proof.
  intros Hget. unfold delete_column, mbind at 1, M_bind at 1, get_store at 1.
  by rewrite Hget.
Qed.

(** X19. On a consistent store, [delete_column] on the name of a column of
    the table returns that column; afterwards the name is no column of the
    table, [get_column_cells] on it raises [ColumnNotInTable], the other
    columns of the table are in place, the cells of the column are gone from
    the store and all other cells are kept, and the rows of the table are
    what they were. *)
Theorem X19_delete_column_cascades
    (db : Store) (self : nat) (column : TableColumn) :
  store_consistent db →
  column ∈ table_columns_all db self →
  ∃ db',
    delete_column self (column_name column) db = (db', Ok column)
    ∧ is_column db' self (column_name column) = Ok false
    ∧ get_column_cells db' self (column_name column) = Raise ColumnNotInTable
    ∧ table_columns_all db' self
      = filter (λ c, column_id c ≠ column_id column) (table_columns_all db self)
    ∧ CellValue_objects db'
      = filter (λ c, table_column c ≠ column_id column) (CellValue_objects db)
    ∧ table_rows_all db' self = table_rows_all db self.
Proof.
  intros Hsc Hcolumn.
  pose proof (filter_key_elem column_name _ column
                (table_columns_all_names_unique db self Hsc) Hcolumn) as Hget.
  pose proof (delete_column_ok db self _ column Hget) as Hrun.
  eexists. split; [exact Hrun|].
  assert (Hcols : table_columns_all
                    (TableColumn_delete column (table_columns_remove self column db).1).1
                    self
                  = filter (λ c, column_id c ≠ column_id column)
                           (table_columns_all db self)).
  { unfold table_columns_all; simpl. rewrite !list_filter_filter.
    apply filter_ext_in. intros c Hc. split.
    - intros [[_ Hin]%list_elem_of_filter Hne]. by split.
    - intros [Hne Hin]. split; [|done].
      apply list_elem_of_filter. split; [|done].
      split; [done|]. intros [= Heq]. by apply Hne. }
  assert (Hsc' : store_consistent
                   (TableColumn_delete column (table_columns_remove self column db).1).1).
  { eapply delete_column_consistent; [exact Hrun|exact Hsc]. }
  assert (His : is_column
                  (TableColumn_delete column (table_columns_remove self column db).1).1
                  self (column_name column) = Ok false).
  { rewrite (is_column_consistent _ _ _ Hsc'), Hcols.
    rewrite bool_decide_eq_false_2; [done|].
    intros (c & Hname & [Hne Hc]%list_elem_of_filter)%list_elem_of_fmap.
    assert (Hin : c ∈ filter (λ x, column_name x = column_name column)
                             (table_columns_all db self))
      by (by apply list_elem_of_filter).
    rewrite Hget in Hin. apply list_elem_of_singleton in Hin. by subst. }
  split; [exact His|]. split; [|split; [exact Hcols|split; reflexivity]].
  unfold get_column_cells. by rewrite His.
Qed.

Lemma delete_row_by_key (db : Store) (self pk : nat) (row : TableRow) :
  filter (λ r, row_id r = pk) (table_rows_all db self) = [row] →
  delete_row self (Some pk) db
  = ((TableRow_delete row (table_rows_remove self row db).1).1, Ok row).
Proof.
  intros Hget. unfold delete_row, mbind at 1, M_bind at 1, get_store at 1.
  by rewrite Hget.
Qed.

Lemma delete_row_last (db : Store) (self : nat) (row : TableRow) :
  last (table_rows_all db self) = Some row →
  delete_row self None db
  = ((TableRow_delete row (table_rows_remove self row db).1).1, Ok row).
Proof.
  intros Hlast. unfold delete_row, mbind at 1, M_bind at 1, get_store at 1.
  by rewrite Hlast.
Qed.

Lemma table_rows_all_names_unique (db : Store) (self : nat) :
  store_consistent db → NoDup (row_id <$> table_rows_all db self).
Proof. intros Hsc. apply NoDup_fmap_filter, Hsc. Qed.

(** X20. On a consistent store, [delete_row] on the key of a row of the
    table returns that row, and [delete_row] without a key does the same
    for the last row of the table. Afterwards the other rows of the table
    are in place, the cells of the row are gone from the store and all
    other cells are kept, the columns are what they were, and
    [get_row_cells] on the key raises [RowNotInTable]. *)
Theorem X20_delete_row_cascades (db : Store) (self : nat) (row : TableRow) :
  store_consistent db →
  row ∈ table_rows_all db self →
  ∃ db',
    delete_row self (Some (row_id row)) db = (db', Ok row)
    ∧ (last (table_rows_all db self) = Some row →
       delete_row self None db = (db', Ok row))
    ∧ table_rows_all db' self
      = filter (λ r, row_id r ≠ row_id row) (table_rows_all db self)
    ∧ CellValue_objects db'
      = filter (λ c, table_row c ≠ row_id row) (CellValue_objects db)
    ∧ table_columns_all db' self = table_columns_all db self
    ∧ get_row_cells db' self (row_id row) = Raise RowNotInTable.
Proof.
  intros Hsc Hrow.
  pose proof (filter_key_elem row_id _ row
                (table_rows_all_names_unique db self Hsc) Hrow) as Hget.
  eexists. split; [exact (delete_row_by_key db self _ row Hget)|].
  split; [by apply delete_row_last|].
  split; [|split; [reflexivity|split; [reflexivity|]]].
  - unfold table_rows_all; simpl. rewrite !list_filter_filter.
    apply filter_ext_in. intros r Hr. split.
    + intros [[_ Hin]%list_elem_of_filter Hne]. by split.
    + intros [Hne Hin]. split; [|done].
      apply list_elem_of_filter. split; [|done].
      split; [done|]. intros [= Heq]. by apply Hne.
  - unfold get_row_cells; simpl. rewrite filter_none; [done|].
    apply Forall_forall. intros r [Hne _]%list_elem_of_filter [_ Hid]. done.
Qed.

(** X21. On a consistent store [delete_row] raises in two cases only, and
    leaves the store as it was in both: [RowNotInTable] for a key that is
    no row of the table, and [AttributeError] when no key is given and the
    table has no row. *)
Theorem X21_delete_row_failures
    (db db' : Store) (self : nat) (row_index : option nat) (e : exn) :
  store_consistent db →
  delete_row self row_index db = (db', Raise e) →
  db' = db
  ∧ ((row_index = None ∧ table_rows_all db self = [] ∧ e = AttributeError)
     ∨ (∃ pk, row_index = Some pk ∧ (pk ∉ row_id <$> table_rows_all db self)
              ∧ e = RowNotInTable)).
Proof.
  intros Hsc. unfold delete_row, mbind at 1, M_bind at 1, get_store at 1.
  destruct row_index as [pk|].
  - destruct (filter_key_unique row_id (table_rows_all db self) pk
                (table_rows_all_names_unique db self Hsc))
      as [Hnone|(r & Hr & Hid & Hone)].
    + rewrite Hnone. simpl. unfold raise. intros [= <- <-]. split; [done|].
      right. exists pk. split; [done|]. split; [|done].
      intros (r & -> & Hr)%list_elem_of_fmap.
      assert (Hin : r ∈ filter (λ x, row_id x = row_id r) (table_rows_all db self))
        by (by apply list_elem_of_filter).
      rewrite Hnone in Hin. by apply elem_of_nil in Hin.
    + rewrite Hone. simpl. unfold mbind, M_bind. simpl. discriminate.
  - destruct (last (table_rows_all db self)) as [row|] eqn:Hlast.
    + unfold mbind, M_bind. simpl. discriminate.
    + unfold raise. intros [= <- <-]. split; [done|]. left.
      split; [done|]. split; [by apply last_None|done].
Qed.

Lemma links_add_rest (ls old : list (nat * nat)) :
  ∃ rest, links_add old ls = old ++ rest ∧ ∀ l, l ∈ rest → l ∈ ls.
Proof.
  unfold links_add. revert old. induction ls as [|x ls IH]; intros old; simpl.
  - exists []. split; [by rewrite app_nil_r|]. intros l Hl. by apply elem_of_nil in Hl.
  - destruct (IH (link_add old x)) as (rest & Hrest & Hin).
    unfold link_add in Hrest |- *. case_bool_decide.
    + exists rest. split; [done|]. intros l Hl. right. by apply Hin.
    + exists (x :: rest). rewrite Hrest, <- app_assoc. split; [done|].
      intros l [->|Hl]%elem_of_cons; [by left|]. right. by apply Hin.
Qed.

Lemma filter_keep_app {A} (P : A → Prop) `{∀ x, Decision (P x)} (old rest : list A) :
  Forall P old → Forall (λ x, ¬ P x) rest → filter P (old ++ rest) = old.
Proof.
  intros Hold Hrest. by rewrite filter_app, filter_all, filter_none, app_nil_r.
Qed.

(** X22. On a consistent store, a successful [add_row] followed by
    [delete_row] without a key gives back the store as it was: the same
    columns, rows, cells and link rows. Only the counters of the primary
    keys have moved on. *)
Theorem X22_add_row_then_delete_row
    (db : Store) (self : nat) (values : gmap string PyVal) :
  store_consistent db →
  table_columns_all db self ≠ [] →
  (∀ column v, column ∈ table_columns_all db self →
               values !! column_name column = Some v →
               accepts v (column_data_type column)) →
  ∃ db1 the_row db2,
    add_row self values db = (db1, Ok the_row)
    ∧ delete_row self None db1 = (db2, Ok the_row)
    ∧ same_data db db2.
Proof.
  intros Hsc Hcols Hsupplied.
  destruct (add_row_ok_store db self values Hcols (supplied_accepted _ _ _ Hsupplied))
    as (db1 & cells & links & Hrun & Hra).
  set (the_row := mkTableRow (next_row_id db) self) in *.
  assert (Hlast : last (table_rows_all db1 self) = Some the_row).
  { rewrite (row_added_table_rows db self values db1 cells links Hsc Hra).
    apply last_snoc. }
  exists db1, the_row. eexists. split; [exact Hrun|].
  split; [exact (delete_row_last db1 self the_row Hlast)|].
  destruct Hra. destruct Hsc.
  assert (Hold_row : ∀ c, c ∈ CellValue_objects db → table_row c ≠ next_row_id db).
  { intros c Hc Heq. apply sc_cell_row0 in Hc.
    apply list_elem_of_fmap in Hc as (r & Hr & Hin). apply sc_row_ids0 in Hin. lia. }
  assert (Hnew_row : ∀ c, c ∈ to_stored <$> cells → table_row c = next_row_id db).
  { intros c (c' & -> & Hc')%list_elem_of_fmap. simpl.
    apply (proj1 (list_elem_of_lookup _ _)) in Hc' as [i Hi].
    destruct (Forall2_lookup_r _ _ _ _ _ ra_cells0 Hi) as (column & _ & Hfor).
    by destruct Hfor as (_ & _ & _ & Hrow & _). }
  assert (Hgone : cell_id <$> filter (λ c, table_row c = row_id the_row)
                                     (CellValue_objects db1)
                  = seq (next_cell_id db) (length (table_columns_all db self))).
  { rewrite ra_stored0, filter_app, filter_none, filter_all; simpl.
    - rewrite <- ra_cell_ids0, <- list_fmap_compose. by apply list_fmap_ext.
    - by apply Forall_forall.
    - apply Forall_forall. intros c Hc Heq. by apply (Hold_row c). }
  assert (Hold_cell : ∀ k, k ∈ cell_id <$> CellValue_objects db →
            k ∉ seq (next_cell_id db) (length (table_columns_all db self))).
  { intros k (c & -> & Hc)%list_elem_of_fmap Hin.
    apply elem_of_seq_ge in Hin. apply sc_cell_ids0 in Hc. lia. }
  unfold same_data; simpl. simpl in Hgone. rewrite Hgone.
  split; [exact ra_columns0|]. split; [|split; [|split; [exact ra_table_columns0|]]].
  - rewrite ra_rows0. apply filter_keep_app.
    + apply Forall_forall. intros r Hr Heq. apply sc_row_ids0 in Hr. simpl in Heq. lia.
    + constructor; [|constructor]. simpl. intros Hne. by apply Hne.
  - rewrite ra_stored0. apply filter_keep_app.
    + apply Forall_forall. intros c Hc. by apply Hold_row.
    + apply Forall_forall. intros c Hc Hne. by apply Hne, Hnew_row.
  - split; [|split].
    + rewrite ra_table_rows0, list_filter_filter.
      destruct (links_add_rest [(self, next_row_id db)] (table_rows db))
        as (rest & Hrest & Hin).
      change (links_add (table_rows db) [(self, next_row_id db)])
        with (link_add (table_rows db) (self, next_row_id db)) in Hrest.
      rewrite Hrest. apply filter_keep_app.
      * apply Forall_forall. intros l Hl.
        pose proof (sc_table_rows0 l Hl) as Hr.
        apply list_elem_of_fmap in Hr as (r & Heq & Hr). apply sc_row_ids0 in Hr.
        simpl. split; [lia|]. intros ->. simpl in Heq. lia.
      * apply Forall_forall. intros l Hl%Hin [Hne _].
        apply list_elem_of_singleton in Hl as ->. by apply Hne.
    + rewrite ra_column_cells0. apply filter_keep_app.
      * apply Forall_forall. intros l Hl. apply Hold_cell.
        by destruct (sc_column_cells0 l Hl).
      * apply Forall_forall. intros l Hl Hnot. apply Hnot.
        apply ra_links0 in Hl. apply list_elem_of_In, in_seq. lia.
    + rewrite ra_row_cells0.
      destruct (links_add_rest ((λ c, (next_row_id db, cell_id c)) <$> cells)
                  (row_cells db)) as (rest & Hrest & Hin).
      rewrite Hrest. apply filter_keep_app.
      * apply Forall_forall. intros l Hl.
        destruct (sc_row_cells0 l Hl) as [Hr Hc]. split; [|by apply Hold_cell].
        apply list_elem_of_fmap in Hr as (r & Heq & Hr). apply sc_row_ids0 in Hr.
        simpl. lia.
      * apply Forall_forall. intros l Hl%Hin [Hne _].
        apply list_elem_of_fmap in Hl as (c & -> & _). by apply Hne.
Qed.

End DeleteProperties.

(** ** The claims on concrete tables *)

Import Reference Examples.

(** C1 (the code departs from the claim). The [rows] entry of [table_info]
    is the number of columns of the table: [__total_table_rows] counts
    [self.table_columns], never [self.table_rows]. On the table with the
    columns [Name] and [Age] and a single row, it is [2]. *)
Theorem C1_table_info_rows_entry_counts_columns :
  (∀ (B : PyBuiltins) (db : Store) (self : nat),
     table_info db self !! "rows" = Some (length (table_columns_all db self)))
  ∧ length (table_columns_all with_one_row employees) = 2%nat
  ∧ length (table_rows_all with_one_row employees) = 1%nat
  ∧ table_info with_one_row employees !! "rows" = Some 2%nat.
Proof.
  split; [intros B0 db self; apply table_info_entries|].
  repeat split.
Qed.

(** C3 (the code departs from the claim). Under a column of the supported
    type [date], [__validate_data_type__] takes no branch: the coercion for
    dates is written for the name [datetime], which [add_column] rejects.
    Whatever the cell holds is left as it is; the string [not a date], added
    through [add_row] under a [date] column, is stored verbatim and not as
    the empty string. *)
Theorem C3_date_column_stores_input_verbatim :
  (∀ (B : PyBuiltins) (self_value value : PyVal),
     __validate_data_type__ self_value value "date" = Ok self_value)
  ∧ data_type_is_supported "date" = true
  ∧ data_type_is_supported "datetime" = false
  ∧ stored_text (PyStr "not a date") "date" = Ok "not a date"
  ∧ get_cell with_bad_date employees "Born" 1
    = Ok (mkCellValue 1 (PyStr "not a date") employees 1 1).
Proof.
  split; [intros B0 sv v; apply validate_date_unchanged|].
  repeat split.
Qed.

(** C4 (the code departs from the claim). For a cell under a column of the
    supported type [date], [get_value] falls through every branch and
    returns [None], whatever the stored text; so it does for the cell that
    [add_row] wrote for [2024-01-01]. *)
Theorem C4_get_value_returns_None_on_date :
  (∀ (B : PyBuiltins) (E : PyEval) (self_value : PyVal),
     get_value self_value "date" = Ok PyNone)
  ∧ get_cell with_birthday employees "Born" 1
    = Ok (mkCellValue 1 (PyStr "2024-01-01") employees 1 1)
  ∧ CellValue_get_value with_birthday (mkCellValue 1 (PyStr "2024-01-01") employees 1 1)
    = Ok PyNone.
Proof.
  split; [intros B0 E0 sv; apply get_value_date_None|].
  repeat split.
Qed.

Lemma with_columns_wf : store_wf with_columns.
Proof.
  apply reachable_store_wf.
  eapply reachable_call; [apply reachable_empty|apply call_bulk_add_columns].
Defined.

Lemma with_columns_history : history with_columns.
Proof.
  eapply history_operation; [apply history_empty|].
  apply operation_call, call_bulk_add_columns.
Defined.

Lemma with_columns_consistent : store_consistent with_columns.
Proof. exact (history_store_consistent _ with_columns_history). Defined.

(** C2, counterexample. With the columns [Name: char] and [Age: int],
    [add_row({"Name": "Sam", "Age": "3o"})] raises
    [CantParseValueToDataType], and the cell written for [Name] before the
    failure is returned by the reads that follow. *)
Lemma C2_counterexample_partial_row_is_visible :
  let values : gmap string PyVal := {[ "Name" := PyStr "Sam"; "Age" := PyStr "3o" ]} in
  let after := (add_row employees values with_columns).1 in
  (add_row employees values with_columns).2 = Raise CantParseValueToDataType
  ∧ get_column_cells with_columns employees "Name" = Ok []
  ∧ get_column_cells after employees "Name"
    = Ok [mkCellValue 1 (PyStr "Sam") employees 1 1]
  ∧ get_cell with_columns employees "Name" 1 = Raise CellDoesNotExist
  ∧ get_cell after employees "Name" 1 = Ok (mkCellValue 1 (PyStr "Sam") employees 1 1).
Proof. repeat split. Qed.

(** C2 at a concrete input: the table with [Name] and [Age], and the row [{Name: Sam, Age: 3o}]. *)
Lemma C2_witness :
  store_consistent with_columns
  ∧ columns_owned with_columns
  ∧ table_columns_all with_columns employees = [name_column] ++ age_column :: []
  ∧ float_of_str "3o" = None
  ∧ ∃ db' cells,
      add_row employees sam_3o with_columns = (db', Raise CantParseValueToDataType)
      ∧ table_rows_all db' employees = table_rows_all with_columns employees
      ∧ CellValue_objects db' = CellValue_objects with_columns ++ (to_stored <$> cells)
      ∧ Forall2 (λ c cell,
           get_cell db' employees (column_name c) (next_row_id with_columns)
           = Ok (to_stored cell)
           ∧ get_column_cells db' employees (column_name c)
             = Ok (column_cells_all with_columns c ++ [to_stored cell]))
         [name_column] cells.
Proof.
  split; [exact with_columns_consistent|].
  split; [exact (history_columns_owned _ with_columns_history)|].
  split; [reflexivity|]. split; [reflexivity|].
  destruct (C2_add_row_unparseable_int with_columns employees sam_3o
              [name_column] [] age_column "3o")
    as (db' & cells & Hrun & Hrows & _ & Hobjs & _ & Hreads).
  - exact with_columns_consistent.
  - exact (history_columns_owned _ with_columns_history).
  - reflexivity.
  - reflexivity.
  - reflexivity.
  - discriminate.
  - reflexivity.
  - constructor; [|constructor].
    exists (PyStr "Sam"). split; [reflexivity|discriminate].
  - exists db', cells. split; [exact Hrun|]. split; [exact Hrows|].
    split; [exact Hobjs|].
    eapply Forall2_impl; [exact Hreads|].
    intros c cell (_ & _ & Hget & _ & _ & Hcells). by split.
Defined.

(** C5 at a concrete input: the text [2024-01-02] under a [date] column. *)
Lemma C5_witness :
  PyStr "2024-01-02" ≠ PyNone
  ∧ stored_text (PyStr "2024-01-02") "date" = Ok "2024-01-02"
  ∧ round_trip (PyStr "2024-01-02") "date" = Ok PyNone.
Proof.
  assert (Hv : PyStr "2024-01-02" ≠ PyNone) by discriminate.
  destruct (C5_date_does_not_round_trip (PyStr "2024-01-02") Hv)
    as (_ & Hstored & Hround & _).
  split; [exact Hv|]. split; [exact Hstored|exact Hround].
Defined.

(** What [save] does with values that are no strings, on the reference
    builtins: [clean] sees their text. *)
Lemma save_hands_clean_the_text :
  stored_text (PyBool false) "bool" = Ok "False"
  ∧ stored_text (PyInt 0) "bool" = Raise CantParseValueToDataType
  ∧ stored_text (PyBool true) "int" = Raise CantParseValueToDataType
  ∧ stored_text (PyInt 0) "float" = Ok "0.0"
  ∧ stored_text (PyInt 42) "int" = Ok "42"
  ∧ stored_text PyNone "date" = Raise IntegrityError.
Proof. repeat split. Qed.

(** C9, counterexample. Under the column [Married: bool],
    [add_row({"Married": False})] stores the text [False], not the empty
    string, and the cell reads back as [False]; a row added without the
    key holds the empty string, so the two are told apart. With the number
    [0], [add_row] raises [CantParseValueToDataType]. *)
Lemma C9_counterexample_False_is_stored_as_text :
  let added := (add_row employees {[ "Married" := PyBool false ]} with_married).1 in
  let blank := (add_row employees ∅ with_married).1 in
  get_cell added employees "Married" 1
  = Ok (mkCellValue 1 (PyStr "False") employees 1 1)
  ∧ CellValue_get_value added (mkCellValue 1 (PyStr "False") employees 1 1)
    = Ok (PyBool false)
  ∧ get_cell blank employees "Married" 1
    = Ok (mkCellValue 1 (PyStr "") employees 1 1)
  ∧ (add_row employees {[ "Married" := PyInt 0 ]} with_married).2
    = Raise CantParseValueToDataType.
Proof. repeat split. Qed.

(** C9 at a concrete input: the empty string handed to the validation, and
    [False] handed to a new cell. *)
Lemma C9_witness :
  truthy (PyStr "") = false
  ∧ __validate_data_type__ (PyStr "") (PyStr "") "bool" = Ok (PyStr "")
  ∧ stored_text (PyBool false) "bool" = Ok "False"
  ∧ round_trip (PyBool false) "bool" = Ok (PyBool false)
  ∧ stored_text (PyInt 0) "bool" = Raise CantParseValueToDataType.
Proof.
  destruct (C9_bool_falsy_in_clean_and_on_save (PyStr "") eq_refl)
    as (Hclean & _ & Hbool & _ & Hzero & _).
  split; [reflexivity|]. split; [exact (Hclean (PyStr ""))|].
  split; [exact (proj1 (Hbool false))|]. split; [exact (proj2 (Hbool false))|].
  exact Hzero.
Defined.

(** C6 at a concrete input: the names [A, A] on a new table, and the call that built [with_columns]. *)
Lemma C6_witness :
  (length ["A"; "A"] = length ["char"; "char"]
   ∧ Forall (λ t, data_type_is_supported t = true) ["char"; "char"]
   ∧ ¬ NoDup ["A"; "A"]
   ∧ bulk_add_columns employees ["A"; "A"] ["char"; "char"] empty_store
     = (empty_store, Raise DuplicateColumnInTable))
  ∧ (with_columns ≠ empty_store
     ∧ NoDup ["Name"; "Age"]
     ∧ Forall (λ n, is_column empty_store employees n = Ok false) ["Name"; "Age"]).
Proof.
  assert (Hsup : Forall (λ t, data_type_is_supported t = true) ["char"; "char"]).
  { repeat constructor. }
  assert (Hdup : ¬ NoDup ["A"; "A"]).
  { intros [Hnin _]%NoDup_cons. apply Hnin. by left. }
  assert (Hchanged : with_columns ≠ empty_store).
  { intros Heq. apply (f_equal next_column_id) in Heq.
    vm_compute in Heq. discriminate Heq. }
  split.
  - split; [reflexivity|]. split; [exact Hsup|]. split; [exact Hdup|].
    exact (proj1 (C6_bulk_add_columns_validates_first
                    empty_store employees ["A"; "A"] ["char"; "char"])
                 eq_refl Hsup Hdup).
  - split; [exact Hchanged|].
    destruct (proj2 (C6_bulk_add_columns_validates_first
                       empty_store employees ["Name"; "Age"] ["char"; "int"])
                    with_columns _ (surjective_pairing _) Hchanged)
      as (_ & _ & Hnodup & Hcols).
    split; [exact Hnodup|exact Hcols].
Defined.

(** C7, counterexample. On a table without columns, [bulk_add_rows([])]
    returns the empty list; nothing is raised. *)
Lemma C7_counterexample_empty_sequence_returns :
  __total_table_columns empty_store employees = 0%nat
  ∧ bulk_add_rows employees [] empty_store = (empty_store, Ok [])
  ∧ (bulk_add_rows employees [] empty_store).2 ≠ Raise TableHaveNoColumn.
Proof. repeat split. discriminate. Qed.

(** C7 at a concrete input: two empty mappings on a table without columns. *)
Lemma C7_witness :
  __total_table_columns empty_store employees = 0%nat
  ∧ bulk_add_rows employees [∅; ∅] empty_store = (empty_store, Raise TableHaveNoColumn).
Proof.
  split; [reflexivity|].
  exact (C7_bulk_add_rows_without_columns empty_store employees [∅; ∅] eq_refl).
Defined.

(** C8 at a concrete input: a row that names [Name], leaves [Age] out and has an unknown key. *)
Lemma C8_witness :
  let values : gmap string PyVal := {[ "Name" := PyStr "Sam"; "Nickname" := PyStr "S" ]} in
  store_wf with_columns
  ∧ table_columns_all with_columns employees = [name_column; age_column]
  ∧ accepts (PyStr "Sam") "char"
  ∧ values !! "Age" = None
  ∧ ∃ db' the_row,
      add_row employees values with_columns = (db', Ok the_row)
      ∧ the_row ∈ table_rows_all db' employees
      ∧ table_columns_all db' employees = table_columns_all with_columns employees
      ∧ Forall2 (row_cell_of employees the_row values)
                (table_columns_all with_columns employees) (row_cells_all db' the_row).
Proof.
  intros values.
  assert (Hsam : accepts (PyStr "Sam") "char").
  { exists (PyStr "Sam"). split; [reflexivity|discriminate]. }
  split; [exact with_columns_wf|]. split; [reflexivity|].
  split; [exact Hsam|]. split; [reflexivity|].
  apply (C8_add_row_fills_missing_columns with_columns employees values).
  - exact with_columns_wf.
  - intros Heq. vm_compute in Heq. discriminate Heq.
  - intros column v Hin Hv.
    assert (HName : values !! "Name" = Some (PyStr "Sam")) by reflexivity.
    assert (HAge : values !! "Age" = None) by reflexivity.
    change (column ∈ [name_column; age_column]) in Hin.
    apply elem_of_cons in Hin as [->|Hin].
    + change (values !! "Name" = Some v) in Hv.
      rewrite HName in Hv. injection Hv as <-. exact Hsam.
    + apply list_elem_of_singleton in Hin as ->.
      change (values !! "Age" = Some v) in Hv.
      rewrite HAge in Hv. discriminate Hv.
Defined.


(** ** The further properties on concrete tables *)

Lemma with_one_row_history : history with_one_row.
Proof.
  eapply history_operation; [apply with_columns_history|].
  apply operation_call, call_add_row.
Defined.

Lemma with_one_row_consistent : store_consistent with_one_row.
Proof. exact (history_store_consistent _ with_one_row_history). Defined.

Lemma sam_accepted (column : TableColumn) (v : PyVal) :
  column ∈ table_columns_all with_columns employees →
  sam !! column_name column = Some v →
  accepts v (column_data_type column).
Proof.
  intros Hin Hv.
  assert (HName : sam !! "Name" = Some (PyStr "Sam")) by reflexivity.
  assert (HAge : sam !! "Age" = None) by reflexivity.
  change (column ∈ [name_column; age_column]) in Hin.
  apply elem_of_cons in Hin as [->|Hin].
  - change (sam !! "Name" = Some v) in Hv.
    rewrite HName in Hv. injection Hv as <-.
    exists (PyStr "Sam"). split; [reflexivity|discriminate].
  - apply list_elem_of_singleton in Hin as ->.
    change (sam !! "Age" = Some v) in Hv.
    rewrite HAge in Hv. discriminate Hv.
Defined.

Lemma with_columns_nonempty : table_columns_all with_columns employees ≠ [].
Proof. intros Heq. vm_compute in Heq. discriminate Heq. Defined.

Lemma name_column_in : name_column ∈ table_columns_all with_columns employees.
Proof. change (name_column ∈ [name_column; age_column]). constructor. Defined.

(** X1 at a concrete input: [ChAr] between two spaces. *)
Lemma X1_witness :
  lower "char" = lower "ChAr"
  ∧ data_type_is_supported (" " +:+ "ChAr" +:+ " ") = data_type_is_supported "char".
Proof.
  split; [reflexivity|].
  exact (X1_data_type_is_supported_ignores_case_and_padding
           "char" "ChAr" " " " " eq_refl eq_refl eq_refl).
Defined.

(** X3 at a concrete input: the type [int]. *)
Lemma X3_witness :
  float_of_str "" = None
  ∧ stored_text (PyStr "") "int" = Ok ""
  ∧ round_trip (PyStr "") "int" = Ok (PyStr "").
Proof.
  split; [reflexivity|].
  apply (X3_blank_round_trip "int"); [reflexivity|].
  right. right. constructor.
Defined.

(** X4 at a concrete input: the string [3o] under [int]. *)
Lemma X4_witness :
  clean (PyStr "3o") "int" = Raise CantParseValueToDataType
  ∧ ((CantParseValueToDataType = CantParseValueToDataType
      ∧ "int" ∈ ["int"; "float"; "bool"])
     ∨ (CantParseValueToDataType = OverflowError ∧ "int" = "int")).
Proof.
  split; [reflexivity|].
  exact (X4_string_coercion_exceptions "3o" "int" CantParseValueToDataType eq_refl).
Defined.

(** X5 at a concrete input: the string [ tRuE]. *)
Lemma X5_witness :
  title (strip " tRuE") = "True"
  ∧ stored_text (PyStr " tRuE") "bool" = Ok "True"
  ∧ round_trip (PyStr " tRuE") "bool" = Ok (PyBool true).
Proof.
  split; [reflexivity|].
  exact (X5_bool_text_round_trip " tRuE" true eq_refl).
Defined.

(** X7 at a concrete input: the unsupported type [file]. *)
Lemma X7_witness :
  add_column employees "Photo" "file" empty_store
  = (empty_store, Raise UnSupportedDataType)
  ∧ empty_store = empty_store
  ∧ UnSupportedDataType ∈ [UnSupportedDataType; DuplicateColumnInTable; IntegrityError;
                           MultipleObjectsReturned].
Proof.
  split; [reflexivity|].
  exact (X7_add_column_failure_leaves_store employees "Photo" "file"
           empty_store empty_store UnSupportedDataType eq_refl).
Defined.

(** X8 at a concrete input: the column [Title] on a new table. *)
Lemma X8_witness :
  let db' := (add_column employees "Title" "char" empty_store).1 in
  add_column employees "Title" "char" empty_store
  = (db', Ok (mkTableColumn 1 employees "Title" "char"))
  ∧ is_column db' employees "Title" = Ok true
  ∧ add_column employees "Title" "int" db' = (db', Raise DuplicateColumnInTable).
Proof.
  intros db'.
  assert (Hrun : add_column employees "Title" "char" empty_store
                 = (db', Ok (mkTableColumn 1 employees "Title" "char")))
    by reflexivity.
  split; [exact Hrun|].
  destruct (X8_add_column_then_duplicate employees "Title" "char" empty_store db'
              (mkTableColumn 1 employees "Title" "char") Hrun) as [His Hdup].
  split; [exact His|]. exact (Hdup "int" eq_refl).
Defined.

(** X9 at a concrete input: the table with two columns and one row. *)
Lemma X9_witness : history with_one_row ∧ store_consistent with_one_row.
Proof.
  split; [exact with_one_row_history|].
  exact (X9_history_is_consistent with_one_row with_one_row_history).
Defined.

(** X10 at a concrete input: the name [Name] on the table with two columns. *)
Lemma X10_witness :
  store_consistent with_columns
  ∧ is_column with_columns employees "Name"
    = Ok (bool_decide ("Name" ∈ column_name <$> table_columns_all with_columns employees)).
Proof.
  split; [exact with_columns_consistent|].
  exact (proj1 (X10_is_column_decides with_columns employees "Name"
                  with_columns_consistent)).
Defined.

(** X11 at a concrete input: the cell of [Sam]. *)
Lemma X11_witness :
  let cell := mkCellValue 1 (PyStr "Sam") employees 1 1 in
  cell ∈ CellValue_objects with_one_row
  ∧ ∃ column,
      column ∈ TableColumn_objects with_one_row
      ∧ column_id column = table_column cell
      ∧ CellValue_get_value with_one_row cell
        = get_value (value cell) (column_data_type column).
Proof.
  intros cell.
  assert (Hcell : cell ∈ CellValue_objects with_one_row).
  { change (cell ∈ [cell; mkCellValue 2 (PyStr "") employees 2 1]). constructor. }
  split; [exact Hcell|].
  exact (X11_stored_cell_has_its_column with_one_row cell with_one_row_consistent Hcell).
Defined.

(** X12 at a concrete input: the row [{Name: Sam}]. *)
Lemma X12_witness :
  store_consistent with_columns
  ∧ ∃ db' the_row cells,
      add_row employees sam with_columns = (db', Ok the_row)
      ∧ get_row_cells db' employees (row_id the_row) = Ok cells
      ∧ Forall2 (row_cell_of employees the_row sam)
                (table_columns_all with_columns employees) cells.
Proof.
  split; [exact with_columns_consistent|].
  exact (X12_add_row_then_get_row_cells with_columns employees sam
           with_columns_consistent with_columns_nonempty sam_accepted).
Defined.

(** X13 at a concrete input: the row [{Name: Sam}]. *)
Lemma X13_witness :
  store_wf with_columns
  ∧ add_row employees sam with_columns = (with_one_row, Ok (mkTableRow 1 employees))
  ∧ to_dict with_one_row (mkTableRow 1 employees) = Raise AttributeError.
Proof.
  assert (Hrun : add_row employees sam with_columns
                 = (with_one_row, Ok (mkTableRow 1 employees))).
  { rewrite (surjective_pairing (add_row employees sam with_columns)) at 1.
    f_equal; reflexivity. }
  split; [exact with_columns_wf|]. split; [exact Hrun|].
  exact (X13_to_dict_fails_on_added_row with_columns with_one_row employees sam
           (mkTableRow 1 employees) with_columns_wf Hrun).
Defined.

(** X14 at a concrete input: the row [{Name: Sam}] and the column [Name]. *)
Lemma X14_witness :
  name_column ∈ table_columns_all with_columns employees
  ∧ ∃ db' the_row cell,
      add_row employees sam with_columns = (db', Ok the_row)
      ∧ get_cell db' employees (column_name name_column) (row_id the_row) = Ok cell
      ∧ row_cell_of employees the_row sam name_column cell.
Proof.
  split; [exact name_column_in|].
  exact (X14_add_row_then_get_cell with_columns employees sam name_column
           with_columns_consistent name_column_in sam_accepted).
Defined.

(** X15 at a concrete input: the row [{Name: Sam, Age: 3o}]. *)
Lemma X15_witness :
  let db' := (add_row employees sam_3o with_columns).1 in
  add_row employees sam_3o with_columns = (db', Raise CantParseValueToDataType)
  ∧ get_row_cells with_columns employees 1 = Raise RowNotInTable
  ∧ get_row_cells db' employees 1 = Ok []
  ∧ table_rows_all db' employees = table_rows_all with_columns employees
  ∧ delete_row employees (Some 1%nat) db' = (db', Raise RowNotInTable).
Proof.
  intros db'.
  assert (Hrun : add_row employees sam_3o with_columns
                 = (db', Raise CantParseValueToDataType)) by reflexivity.
  split; [exact Hrun|].
  exact (X15_failed_add_row_leaves_a_readable_row with_columns db' employees sam_3o
           CantParseValueToDataType with_columns_consistent with_columns_nonempty Hrun).
Defined.

(** X16 at a concrete input: the row [{Name: Sam}], then the empty mapping. *)
Lemma X16_witness :
  store_consistent with_columns
  ∧ ∃ db' rows,
      bulk_add_rows employees [sam; ∅] with_columns = (db', Ok rows)
      ∧ length rows = 2%nat
      ∧ table_rows_all db' employees = table_rows_all with_columns employees ++ rows
      ∧ table_columns_all db' employees = table_columns_all with_columns employees
      ∧ Forall2 (row_holds db' employees (table_columns_all with_columns employees))
                [sam; ∅] rows.
Proof.
  split; [exact with_columns_consistent|].
  apply (X16_bulk_add_rows_appends_in_order with_columns employees [sam; ∅]
           with_columns_consistent with_columns_nonempty).
  intros row column v Hrow Hcolumn Hv.
  apply elem_of_cons in Hrow as [->|Hrow].
  - exact (sam_accepted column v Hcolumn Hv).
  - apply list_elem_of_singleton in Hrow as ->.
    rewrite lookup_empty in Hv. discriminate Hv.
Defined.

(** X17 at a concrete input: [{Name: Sam}], then [{Name: Sam, Age: 3o}]. *)
Lemma X17_witness :
  let db1 := (bulk_add_rows employees [sam] with_columns).1 in
  let db2 := (add_row employees sam_3o db1).1 in
  bulk_add_rows employees [sam] with_columns = (db1, Ok [mkTableRow 1 employees])
  ∧ add_row employees sam_3o db1 = (db2, Raise CantParseValueToDataType)
  ∧ bulk_add_rows employees ([sam] ++ sam_3o :: []) with_columns
    = (db2, Raise CantParseValueToDataType)
  ∧ table_rows_all db2 employees = table_rows_all db1 employees.
Proof.
  intros db1 db2.
  assert (Hfirst : bulk_add_rows employees [sam] with_columns
                   = (db1, Ok [mkTableRow 1 employees])).
  { rewrite (surjective_pairing (bulk_add_rows employees [sam] with_columns)) at 1.
    f_equal; reflexivity. }
  assert (Hrow : add_row employees sam_3o db1
                 = (db2, Raise CantParseValueToDataType)) by reflexivity.
  assert (Hsc : store_consistent db1).
  { apply history_store_consistent.
    eapply history_operation; [apply with_columns_history|].
    apply operation_call, call_bulk_add_rows. }
  split; [exact Hfirst|]. split; [exact Hrow|].
  destruct (X17_bulk_add_rows_keeps_earlier_rows with_columns db1 db2 employees
              [sam] [] sam_3o [mkTableRow 1 employees] CantParseValueToDataType
              Hfirst Hrow) as [Hbatch Hrows].
  split; [exact Hbatch|exact (Hrows Hsc)].
Defined.

(** X18 at a concrete input: [Name: char] and [Age: int] on a new table. *)
Lemma X18_witness :
  NoDup ["Name"; "Age"]
  ∧ ∃ db' columns,
      bulk_add_columns employees ["Name"; "Age"] ["char"; "int"] empty_store
      = (db', Ok columns)
      ∧ column_name <$> columns = ["Name"; "Age"]
      ∧ column_data_type <$> columns = ["char"; "int"]
      ∧ table_columns_all db' employees = table_columns_all empty_store employees ++ columns.
Proof.
  assert (Hnd : NoDup ["Name"; "Age"]).
  { apply NoDup_cons. split.
    - intros Hin. apply list_elem_of_singleton in Hin. discriminate Hin.
    - apply NoDup_singleton. }
  split; [exact Hnd|].
  apply (X18_bulk_add_columns_appends_in_order empty_store employees
           ["Name"; "Age"] ["char"; "int"] store_consistent_empty eq_refl).
  - repeat constructor.
  - exact Hnd.
  - intros n _ Hin. by apply elem_of_nil in Hin.
Defined.

(** X19 at a concrete input: the column [Name] of the table with one row. *)
Lemma X19_witness :
  name_column ∈ table_columns_all with_one_row employees
  ∧ ∃ db',
      delete_column employees (column_name name_column) with_one_row
      = (db', Ok name_column)
      ∧ is_column db' employees (column_name name_column) = Ok false
      ∧ get_column_cells db' employees (column_name name_column)
        = Raise ColumnNotInTable
      ∧ table_columns_all db' employees
        = filter (λ c, column_id c ≠ column_id name_column)
                 (table_columns_all with_one_row employees)
      ∧ CellValue_objects db'
        = filter (λ c, table_column c ≠ column_id name_column)
                 (CellValue_objects with_one_row)
      ∧ table_rows_all db' employees = table_rows_all with_one_row employees.
Proof.
  assert (Hin : name_column ∈ table_columns_all with_one_row employees).
  { change (name_column ∈ [name_column; age_column]). constructor. }
  split; [exact Hin|].
  exact (X19_delete_column_cascades with_one_row employees name_column
           with_one_row_consistent Hin).
Defined.

(** X20 at a concrete input: the one row of the table. *)
Lemma X20_witness :
  let row := mkTableRow 1 employees in
  row ∈ table_rows_all with_one_row employees
  ∧ ∃ db',
      delete_row employees (Some (row_id row)) with_one_row = (db', Ok row)
      ∧ (last (table_rows_all with_one_row employees) = Some row →
         delete_row employees None with_one_row = (db', Ok row))
      ∧ table_rows_all db' employees
        = filter (λ r, row_id r ≠ row_id row) (table_rows_all with_one_row employees)
      ∧ CellValue_objects db'
        = filter (λ c, table_row c ≠ row_id row) (CellValue_objects with_one_row)
      ∧ table_columns_all db' employees = table_columns_all with_one_row employees
      ∧ get_row_cells db' employees (row_id row) = Raise RowNotInTable.
Proof.
  intros row.
  assert (Hin : row ∈ table_rows_all with_one_row employees).
  { change (row ∈ [row]). constructor. }
  split; [exact Hin|].
  exact (X20_delete_row_cascades with_one_row employees row with_one_row_consistent Hin).
Defined.

(** X21 at a concrete input: no key, on the table without rows. *)
Lemma X21_witness :
  delete_row employees None with_columns = (with_columns, Raise AttributeError)
  ∧ with_columns = with_columns
  ∧ ((@None nat = None ∧ table_rows_all with_columns employees = []
      ∧ AttributeError = AttributeError)
     ∨ (∃ pk, None = Some pk
              ∧ (pk ∉ row_id <$> table_rows_all with_columns employees)
              ∧ AttributeError = RowNotInTable)).
Proof.
  split; [reflexivity|].
  exact (X21_delete_row_failures with_columns with_columns employees None AttributeError
           with_columns_consistent eq_refl).
Defined.

(** X22 at a concrete input: the row [{Name: Sam}]. *)
Lemma X22_witness :
  store_consistent with_columns
  ∧ ∃ db1 the_row db2,
      add_row employees sam with_columns = (db1, Ok the_row)
      ∧ delete_row employees None db1 = (db2, Ok the_row)
      ∧ same_data with_columns db2.
Proof.
  split; [exact with_columns_consistent|].
  exact (X22_add_row_then_delete_row with_columns employees sam
           with_columns_consistent with_columns_nonempty sam_accepted).
Defined.
